(** * Homework checker: data model, persistence, range logic and summary

    A shallow embedding of [app.py] (the non-UI part: lines 17-282) and the
    properties of its behaviour.

    Conventions of the embedding.
    - A Python [str] is a Rocq [string] holding its UTF-8 bytes, so the
      text is well-formed Unicode: a str with a lone surrogate, which
      [json.load] makes of an escaped one and which the UTF-8 write of
      [save_state] rejects, is outside the embedding.
    - A Python [int] is a [Z]; [str] of an int is its decimal numeral,
      whatever its size.
    - A Python [dict] is an association list in insertion order; a real
      dict never holds a key twice, which is the predicate [dict_wf].
    - A function that may raise returns a [res]; a function that mutates
      its argument returns the argument's new value next to its outcome.
    - Values decoded from JSON are [pyval]s; a [float] is identified with
      its [repr].
    - A file is identified with what reading it as UTF-8 text gives, and
      with what [json.load] makes of that text: files that differ in
      their line endings only are the same file.  Opening a file that
      exists and writing to it do not fail; decoding it may. *)

From Stdlib Require Import ZArith List String Ascii Bool Lia.
From Stdlib Require Import DecimalString DecimalPos DecimalZ.
From Stdlib Require Import Permutation Sorted.
Import ListNotations.

Open Scope string_scope.
Open Scope Z_scope.

(* ================================================================== *)
(** ** Python values, exceptions and builtins *)
(* ================================================================== *)

Inductive exn : Type :=
| ValueError (msg : string)
| AttributeError
| JSONDecodeError
| UnicodeDecodeError.

Inductive res (A : Type) : Type :=
| Ok (a : A)
| Raise (e : exn).

Arguments Ok {A} a.
Arguments Raise {A} e.

Definition bind {A B : Type} (c : res A) (k : A -> res B) : res B :=
  match c with
  | Ok a => k a
  | Raise e => Raise e
  end.

Notation "x <- c1 ;; c2" := (bind c1 (fun x => c2))
  (at level 61, c1 at next level, right associativity).

Definition raises {A : Type} (c : res A) : Prop :=
  exists e, c = Raise e.

(** A [for] loop whose body may raise, threading the mutated object. *)
Fixpoint for_each {A S : Type} (body : S -> A -> res S) (l : list A) (s : S)
  : res S :=
  match l with
  | [] => Ok s
  | x :: l' => s' <- body s x ;; for_each body l' s'
  end.

(** [map] with a function that may raise, left to right. *)
Fixpoint map_res {A B : Type} (f : A -> res B) (l : list A) : res (list B) :=
  match l with
  | [] => Ok []
  | x :: l' => y <- f x ;; ys <- map_res f l' ;; Ok (y :: ys)
  end.

Definition dict (V : Type) : Type := list (string * V).

#[local] Set Warnings "-register-all".

Inductive pyval : Type :=
| VNone
| VBool (b : bool)
| VInt (n : Z)
| VFloat (repr : string)
| VStr (s : string)
| VList (xs : list pyval)
| VDict (kvs : list (string * pyval)).

Definition nl : string := String (ascii_of_nat 10) EmptyString.

(** *** dict operations *)

Fixpoint dict_get {V : Type} (d : dict V) (k : string) : option V :=
  match d with
  | [] => None
  | (k', v) :: d' => if String.eqb k' k then Some v else dict_get d' k
  end.

(** [k in d] *)
Definition dict_mem {V : Type} (d : dict V) (k : string) : bool :=
  match dict_get d k with
  | Some _ => true
  | None => false
  end.

(** [d[k] = v]: an existing key keeps its position, a new one goes last. *)
Fixpoint dict_set {V : Type} (d : dict V) (k : string) (v : V) : dict V :=
  match d with
  | [] => [(k, v)]
  | (k', v') :: d' =>
      if String.eqb k' k then (k', v) :: d' else (k', v') :: dict_set d' k v
  end.

(** [d.pop(k, None)] *)
Definition dict_pop {V : Type} (d : dict V) (k : string) : dict V :=
  filter (fun kv => negb (String.eqb (fst kv) k)) d.

Definition dict_keys {V : Type} (d : dict V) : list string := map fst d.

Definition dict_wf {V : Type} (d : dict V) : Prop := NoDup (dict_keys d).

(** [k in s] for a set of strings *)
Definition set_mem (s : list string) (k : string) : bool :=
  existsb (String.eqb k) s.

(** [dict_wf], decided. *)
Fixpoint nodupb (l : list string) : bool :=
  match l with
  | [] => true
  | x :: l' => negb (set_mem l' x) && nodupb l'
  end.

Definition dict_wfb {V : Type} (d : dict V) : bool := nodupb (dict_keys d).

(** *** range, str, bool *)

(** [range(a, b)] *)
Definition py_range (a b : Z) : list Z :=
  map (fun i => a + Z.of_nat i) (seq 0 (Z.to_nat (b - a))).

(** [str(n)] for an int *)
Definition str_int (n : Z) : string := NilZero.string_of_int (Z.to_int n).

(** [bool(v)] *)
Definition py_bool (v : pyval) : bool :=
  match v with
  | VNone => false
  | VBool b => b
  | VInt n => negb (n =? 0)
  | VFloat r => negb (String.eqb r "0.0" || String.eqb r "-0.0")
  | VStr s => negb (String.eqb s "")
  | VList xs => match xs with [] => false | _ => true end
  | VDict kvs => match kvs with [] => false | _ => true end
  end.

(** [v.get(k, dflt)]: only a dict has the method. *)
Definition py_get (v : pyval) (k : string) (dflt : pyval) : res pyval :=
  match v with
  | VDict d => Ok (match dict_get d k with Some x => x | None => dflt end)
  | _ => Raise AttributeError
  end.

(** [v.items()] *)
Definition py_items (v : pyval) : res (dict pyval) :=
  match v with
  | VDict d => Ok d
  | _ => Raise AttributeError
  end.

(** [v or {}] *)
Definition or_empty_dict (v : pyval) : pyval :=
  if py_bool v then v else VDict [].

(** *** str.strip() *)

Definition byte (c : ascii) : nat := nat_of_ascii c.

(** One-byte whitespace: U+0009..U+000D, U+001C..U+001F, U+0020. *)
Definition ws1 (c : ascii) : bool :=
  let n := byte c in
  ((9 <=? n) && (n <=? 13) || (28 <=? n) && (n <=? 32))%nat.

(** Two-byte whitespace: U+0085, U+00A0. *)
Definition ws2 (c1 c2 : ascii) : bool :=
  ((byte c1 =? 194) && ((byte c2 =? 133) || (byte c2 =? 160)))%nat.

(** Three-byte whitespace: U+1680, U+2000..U+200A, U+2028, U+2029,
    U+202F, U+205F, U+3000. *)
Definition ws3 (c1 c2 c3 : ascii) : bool :=
  let a := byte c1 in
  let b := byte c2 in
  let c := byte c3 in
  ((a =? 225) && (b =? 154) && (c =? 128)
   || (a =? 226) && (b =? 128)
      && ((128 <=? c) && (c <=? 138) || (c =? 168) || (c =? 169) || (c =? 175))
   || (a =? 226) && (b =? 129) && (c =? 159)
   || (a =? 227) && (b =? 128) && (c =? 128))%nat.

Fixpoint lstrip (s : list ascii) : list ascii :=
  match s with
  | [] => []
  | c1 :: s1 =>
      if ws1 c1 then lstrip s1
      else
        match s1 with
        | [] => s
        | c2 :: s2 =>
            if ws2 c1 c2 then lstrip s2
            else
              match s2 with
              | [] => s
              | c3 :: s3 => if ws3 c1 c2 c3 then lstrip s3 else s
              end
        end
  end.

(** The same scan from the right end, on the reversed bytes. *)
Fixpoint lstrip_rev (s : list ascii) : list ascii :=
  match s with
  | [] => []
  | c1 :: s1 =>
      if ws1 c1 then lstrip_rev s1
      else
        match s1 with
        | [] => s
        | c2 :: s2 =>
            if ws2 c2 c1 then lstrip_rev s2
            else
              match s2 with
              | [] => s
              | c3 :: s3 => if ws3 c3 c2 c1 then lstrip_rev s3 else s
              end
        end
  end.

(** [s.strip()] *)
Definition strip (s : string) : string :=
  string_of_list_ascii
    (rev (lstrip_rev (rev (lstrip (list_ascii_of_string s))))).

(** [sep.join(l)] *)
Fixpoint join (sep : string) (l : list string) : string :=
  match l with
  | [] => ""
  | [x] => x
  | x :: l' => x ++ sep ++ join sep l'
  end.

(** *** int(s) for a str *)

Definition hex_digit (n : nat) : ascii :=
  ascii_of_nat (if (n <? 10)%nat then 48 + n else 87 + n).

(** One character of [repr(s)] inside the quotes [quote]. *)
Definition repr_char (quote c : ascii) : string :=
  let n := byte c in
  if Ascii.eqb c quote || (n =? 92)%nat then String (ascii_of_nat 92) (String c "")
  else if (n =? 9)%nat then String (ascii_of_nat 92) "t"
  else if (n =? 10)%nat then String (ascii_of_nat 92) "n"
  else if (n =? 13)%nat then String (ascii_of_nat 92) "r"
  else if (n <? 32)%nat || (n =? 127)%nat then
    String (ascii_of_nat 92)
      (String "x" (String (hex_digit (n / 16)) (String (hex_digit (n mod 16)) "")))
  else String c "".

Fixpoint repr_body (quote : ascii) (s : string) : string :=
  match s with
  | EmptyString => EmptyString
  | String c s' => repr_char quote c ++ repr_body quote s'
  end.

Fixpoint has_char (c : ascii) (s : string) : bool :=
  match s with
  | EmptyString => false
  | String c' s' => Ascii.eqb c' c || has_char c s'
  end.

(** [repr(s)] for ASCII text: single quotes, or double quotes when the
    text holds a single quote and no double quote. *)
Definition repr_ascii (s : string) : string :=
  let quote :=
    if has_char (ascii_of_nat 39) s && negb (has_char (ascii_of_nat 34) s)
    then ascii_of_nat 34 else ascii_of_nat 39 in
  String quote (repr_body quote s ++ String quote "").

(** What [int] raises on ASCII text that is no literal. *)
Definition int_err (s : string) : exn :=
  ValueError ("invalid literal for int() with base 10: " ++ repr_ascii s).

Definition is_ascii (s : string) : bool :=
  forallb (fun c => (byte c <? 128)%nat) (list_ascii_of_string s).

(** The C-locale blanks the integer parser skips: tab, LF, VT, FF, CR,
    space. *)
Definition int_ws (c : ascii) : bool :=
  let n := byte c in ((9 <=? n) && (n <=? 13) || (n =? 32))%nat.

Fixpoint skip_ws (s : list ascii) : list ascii :=
  match s with
  | c :: s' => if int_ws c then skip_ws s' else s
  | [] => []
  end.

Definition digit_val (c : ascii) : option Z :=
  let n := byte c in
  if ((48 <=? n) && (n <=? 57))%nat then Some (Z.of_nat (n - 48)) else None.

Definition is_underscore (c : ascii) : bool := (byte c =? 95)%nat.

(** Digits with single underscores between them; [prev_us] tells that the
    previous character was an underscore. *)
Fixpoint digits (prev_us : bool) (acc : Z) (s : list ascii) : option Z :=
  match s with
  | [] => if prev_us then None else Some acc
  | c :: s' =>
      if is_underscore c then
        if prev_us then None else digits true acc s'
      else
        match digit_val c with
        | Some d => digits false (10 * acc + d) s'
        | None => None
        end
  end.

Definition digit_string (s : list ascii) : option Z :=
  match s with
  | [] => None
  | c :: _ => if is_underscore c then None else digits false 0 s
  end.

(** [int(s)] on ASCII text: blanks, an optional sign, digits, blanks. *)
Definition int_ascii (s : string) : option Z :=
  let body := rev (skip_ws (rev (skip_ws (list_ascii_of_string s)))) in
  match body with
  | c :: body' =>
      if (byte c =? 45)%nat then option_map Z.opp (digit_string body')
      else if (byte c =? 43)%nat then digit_string body'
      else digit_string body
  | [] => None
  end.

(* ================================================================== *)
(** ** Data model (app.py, lines 17-43) *)
(* ================================================================== *)

Definition STATUSES : list string := ["완료"; "틀림"; "틀렸지만 고침"; "질문"].

Record Problem : Type := mkProblem {
  status : string;
  memo : string
}.

(** [B] is the type of the page and problem bounds: [option Z] for a state
    that respects the annotations ([Optional[int]]), [pyval] for a state
    as [load_state] builds it, which stores the decoded values unchecked. *)
Record PageUnitOf (B : Type) : Type := mkPageUnit {
  done : bool;
  start_problem : B;
  end_problem : B;
  problems : dict Problem
}.

Arguments mkPageUnit {B} _ _ _ _.
Arguments done {B} _.
Arguments start_problem {B} _.
Arguments end_problem {B} _.
Arguments problems {B} _.

Record AppStateOf (B : Type) : Type := mkAppState {
  book_name : string;
  start_page : B;
  end_page : B;
  pages : dict (PageUnitOf B)
}.

Arguments mkAppState {B} _ _ _ _.
Arguments book_name {B} _.
Arguments start_page {B} _.
Arguments end_page {B} _.
Arguments pages {B} _.

Definition PageUnit : Type := PageUnitOf (option Z).
Definition AppState : Type := AppStateOf (option Z).
Definition LoadedPageUnit : Type := PageUnitOf pyval.
Definition LoadedState : Type := AppStateOf pyval.

(** [Problem()] *)
Definition default_Problem : Problem := mkProblem "완료" "".

(** [PageUnit()] *)
Definition default_PageUnit : PageUnit := mkPageUnit false None None [].

(** [AppState()] *)
Definition default_AppState : AppState := mkAppState "" None None [].

(* ================================================================== *)
(** ** The application *)
(* ================================================================== *)

(** Closed instances of the two builtins the section below leaves open,
    for evaluating it on examples. *)
Definition repr_placeholder (v : pyval) : string := "<container>".
Definition int_ascii_only (s : string) : res Z := Raise (int_err s).

Section App.

#[local] Set Default Proof Using "Type".

(** Two builtins are left open, for inputs no property below depends on:
    [str(v)] of a list or dict (Python's [repr] of nested values), and
    [int(s)] of text with characters outside ASCII (Unicode digits and
    blanks). *)
Variable str_of_container : pyval -> string.
Variable int_of_unicode : string -> res Z.

(** Keeps a proof from depending on a builtin its statement does not
    mention. *)
Ltac forget_builtins :=
  try clear str_of_container; try clear int_of_unicode.

(** [str(v)] *)
Definition py_str (v : pyval) : string :=
  match v with
  | VNone => "None"
  | VBool true => "True"
  | VBool false => "False"
  | VInt n => str_int n
  | VFloat r => r
  | VStr s => s
  | VList _ | VDict _ => str_of_container v
  end.

(** [int(s)] *)
Definition py_int (s : string) : res Z :=
  if is_ascii s then
    match int_ascii s with
    | Some n => Ok n
    | None => Raise (int_err s)
    end
  else int_of_unicode s.

(* ------------------------------------------------------------------ *)
(** *** Persistence (lines 49-106) *)
(* ------------------------------------------------------------------ *)

(** What reading a file as UTF-8 text gives: text that [json.load] parses
    to a value, text that it rejects, or no text, the bytes being no
    UTF-8. *)
Inductive file : Type :=
| JsonDoc (v : pyval)
| Garbled (text : string)
| Undecodable.

Record Disk : Type := mkDisk {
  STATE_FILE : option file;
  BAK_FILE : option file
}.

(** An [Optional[int]] as [json.dump] writes it. *)
Definition json_of_bound (b : option Z) : pyval :=
  match b with
  | Some n => VInt n
  | None => VNone
  end.

(** [asdict(v)] for a [Problem] *)
Definition asdict (v : Problem) : pyval :=
  VDict [("status", VStr (status v)); ("memo", VStr (memo v))].

(** The entry [save_state] stores for one page (lines 66-71). *)
Definition raw_page (pu : PageUnit) : pyval :=
  VDict [ ("done", VBool (done pu));
          ("start_problem", json_of_bound (start_problem pu));
          ("end_problem", json_of_bound (end_problem pu));
          ("problems",
           VDict (fold_left (fun acc kv => dict_set acc (fst kv) (asdict (snd kv)))
                            (problems pu) [])) ].

(** The document [save_state] serializes (lines 59-71). *)
Definition raw_state (state : AppState) : pyval :=
  VDict [ ("book_name", VStr (book_name state));
          ("start_page", json_of_bound (start_page state));
          ("end_page", json_of_bound (end_page state));
          ("pages",
           VDict (fold_left (fun acc kv => dict_set acc (fst kv) (raw_page (snd kv)))
                            (pages state) [])) ].

(** Lines 50-57: the text of the state file, when there is one and it can
    be read, is written to the backup; when the read fails the backup is
    left as it is. *)
Definition save_state (state : AppState) (disk : Disk) : Disk :=
  let bak :=
    match STATE_FILE disk with
    | Some Undecodable => BAK_FILE disk
    | Some old => Some old
    | None => BAK_FILE disk
    end in
  mkDisk (Some (JsonDoc (raw_state state))) bak.

(** [json.load(f)] *)
Definition json_load (f : file) : res pyval :=
  match f with
  | JsonDoc v => Ok v
  | Garbled _ => Raise JSONDecodeError
  | Undecodable => Raise UnicodeDecodeError
  end.

(** Lines 98-101: one problem entry. *)
Definition load_problem (v : pyval) : res Problem :=
  st <- py_get v "status" (VStr "완료") ;;
  me <- py_get v "memo" (VStr "") ;;
  Ok (mkProblem (py_str st) (py_str me)).

(** Lines 91-101: one page entry. *)
Definition load_page (pu : pyval) : res LoadedPageUnit :=
  dn <- py_get pu "done" (VBool false) ;;
  sp <- py_get pu "start_problem" VNone ;;
  ep <- py_get pu "end_problem" VNone ;;
  pr <- py_get pu "problems" (VDict []) ;;
  items <- py_items (or_empty_dict pr) ;;
  probs <- for_each (fun acc kv =>
                       p <- load_problem (snd kv) ;;
                       Ok (dict_set acc (fst kv) p))
                    items [] ;;
  Ok (mkPageUnit (py_bool dn) sp ep probs).

(** Lines 81-104: the body of the [try]. *)
Definition load_body (f : file) : res LoadedState :=
  raw <- json_load f ;;
  bn <- py_get raw "book_name" (VStr "") ;;
  sp <- py_get raw "start_page" VNone ;;
  ep <- py_get raw "end_page" VNone ;;
  pg <- py_get raw "pages" (VDict []) ;;
  items <- py_items (or_empty_dict pg) ;;
  pgs <- for_each (fun acc kv =>
                     unit <- load_page (snd kv) ;;
                     Ok (dict_set acc (fst kv) unit))
                  items [] ;;
  Ok (mkAppState (py_str bn) sp ep pgs).

Definition load_state (disk : Disk) : res (option LoadedState) :=
  match STATE_FILE disk with
  | None => Ok None
  | Some f =>
      match load_body f with
      | Ok stt => Ok (Some stt)
      | Raise _ => Ok None
      end
  end.

Definition reset_disk (disk : Disk) : Disk := mkDisk None None.

(* ------------------------------------------------------------------ *)
(** *** Range logic (lines 206-240) *)
(* ------------------------------------------------------------------ *)

Definition clamp_pages (sp ep : Z) : Z * Z :=
  if sp <=? ep then (sp, ep) else (ep, sp).

Definition ensure_pages_initialized (state : AppState) : AppState :=
  match start_page state, end_page state with
  | Some s, Some e =>
      let '(sp, ep) := clamp_pages s e in
      let pgs :=
        fold_left (fun pgs p =>
                     let k := str_int p in
                     if dict_mem pgs k then pgs
                     else dict_set pgs k default_PageUnit)
                  (py_range sp (ep + 1)) (pages state) in
      mkAppState (book_name state) (Some sp) (Some ep) pgs
  | _, _ => state
  end.

(** The outcome of the call, next to the page unit as the call leaves it. *)
Definition apply_problem_range (pu : PageUnit) (start_n end_n : Z)
  : res unit * PageUnit :=
  if (start_n <=? 0) || (end_n <=? 0) then
    (Raise (ValueError "문항 번호는 1 이상이어야 합니다."), pu)
  else
    let '(start_n, end_n) :=
      if start_n >? end_n then (end_n, start_n) else (start_n, end_n) in
    if (end_n - start_n) >? 500 then
      (Raise (ValueError "범위가 너무 큽니다(500개 초과)."), pu)
    else
      let keep := map str_int (py_range start_n (end_n + 1)) in
      let probs :=
        fold_left (fun probs i =>
                     let pk := str_int i in
                     if dict_mem probs pk then probs
                     else dict_set probs pk (mkProblem "완료" ""))
                  (py_range start_n (end_n + 1)) (problems pu) in
      let probs :=
        fold_left (fun probs pk =>
                     if set_mem keep pk then probs else dict_pop probs pk)
                  (dict_keys probs) probs in
      (Ok tt, mkPageUnit (done pu) (Some start_n) (Some end_n) probs).

(* ------------------------------------------------------------------ *)
(** *** Summary (lines 243-282) *)
(* ------------------------------------------------------------------ *)

(** Stable insertion of a keyed item into a list sorted by key. *)
Fixpoint insert_by_key {A : Type} (x : Z * A) (l : list (Z * A))
  : list (Z * A) :=
  match l with
  | [] => [x]
  | y :: l' =>
      if fst x <=? fst y then x :: y :: l' else y :: insert_by_key x l'
  end.

(** [sorted] on items that carry their key: ascending, stable. *)
Definition sort_by_key {A : Type} (l : list (Z * A)) : list (Z * A) :=
  fold_right insert_by_key [] l.

(** [sorted(d.items(), key=lambda kv: int(kv[0]))]: the keys are computed
    first (any of them may raise), then the items are ordered. *)
Definition sorted_items {V : Type} (d : dict V) : res (dict V) :=
  keyed <- map_res (fun kv => n <- py_int (fst kv) ;; Ok (n, kv)) d ;;
  Ok (map snd (sort_by_key keyed)).

(** The three lists the loops fill. *)
Record Groups : Type := mkGroups {
  wrong : list string;
  fixed : list string;
  ques : list string
}.

Definition tag_of (p : Z) (num : string) : string :=
  "[p." ++ str_int p ++ " " ++ num ++ "번]".

(** Lines 259-266: the body of the inner loop. *)
Definition visit_problem (p : Z) (g : Groups) (kv : string * Problem)
  : Groups :=
  let num := fst kv in
  let pr := snd kv in
  let tag := tag_of p num in
  if String.eqb (status pr) "틀림" then
    mkGroups (wrong g ++ [tag]) (fixed g) (ques g)
  else if String.eqb (status pr) "틀렸지만 고침" then
    mkGroups (wrong g) (fixed g ++ [tag]) (ques g)
  else if String.eqb (status pr) "질문" then
    let memo := strip (memo pr) in
    mkGroups (wrong g) (fixed g)
             (ques g ++ [if String.eqb memo "" then tag ++ " (메모 없음)"
                         else tag ++ " " ++ memo])
  else g.

(** Lines 253-266: the body of the outer loop. *)
Definition visit_page (state : AppState) (g : Groups) (p : Z) : res Groups :=
  let pk := str_int p in
  match dict_get (pages state) pk with
  | None => Ok g
  | Some unit =>
      match problems unit with
      | [] => Ok g
      | _ =>
          items <- sorted_items (problems unit) ;;
          Ok (fold_left (visit_problem p) items g)
      end
  end.

(** Lines 252-266: the three lists for the pages [sp..ep]. *)
Definition collect (state : AppState) (sp ep : Z) : res Groups :=
  for_each (visit_page state) (py_range sp (ep + 1)) (mkGroups [] [] []).

(** Lines 268-282: the report; [today] is the date, as [%Y-%m-%d]. *)
Definition render (state : AppState) (sp ep : Z) (today : string)
  (g : Groups) : string :=
  join nl
    [ "✅ 오늘 숙제 정리";
      "- 문제집: " ++ (if String.eqb (book_name state) "" then "(미입력)"
                       else book_name state);
      "- 범위: p." ++ str_int sp ++ " ~ p." ++ str_int ep;
      "- 날짜: " ++ today;
      "";
      "❌ 틀림";
      match wrong g with [] => "없음" | _ => join ", " (wrong g) end;
      "";
      "🛠️ 틀렸지만 고침";
      match fixed g with [] => "없음" | _ => join ", " (fixed g) end;
      "";
      "❓ 질문 + 메모";
      match ques g with [] => "없음" | _ => join nl (ques g) end ].

(** [today] is what [dt.datetime.now().strftime('%Y-%m-%d')] returns
    during the call. *)
Definition build_summary (state : AppState) (today : string) : res string :=
  match start_page state, end_page state with
  | Some s, Some e =>
      let '(sp, ep) := clamp_pages s e in
      g <- collect state sp ep ;;
      Ok (render state sp ep today g)
  | _, _ => Ok "숙제 범위가 설정되지 않았습니다."
  end.

(* ------------------------------------------------------------------ *)
(** *** Vocabulary of the properties *)
(* ------------------------------------------------------------------ *)

Definition is_ok {A : Type} (c : res A) : bool :=
  match c with
  | Ok _ => true
  | Raise _ => false
  end.

Definition raises_ValueError {A : Type} (c : res A) : Prop :=
  exists msg, c = Raise (ValueError msg).

(** A state of the annotated types, seen as [load_state] would build it. *)
Definition loaded_page (pu : PageUnit) : LoadedPageUnit :=
  mkPageUnit (done pu) (json_of_bound (start_problem pu))
             (json_of_bound (end_problem pu)) (problems pu).

Definition loaded_of (state : AppState) : LoadedState :=
  mkAppState (book_name state) (json_of_bound (start_page state))
             (json_of_bound (end_page state))
             (map (fun kv => (fst kv, loaded_page (snd kv))) (pages state)).

(** Every dict of the state is a dict: no key twice. *)
Definition state_wf (state : AppState) : Prop :=
  dict_wf (pages state)
  /\ forall kv, In kv (pages state) -> dict_wf (problems (snd kv)).

Definition state_wfb (state : AppState) : bool :=
  dict_wfb (pages state)
  && forallb (fun kv => dict_wfb (problems (snd kv))) (pages state).

Definition is_dict (v : pyval) : bool :=
  match v with
  | VDict _ => true
  | _ => false
  end.

(** A field read as a mapping ([field or {}], then [.items()]): missing or
    falsy stands for the empty mapping, anything else has to be an object,
    and [each] has to hold of its values. *)
Definition mapping_ok (each : pyval -> bool) (field : option pyval) : bool :=
  match field with
  | None => true
  | Some v =>
      if py_bool v then
        match v with
        | VDict items => forallb (fun kv => each (snd kv)) items
        | _ => false
        end
      else true
  end.

(** The entries of such a field. *)
Definition mapping_items (field : option pyval) : dict pyval :=
  match field with
  | Some (VDict items) => items
  | _ => []
  end.

(** The structure the decoder relies on: the document is an object, its
    pages are an object of objects, the problems of a page are an object
    of objects. *)
Definition page_structure_ok (pu : pyval) : bool :=
  match pu with
  | VDict d => mapping_ok is_dict (dict_get d "problems")
  | _ => false
  end.

Definition structure_ok (raw : pyval) : bool :=
  match raw with
  | VDict d => mapping_ok page_structure_ok (dict_get d "pages")
  | _ => false
  end.

(** The fields an entry lacks hold their defaults in what is decoded from
    it: for a problem, a page, and the document. *)
Definition problem_defaults (vd : dict pyval) (pr : Problem) : Prop :=
  (dict_get vd "status" = None -> status pr = "완료")
  /\ (dict_get vd "memo" = None -> memo pr = "").

Definition page_defaults (pd : dict pyval) (unit : LoadedPageUnit) : Prop :=
  (dict_get pd "done" = None -> done unit = false)
  /\ (dict_get pd "start_problem" = None -> start_problem unit = VNone)
  /\ (dict_get pd "end_problem" = None -> end_problem unit = VNone)
  /\ (dict_get pd "problems" = None -> problems unit = [])
  /\ (forall k pr, dict_get (problems unit) k = Some pr ->
        exists vd, In (k, VDict vd) (mapping_items (dict_get pd "problems"))
                   /\ problem_defaults vd pr).

Definition state_defaults (d : dict pyval) (stt : LoadedState) : Prop :=
  (dict_get d "book_name" = None -> book_name stt = "")
  /\ (dict_get d "start_page" = None -> start_page stt = VNone)
  /\ (dict_get d "end_page" = None -> end_page stt = VNone)
  /\ (dict_get d "pages" = None -> pages stt = [])
  /\ (forall pk unit, dict_get (pages stt) pk = Some unit ->
        exists pd, In (pk, VDict pd) (mapping_items (dict_get d "pages"))
                   /\ page_defaults pd unit).

(** A saved document whose only problem carries the status [s]. *)
Definition doc_with_status (s : string) : pyval :=
  VDict [("pages",
          VDict [("1",
                  VDict [("problems",
                          VDict [("1", VDict [("status", VStr s)])])])])].

(** The problems of page [p], none when the page has no unit. *)
Definition problems_at (state : AppState) (p : Z) : dict Problem :=
  match dict_get (pages state) (str_int p) with
  | Some unit => problems unit
  | None => []
  end.

(** Order of two problem entries by the numeric value of their keys. *)
Definition key_le (kv1 kv2 : string * Problem) : Prop :=
  exists n1 n2, py_int (fst kv1) = Ok n1 /\ py_int (fst kv2) = Ok n2 /\ n1 <= n2.

(** Reading order: by page, then by the numeric value of the key. *)
Definition visit_le (v1 v2 : Z * (string * Problem)) : Prop :=
  fst v1 < fst v2 \/ (fst v1 = fst v2 /\ key_le (snd v1) (snd v2)).

Definition fst_le {A : Type} (a b : Z * A) : Prop := fst a <= fst b.

(** The problems the summary reads, in reading order, each with its page:
    page after page of [sp..ep], the problems of a page as [sorted] gives
    them. *)
Definition visits (state : AppState) (sp ep : Z)
  : res (list (Z * (string * Problem))) :=
  per_page <- map_res (fun p =>
                         items <- sorted_items (problems_at state p) ;;
                         Ok (map (pair p) items))
                      (py_range sp (ep + 1)) ;;
  Ok (List.concat per_page).

Definition has_status (s : string) (v : Z * (string * Problem)) : bool :=
  String.eqb (status (snd (snd v))) s.

Definition tag_line (v : Z * (string * Problem)) : string :=
  tag_of (fst v) (fst (snd v)).

(** The line of a question: the tag, then the trimmed memo or the
    placeholder. *)
Definition ques_line (v : Z * (string * Problem)) : string :=
  if String.eqb (strip (memo (snd (snd v)))) ""
  then tag_line v ++ " (메모 없음)"
  else tag_line v ++ " " ++ strip (memo (snd (snd v))).

(** The three sections, each as a selection from the problems read. *)
Definition groups_of (vs : list (Z * (string * Problem))) : Groups :=
  mkGroups (map tag_line (filter (has_status "틀림") vs))
           (map tag_line (filter (has_status "틀렸지만 고침") vs))
           (map ques_line (filter (has_status "질문") vs)).

(** Every key of every page of [sp..ep] reads as an int. *)
Definition keys_numeric (state : AppState) (sp ep : Z) : Prop :=
  forall p kv, sp <= p <= ep -> In kv (problems_at state p) ->
               exists n, py_int (fst kv) = Ok n.

(** A problem whose status is one of the three the summary reports. *)
Definition reportable (pr : Problem) : bool :=
  set_mem ["틀림"; "틀렸지만 고침"; "질문"] (status pr).

(** The state without the problems that are not [reportable]. *)
Definition prune_page (pu : PageUnit) : PageUnit :=
  mkPageUnit (done pu) (start_problem pu) (end_problem pu)
             (filter (fun kv => reportable (snd kv)) (problems pu)).

Definition prune_state (state : AppState) : AppState :=
  mkAppState (book_name state) (start_page state) (end_page state)
             (map (fun kv => (fst kv, prune_page (snd kv))) (pages state)).

Definition groups_app (g1 g2 : Groups) : Groups :=
  mkGroups (wrong g1 ++ wrong g2) (fixed g1 ++ fixed g2) (ques g1 ++ ques g2).

(** The state of the summary example: pages 1-2, problem 3 of page 1
    wrong, problem 5 of page 2 a question with the memo "why". *)
Definition summary_example : AppState :=
  mkAppState "" (Some 1) (Some 2)
    [ ("1", mkPageUnit false (Some 3) (Some 3) [("3", mkProblem "틀림" "")]);
      ("2", mkPageUnit false (Some 5) (Some 5) [("5", mkProblem "질문" "why")]) ].

(** States and documents the examples are evaluated on. *)
Definition sample_unit : PageUnit :=
  mkPageUnit true (Some 3) (Some 9)
    [ ("3", mkProblem "틀림" "x"); ("03", mkProblem "질문" " hi ");
      ("9", mkProblem "질문" ""); ("10", mkProblem "틀렸지만 고침" "") ].

Definition sample_state : AppState :=
  mkAppState "RPM" (Some 3) (Some 1) [("2", sample_unit); ("7", sample_unit)].

Definition sample_doc : pyval :=
  VDict [ ("start_page", VInt 4);
          ("pages", VDict [("4", VDict [("done", VInt 1);
                                        ("problems", VDict [("1", VDict [])])])]) ].

(* ------------------------------------------------------------------ *)
(** *** The copy button (lines 165-194) *)
(* ------------------------------------------------------------------ *)

Definition backslash : ascii := ascii_of_nat 92.
Definition backtick : ascii := ascii_of_nat 96.
Definition dq : string := String (ascii_of_nat 34) EmptyString.

(** [s.replace(old, new)] for an [old] of one ASCII character. *)
Fixpoint replace_char (old : ascii) (new : string) (s : string) : string :=
  match s with
  | EmptyString => EmptyString
  | String c s' =>
      if Ascii.eqb c old then new ++ replace_char old new s'
      else String c (replace_char old new s')
  end.

(** Line 166: backslashes are doubled, then every backtick gets a
    backslash. *)
Definition escape_js (text : string) : string :=
  replace_char backtick (String backslash (String backtick EmptyString))
    (replace_char backslash (String backslash (String backslash EmptyString))
       text).

(** Lines 167-179: the markup up to the opening backtick of the script constant. *)
Definition html_head : string :=
  join nl
    [ "";
      join dq ["    <div style="; "display:flex; gap:10px; align-items:center; margin:6px 0 14px 0;"; ">"];
      join dq ["      <button id="; "copyBtn"; ""];
      join dq ["        style="; ""];
      "          border:none; border-radius:14px; padding:10px 14px;";
      "          background:#f1b7c6; color:#3a2a2f; font-weight:800; cursor:pointer;";
      "          box-shadow: 0 6px 16px rgba(0,0,0,0.08);";
      join dq ["        "; ">"];
      "        📋 한 번에 복사";
      "      </button>";
      join dq ["      <span id="; "copyMsg"; " style="; "color:#5b3f49; font-size:14px;"; "></span>"];
      "    </div>";
      "    <script>";
      "      const text = `" ].

(** Lines 180-194: from the closing backtick on. *)
Definition html_tail : string :=
  join nl
    [ "`;";
      join dq ["      const btn = document.getElementById("; "copyBtn"; ");"];
      join dq ["      const msg = document.getElementById("; "copyMsg"; ");"];
      join dq ["      btn.addEventListener("; "click"; ", async () => {"];
      "        try {";
      "          await navigator.clipboard.writeText(text);";
      join dq ["          msg.textContent = "; "복사 완료!"; ";"];
      join dq ["          setTimeout(()=>msg.textContent="; ""; ", 1400);"];
      "        } catch (e) {";
      join dq ["          msg.textContent = "; "복사 실패(브라우저 권한 확인)"; ";"];
      join dq ["          setTimeout(()=>msg.textContent="; ""; ", 2200);"];
      "        }";
      "      });";
      "    </script>";
      "    " ].

Definition copy_button_html (text : string) : string :=
  html_head ++ escape_js text ++ html_tail.

(** How a script reads the body of a template literal, as far as
    backslashes and backticks go: a backslash takes the next character
    with it, a backtick on its own ends the literal.  [None]: the literal
    ends inside the body; [Some true]: the body ends on a backslash, which
    takes the closing backtick; [Some false]: the body is the whole
    literal. *)
Fixpoint scan_literal (pending : bool) (body : string) : option bool :=
  match body with
  | EmptyString => Some pending
  | String c body' =>
      if pending then scan_literal false body'
      else if Ascii.eqb c backslash then scan_literal true body'
      else if Ascii.eqb c backtick then None
      else scan_literal false body'
  end.

(** Dropping the backslash in front of each character that has one. *)
Fixpoint unescape_js (s : string) : string :=
  match s with
  | EmptyString => EmptyString
  | String c s' =>
      if Ascii.eqb c backslash then
        match s' with
        | EmptyString => EmptyString
        | String c' s'' => String c' (unescape_js s'')
        end
      else String c (unescape_js s')
  end.

(* ------------------------------------------------------------------ *)
(** *** Views (lines 197-203, 296-301, 358-361, 418-423, 505-514, 552,
        565-566) *)
(* ------------------------------------------------------------------ *)

(** The part of [st.session_state] that routes the views. *)
Record Session : Type := mkSession {
  view : string;
  active_page : option string;
  active_problem : option string
}.

(** Lines 296-301. *)
Definition initial_session : Session := mkSession "home" None None.

(** [goto(view, page, problem)]: the session it leaves when it asks for
    the rerun. *)
Definition goto (v : string) (page problem : option string) (ss : Session)
  : Session :=
  mkSession v
    (match page with Some p => Some p | None => active_page ss end)
    (match problem with Some p => Some p | None => active_problem ss end).

(** [not k or k not in d] for a key that may be [None]. *)
Definition key_missing {V : Type} (k : option string) (d : dict V) : bool :=
  match k with
  | None => true
  | Some s => String.eqb s "" || negb (dict_mem d s)
  end.

(** What one run of the script decides at the head of the views: the
    body of a view is entered, or [goto] asks for a rerun. *)
Inductive Routed : Type :=
| Entered (v : string)
| Rerun (ss : Session).

Definition route (state : AppState) (ss : Session) : Routed :=
  if String.eqb (view ss) "home" then Entered "home"
  else if String.eqb (view ss) "page" then
    if key_missing (active_page ss) (pages state)
    then Rerun (goto "home" None None ss)
    else Entered "page"
  else if String.eqb (view ss) "problem" then
    if key_missing (active_page ss) (pages state)
    then Rerun (goto "home" None None ss)
    else
      match active_page ss with
      | Some pk =>
          match dict_get (pages state) pk with
          | Some unit =>
              if key_missing (active_problem ss) (problems unit)
              then Rerun (goto "page" (Some pk) None ss)
              else Entered "problem"
          | None => Rerun (goto "home" None None ss)
          end
      | None => Rerun (goto "home" None None ss)
      end
  else if String.eqb (view ss) "summary" then Entered "summary"
  else Rerun (goto "home" None None ss).

(** Runs of the script until the body of a view is entered, at most
    [fuel] of them. *)
Fixpoint settle (fuel : nat) (state : AppState) (ss : Session)
  : option (string * Session) :=
  match fuel with
  | O => None
  | S fuel' =>
      match route state ss with
      | Entered v => Some (v, ss)
      | Rerun ss' => settle fuel' state ss'
      end
  end.

(* ------------------------------------------------------------------ *)
(** *** Home view: progress (lines 384-392) *)
(* ------------------------------------------------------------------ *)

(** [(done_cnt, total)] of the caption; [None] when the range is not set
    and the view stops before. *)
Definition home_progress (state : AppState) : option (Z * Z) :=
  match start_page state, end_page state with
  | Some s, Some e =>
      let '(sp2, ep2) := clamp_pages s e in
      let total := ep2 - sp2 + 1 in
      let done_cnt :=
        Z.of_nat
          (List.length
             (filter (fun p =>
                        done match dict_get (pages state) (str_int p) with
                             | Some unit => unit
                             | None => default_PageUnit
                             end)
                     (py_range sp2 (ep2 + 1)))) in
      Some (done_cnt, total)
  | _, _ => None
  end.

(* ------------------------------------------------------------------ *)
(** *** Page view: the rows shown (lines 465-478) *)
(* ------------------------------------------------------------------ *)

Fixpoint starts_with (p s : string) : bool :=
  match p, s with
  | EmptyString, _ => true
  | String a p', String b s' => Ascii.eqb a b && starts_with p' s'
  | String _ _, EmptyString => false
  end.

(** [needle in hay] *)
Fixpoint contains (needle hay : string) : bool :=
  starts_with needle hay
  || match hay with
     | EmptyString => false
     | String _ hay' => contains needle hay'
     end.

(** Lines 471-478: whether the row of a problem passes the status filter
    and the memo search. *)
Definition row_shown (show_only search : string) (pr : Problem) : bool :=
  if negb (String.eqb show_only "전체")
     && negb (String.eqb (status pr) show_only)
  then false
  else if negb (String.eqb (strip search) "") then
    if String.eqb (status pr) "질문"
    then contains (strip search) (memo pr)
    else false
  else true.

(** [sorted(d.keys(), key=lambda x: int(x))] *)
Definition sorted_keys {V : Type} (d : dict V) : res (list string) :=
  keyed <- map_res (fun k => n <- py_int k ;; Ok (n, k)) (dict_keys d) ;;
  Ok (map snd (sort_by_key keyed)).

(** Lines 468-478: the problems whose row is drawn, in drawing order, in
    a run in which no widget of a row fires. *)
Definition page_rows (unit : PageUnit) (show_only search : string)
  : res (list (string * Problem)) :=
  nums <- sorted_keys (problems unit) ;;
  Ok (flat_map (fun num =>
                  match dict_get (problems unit) num with
                  | Some pr =>
                      if row_shown show_only search pr then [(num, pr)] else []
                  | None => []
                  end) nums).

(** More states the examples are evaluated on. *)
Definition summary_example_variant : AppState :=
  mkAppState "" (Some 2) (Some 1)
    [ ("9", sample_unit);
      ("2", mkPageUnit true None None [("5", mkProblem "질문" "why")]);
      ("1", mkPageUnit true None None [("3", mkProblem "틀림" "")]) ].

Definition bad_key_state : AppState :=
  mkAppState "" (Some 1) (Some 1)
    [("1", mkPageUnit false None None [("abc", mkProblem "틀림" "")])].


(* ------------------------------------------------------------------ *)
(** *** The file format as section 6 of the specification words it *)
(* ------------------------------------------------------------------ *)

(** A field that is missing is in order; one that is there has to pass
    [check]. *)
Definition field_ok (check : pyval -> bool) (d : dict pyval) (k : string)
  : bool :=
  match dict_get d k with
  | None => true
  | Some v => check v
  end.

Definition is_string (v : pyval) : bool :=
  match v with VStr _ => true | _ => false end.

Definition is_boolean (v : pyval) : bool :=
  match v with VBool _ => true | _ => false end.

(** "integer or absent" *)
Definition is_int_or_null (v : pyval) : bool :=
  match v with VInt _ | VNone => true | _ => false end.

(** "string enum" *)
Definition is_status (v : pyval) : bool :=
  match v with VStr s => set_mem STATUSES s | _ => false end.

(** "mapping of string to ..." *)
Definition spec_mapping_ok (each : pyval -> bool) (v : pyval) : bool :=
  match v with
  | VDict items => forallb (fun kv => each (snd kv)) items
  | _ => false
  end.

Definition spec_problem_ok (v : pyval) : bool :=
  match v with
  | VDict d => field_ok is_status d "status" && field_ok is_string d "memo"
  | _ => false
  end.

Definition spec_page_ok (v : pyval) : bool :=
  match v with
  | VDict d =>
      field_ok is_boolean d "done"
      && field_ok is_int_or_null d "start_problem"
      && field_ok is_int_or_null d "end_problem"
      && field_ok (spec_mapping_ok spec_problem_ok) d "problems"
  | _ => false
  end.

(** A document of the format; one that is not has the wrong structure. *)
Definition spec_format_ok (v : pyval) : bool :=
  match v with
  | VDict d =>
      field_ok is_string d "book_name"
      && field_ok is_int_or_null d "start_page"
      && field_ok is_int_or_null d "end_page"
      && field_ok (spec_mapping_ok spec_page_ok) d "pages"
  | _ => false
  end.

(* ------------------------------------------------------------------ *)
(** *** Blanks at the ends of a text *)
(* ------------------------------------------------------------------ *)

(** A run of whitespace characters, in their UTF-8 encodings. *)
Inductive blanks : list ascii -> Prop :=
| blanks_nil : blanks []
| blanks_1 c l : ws1 c = true -> blanks l -> blanks (c :: l)
| blanks_2 c1 c2 l : ws2 c1 c2 = true -> blanks l -> blanks (c1 :: c2 :: l)
| blanks_3 c1 c2 c3 l :
    ws3 c1 c2 c3 = true -> blanks l -> blanks (c1 :: c2 :: c3 :: l).

(** The text begins with a whitespace character. *)
Definition starts_blank (l : list ascii) : bool :=
  match l with
  | [] => false
  | c1 :: l1 =>
      ws1 c1
      || match l1 with
         | [] => false
         | c2 :: l2 =>
             ws2 c1 c2
             || match l2 with
                | [] => false
                | c3 :: _ => ws3 c1 c2 c3
                end
         end
  end.

(** The text ends with a whitespace character. *)
Definition ends_blank (l : list ascii) : bool :=
  match rev l with
  | [] => false
  | c1 :: l1 =>
      ws1 c1
      || match l1 with
         | [] => false
         | c2 :: l2 =>
             ws2 c2 c1
             || match l2 with
                | [] => false
                | c3 :: _ => ws3 c3 c2 c1
                end
         end
  end.

(** More states the examples are evaluated on: statuses the summary does
    not report, and memos with blanks around them (spaces, a tab and a
    line feed; a no-break space U+00A0 and an ideographic space U+3000;
    blanks only). *)
Definition mixed_status_state : AppState :=
  mkAppState "RPM" (Some 1) (Some 1)
    [("1", mkPageUnit false (Some 1) (Some 4)
             [ ("1", mkProblem "완료" "m"); ("2", mkProblem "보류" "later");
               ("3", mkProblem "틀림" ""); ("4", mkProblem "완료" "") ])].

Definition tab : string := String (ascii_of_nat 9) EmptyString.
Definition nbsp : string :=
  String (ascii_of_nat 194) (String (ascii_of_nat 160) EmptyString).
Definition ideographic_space : string :=
  String (ascii_of_nat 227)
    (String (ascii_of_nat 128) (String (ascii_of_nat 128) EmptyString)).

Definition padded_memo_state : AppState :=
  mkAppState "RPM" (Some 7) (Some 7)
    [("7", mkPageUnit false (Some 1) (Some 3)
             [ ("1", mkProblem "질문" ("  why so " ++ tab ++ nl));
               ("2", mkProblem "질문" (nbsp ++ "a  b" ++ ideographic_space));
               ("3", mkProblem "질문" (" " ++ tab ++ nl ++ nbsp)) ])].


(** Keys out of order, two keys of the same numeric value, a page range
    given backwards, a page outside the range and a problem that is
    done. *)
Definition unordered_state : AppState :=
  mkAppState "쎈" (Some 3) (Some 2)
    [ ("3", mkPageUnit false (Some 2) (Some 11)
              [ ("10", mkProblem "틀림" ""); ("9", mkProblem "틀림" "x");
                ("2", mkProblem "틀렸지만 고침" "");
                ("11", mkProblem "질문" " a "); ("09", mkProblem "틀림" "") ]);
      ("2", mkPageUnit true (Some 1) (Some 12)
              [ ("12", mkProblem "틀림" ""); ("1", mkProblem "완료" "memo");
                ("3", mkProblem "틀렸지만 고침" "") ]);
      ("4", mkPageUnit false (Some 1) (Some 1) [("1", mkProblem "틀림" "")]) ].
(* ================================================================== *)
(** ** Facts about the builtins *)
(* ================================================================== *)

Section DictFacts.
Context {V : Type}.
Implicit Types (d : dict V) (k : string) (v : V).

Lemma dict_get_set d k v k' :
  dict_get (dict_set d k v) k' = if String.eqb k k' then Some v else dict_get d k'.
Proof.
  induction d as [|[k0 v0] d IH]; simpl.
  - reflexivity.
  - destruct (String.eqb k0 k) eqn:E; simpl.
    + apply String.eqb_eq in E; subst k0.
      destruct (String.eqb k k'); reflexivity.
    + destruct (String.eqb k0 k') eqn:E'.
      * apply String.eqb_eq in E'; subst k0.
        rewrite String.eqb_sym, E. reflexivity.
      * exact IH.
Qed.

Lemma dict_get_In d k v : dict_get d k = Some v -> In (k, v) d.
Proof.
  induction d as [|[k0 v0] d IH]; simpl; [discriminate|].
  destruct (String.eqb k0 k) eqn:E; intros H.
  - apply String.eqb_eq in E. injection H as ->. left; congruence.
  - right; auto.
Qed.

Lemma dict_get_None d k : dict_get d k = None <-> ~ In k (dict_keys d).
Proof.
  forget_builtins.
  induction d as [|[k0 v0] d IH]; simpl.
  - tauto.
  - destruct (String.eqb k0 k) eqn:E.
    + apply String.eqb_eq in E. split; [discriminate | intros H; exfalso; auto].
    + apply String.eqb_neq in E. rewrite IH. tauto.
Qed.

Lemma dict_mem_keys d k : dict_mem d k = true <-> In k (dict_keys d).
Proof.
  unfold dict_mem. destruct (dict_get d k) eqn:E.
  - split; [intros _|reflexivity].
    apply dict_get_In in E. apply (in_map fst) in E. exact E.
  - apply dict_get_None in E. split; [discriminate | contradiction].
Qed.

Lemma dict_get_filter_key (keepb : string -> bool) d k :
  dict_get (filter (fun kv => keepb (fst kv)) d) k =
  if keepb k then dict_get d k else None.
Proof.
  induction d as [|[k0 v0] d IH]; simpl.
  - destruct (keepb k); reflexivity.
  - destruct (keepb k0) eqn:K0; simpl.
    + destruct (String.eqb k0 k) eqn:E.
      * apply String.eqb_eq in E; subst. rewrite K0. reflexivity.
      * exact IH.
    + destruct (String.eqb k0 k) eqn:E.
      * apply String.eqb_eq in E; subst. rewrite K0 in IH. rewrite K0. exact IH.
      * exact IH.
Qed.

Lemma dict_set_fresh d k v :
  ~ In k (dict_keys d) -> dict_set d k v = (d ++ [(k, v)])%list.
Proof.
  forget_builtins.
  induction d as [|[k0 v0] d IH]; simpl; intros H.
  - reflexivity.
  - destruct (String.eqb k0 k) eqn:E.
    + apply String.eqb_eq in E. tauto.
    + f_equal. apply IH. tauto.
Qed.

End DictFacts.

Lemma set_mem_In s k : set_mem s k = true <-> In k s.
Proof.
  unfold set_mem. rewrite existsb_exists. split.
  - intros [x [Hx E]]. apply String.eqb_eq in E. subst. exact Hx.
  - intros H. exists k. split; [exact H | apply String.eqb_refl].
Qed.

Lemma nodupb_NoDup (l : list string) : nodupb l = true <-> NoDup l.
Proof.
  induction l as [|x l IH]; simpl.
  - split; [constructor | reflexivity].
  - rewrite andb_true_iff, negb_true_iff, IH. split.
    + intros [Hx Hl]. constructor; [|exact Hl].
      intros Hin. apply set_mem_In in Hin. congruence.
    + intros H. inversion H as [|? ? Hx Hl]; subst. split; [|exact Hl].
      destruct (set_mem l x) eqn:E; [|reflexivity].
      apply set_mem_In in E. contradiction.
Qed.

Lemma dict_wfb_wf {V : Type} (d : dict V) : dict_wfb d = true <-> dict_wf d.
Proof. apply nodupb_NoDup. Qed.

Lemma py_range_In a b i : In i (py_range a b) <-> a <= i < b.
Proof.
  unfold py_range. rewrite in_map_iff. split.
  - intros [n [<- Hn]]. apply in_seq in Hn. lia.
  - intros H. exists (Z.to_nat (i - a)). split; [lia|].
    apply in_seq. lia.
Qed.

Lemma py_range_length a b : List.length (py_range a b) = Z.to_nat (b - a).
Proof. unfold py_range. now rewrite length_map, length_seq. Qed.


(** [str] tells two ints apart. *)
Lemma str_int_inj (a b : Z) : str_int a = str_int b -> a = b.
Proof.
  forget_builtins.
  assert (forall n, NilZero.int_of_string (str_int n) = Some (Z.to_int n)) as Hparse.
  { intros n. unfold str_int. apply NilZero.isi; destruct n; cbn; try discriminate;
      intros H; injection H; apply Unsigned.to_uint_nonnil. }
  intros H. apply DecimalZ.to_int_inj.
  apply (f_equal NilZero.int_of_string) in H. rewrite !Hparse in H.
  now injection H.
Qed.

Lemma NoDup_map_inj {A B : Type} (f : A -> B) (l : list A) :
  (forall x y, f x = f y -> x = y) -> NoDup l -> NoDup (map f l).
Proof.
  forget_builtins. intros Hinj Hl.
  induction Hl as [|x l Hx Hl IH]; cbn [map]; constructor; [|exact IH].
  intros Hin. apply in_map_iff in Hin. destruct Hin as [y [E Hy]].
  apply Hinj in E. now subst y.
Qed.

Lemma py_range_NoDup (a b : Z) : NoDup (py_range a b).
Proof.
  forget_builtins. unfold py_range. apply NoDup_map_inj.
  - intros x y H. lia.
  - apply seq_NoDup.
Qed.

Lemma range_keys_NoDup (a b : Z) : NoDup (map str_int (py_range a b)).
Proof.
  forget_builtins. apply NoDup_map_inj.
  - intros x y. apply str_int_inj.
  - apply py_range_NoDup.
Qed.

Lemma dict_keys_set {V : Type} (d : dict V) (k : string) (v : V) :
  dict_keys (dict_set d k v)
  = if dict_mem d k then dict_keys d else (dict_keys d ++ [k])%list.
Proof.
  forget_builtins. unfold dict_mem.
  induction d as [|[k0 v0] d IH]; [reflexivity|]. cbn [dict_set dict_get].
  destruct (String.eqb k0 k); [reflexivity|]. cbn [dict_keys map fst].
  fold (dict_keys (dict_set d k v)). rewrite IH.
  destruct (dict_get d k); reflexivity.
Qed.

Lemma dict_keys_filter {V : Type} (keepb : string -> bool) (d : dict V) :
  dict_keys (filter (fun kv => keepb (fst kv)) d) = filter keepb (dict_keys d).
Proof.
  forget_builtins.
  induction d as [|[k v] d IH]; [reflexivity|]. cbn [filter dict_keys map fst].
  destruct (keepb k); cbn [map fst]; fold (dict_keys d); now rewrite <- IH.
Qed.
(* ================================================================== *)
(** ** Range logic: problem ranges and page ranges *)
(* ================================================================== *)

Lemma filter_twice {A : Type} (f g : A -> bool) (l : list A) :
  filter f (filter g l) = filter (fun x => g x && f x) l.
Proof.
  induction l as [|x l IH]; simpl; [reflexivity|].
  destruct (g x); simpl; [destruct (f x)|]; now rewrite IH.
Qed.

Lemma set_mem_cons (x : string) (s : list string) (k : string) :
  set_mem (x :: s) k = String.eqb k x || set_mem s k.
Proof. reflexivity. Qed.

(** The filling loop of both range functions: a key of the range that is
    missing gets the default, every other lookup is as before. *)
Lemma fill_missing_get {V : Type} (dflt : V) (l : list Z) :
  forall (d : dict V) (k : string),
    dict_get
      (fold_left (fun d i =>
                    if dict_mem d (str_int i) then d
                    else dict_set d (str_int i) dflt) l d) k
    = match dict_get d k with
      | Some v => Some v
      | None => if set_mem (map str_int l) k then Some dflt else None
      end.
Proof.
  induction l as [|i l IH]; intros d k.
  - simpl. destruct (dict_get d k); reflexivity.
  - cbn [fold_left map]. rewrite IH. clear IH.
    rewrite set_mem_cons. unfold dict_mem. destruct (dict_get d (str_int i)) eqn:Hi.
    + destruct (dict_get d k) eqn:Hk; [reflexivity|].
      destruct (String.eqb k (str_int i)) eqn:E; [|reflexivity].
      apply String.eqb_eq in E. congruence.
    + rewrite dict_get_set, (String.eqb_sym (str_int i) k).
      destruct (String.eqb k (str_int i)) eqn:E.
      * apply String.eqb_eq in E. subst k. rewrite Hi. reflexivity.
      * destruct (dict_get d k); reflexivity.
Qed.

(** The pruning loop: popping every key of the snapshot that is not kept
    is one filter. *)
Lemma prune_loop_filter {V : Type} (keep ks : list string) :
  forall d : dict V,
    fold_left (fun d pk => if set_mem keep pk then d else dict_pop d pk) ks d
    = filter (fun kv => set_mem keep (fst kv) || negb (set_mem ks (fst kv))) d.
Proof.
  induction ks as [|k ks IH]; intros d.
  - simpl. symmetry. apply forallb_filter_id. apply forallb_forall.
    intros x _. apply orb_true_r.
  - cbn [fold_left]. rewrite IH. clear IH.
    destruct (set_mem keep k) eqn:K.
    + apply filter_ext. intros [k0 v0]. cbn [fst].
      rewrite set_mem_cons.
      destruct (String.eqb k0 k) eqn:E; [|reflexivity].
      apply String.eqb_eq in E. subst k0. rewrite K. reflexivity.
    + unfold dict_pop. rewrite filter_twice.
      apply filter_ext. intros [k0 v0]. cbn [fst].
      rewrite set_mem_cons.
      destruct (String.eqb k0 k) eqn:E; cbn [negb andb orb]; [|reflexivity].
      apply String.eqb_eq in E. subst k0. rewrite K. reflexivity.
Qed.

Lemma prune_own_keys {V : Type} (keep : list string) (d : dict V) :
  fold_left (fun d pk => if set_mem keep pk then d else dict_pop d pk)
            (dict_keys d) d
  = filter (fun kv => set_mem keep (fst kv)) d.
Proof.
  rewrite prune_loop_filter. apply filter_ext_in. intros [k v] Hin. cbn [fst].
  assert (set_mem (dict_keys d) k = true) as ->.
  { apply set_mem_In. apply (in_map fst) in Hin. exact Hin. }
  apply orb_false_r.
Qed.

Lemma range_key_iff (lo hi : Z) (k : string) :
  set_mem (map str_int (py_range lo (hi + 1))) k = true
  <-> exists i, lo <= i <= hi /\ k = str_int i.
Proof.
  rewrite set_mem_In, in_map_iff. split.
  - intros [i [<- Hi]]. apply py_range_In in Hi. exists i. split; [lia|reflexivity].
  - intros [i [Hi ->]]. exists i. split; [reflexivity|]. apply py_range_In. lia.
Qed.

Lemma swap_is_min_max (a b : Z) :
  (if a >? b then (b, a) else (a, b)) = (Z.min a b, Z.max a b).
Proof.
  rewrite Z.gtb_ltb. destruct (Z.ltb_spec b a); f_equal; lia.
Qed.

Lemma clamp_pages_min_max (sp ep : Z) :
  clamp_pages sp ep = (Z.min sp ep, Z.max sp ep).
Proof.
  unfold clamp_pages. destruct (Z.leb_spec sp ep); f_equal; lia.
Qed.

(** What an accepted call of [apply_problem_range] computes. *)
Lemma apply_problem_range_accepted (pu : PageUnit) (start_n end_n : Z) :
  0 < start_n -> 0 < end_n ->
  Z.max start_n end_n - Z.min start_n end_n <= 500 ->
  apply_problem_range pu start_n end_n =
  (Ok tt,
   mkPageUnit (done pu) (Some (Z.min start_n end_n)) (Some (Z.max start_n end_n))
     (filter (fun kv =>
                set_mem (map str_int
                           (py_range (Z.min start_n end_n)
                                     (Z.max start_n end_n + 1))) (fst kv))
        (fold_left (fun probs i =>
                      if dict_mem probs (str_int i) then probs
                      else dict_set probs (str_int i) (mkProblem "완료" ""))
                   (py_range (Z.min start_n end_n) (Z.max start_n end_n + 1))
                   (problems pu)))).
Proof.
  intros Hs He Hspan. unfold apply_problem_range.
  destruct (Z.leb_spec start_n 0); [lia|].
  destruct (Z.leb_spec end_n 0); [lia|]. cbn [orb].
  rewrite swap_is_min_max.
  rewrite Z.gtb_ltb. destruct (Z.ltb_spec 500 (Z.max start_n end_n - Z.min start_n end_n)); [lia|].
  rewrite prune_own_keys. reflexivity.
Qed.

(** Lookup after the filling loop followed by the pruning filter. *)
Lemma synced_get {V : Type} (dflt : V) (l : list Z) (d : dict V) (k : string) :
  dict_get
    (filter (fun kv => set_mem (map str_int l) (fst kv))
       (fold_left (fun d i =>
                     if dict_mem d (str_int i) then d
                     else dict_set d (str_int i) dflt) l d)) k
  = if set_mem (map str_int l) k
    then Some match dict_get d k with Some v => v | None => dflt end
    else None.
Proof.
  rewrite (dict_get_filter_key (fun k => set_mem (map str_int l) k)).
  rewrite fill_missing_get.
  destruct (set_mem (map str_int l) k); [|reflexivity].
  destruct (dict_get d k); reflexivity.
Qed.

Lemma dict_keys_get {V : Type} (d : dict V) (k : string) :
  In k (dict_keys d) <-> dict_get d k <> None.
Proof.
  destruct (dict_get d k) eqn:E.
  - split; [discriminate|]. intros _.
    apply dict_get_In in E. apply (in_map fst) in E. exact E.
  - apply dict_get_None in E. split; [contradiction | congruence].
Qed.

(** Both loops keep a dict a dict. *)
Lemma fill_missing_wf {V : Type} (dflt : V) (l : list Z) :
  forall d : dict V,
    dict_wf d ->
    dict_wf (fold_left (fun d i =>
                          if dict_mem d (str_int i) then d
                          else dict_set d (str_int i) dflt) l d).
Proof.
  forget_builtins.
  induction l as [|i l IH]; intros d Hwf; [exact Hwf|].
  cbn [fold_left]. apply IH.
  destruct (dict_mem d (str_int i)) eqn:M; [exact Hwf|].
  unfold dict_wf. rewrite dict_keys_set, M.
  eapply Permutation_NoDup; [apply Permutation_cons_append|].
  constructor; [|exact Hwf].
  intros Hin. apply dict_mem_keys in Hin. congruence.
Qed.

Lemma filter_key_wf {V : Type} (keepb : string -> bool) (d : dict V) :
  dict_wf d -> dict_wf (filter (fun kv => keepb (fst kv)) d).
Proof.
  forget_builtins.
  unfold dict_wf. rewrite dict_keys_filter. apply NoDup_filter.
Qed.

(** After both loops a dict has one entry for each number of the range. *)
Lemma synced_length {V : Type} (dflt : V) (l : list Z) (d : dict V) :
  dict_wf d -> NoDup l ->
  List.length
    (filter (fun kv => set_mem (map str_int l) (fst kv))
       (fold_left (fun d i =>
                     if dict_mem d (str_int i) then d
                     else dict_set d (str_int i) dflt) l d))
  = List.length l.
Proof.
  forget_builtins.
  intros Hwf Hl.
  rewrite <- (length_map str_int l).
  match goal with
  | |- List.length ?d' = _ => rewrite <- (length_map fst d'); fold (dict_keys d')
  end.
  apply Permutation_length, NoDup_Permutation.
  - apply (filter_key_wf (fun k => set_mem (map str_int l) k)).
    now apply fill_missing_wf.
  - apply NoDup_map_inj; [apply str_int_inj | exact Hl].
  - intros k. rewrite dict_keys_get, synced_get, <- set_mem_In.
    destruct (set_mem (map str_int l) k); split; congruence.
Qed.

(** C1. An accepted call of [apply_problem_range] (both bounds positive,
    the larger at most 500 above the smaller) succeeds; it stores the
    bounds in ascending order; the keys of [problems] are then exactly the
    decimal strings of the numbers of the stored range; a number of the
    range keeps the status and memo its entry had, or gets the default
    problem (status done, empty memo) if it had none; every other entry is
    gone.  The [done] flag is untouched.  A dict stays a dict, with one
    entry for each number of the range. *)
Theorem apply_problem_range_sync (pu : PageUnit) (start_n end_n : Z) :
  0 < start_n -> 0 < end_n ->
  Z.max start_n end_n - Z.min start_n end_n <= 500 ->
  let lo := Z.min start_n end_n in
  let hi := Z.max start_n end_n in
  exists pu' : PageUnit,
    apply_problem_range pu start_n end_n = (Ok tt, pu')
    /\ start_problem pu' = Some lo
    /\ end_problem pu' = Some hi
    /\ done pu' = done pu
    /\ (forall k, In k (dict_keys (problems pu'))
                  <-> exists i, lo <= i <= hi /\ k = str_int i)
    /\ (forall i, lo <= i <= hi ->
          dict_get (problems pu') (str_int i)
          = Some match dict_get (problems pu) (str_int i) with
                 | Some pr => pr
                 | None => mkProblem "완료" ""
                 end)
    /\ (forall k, ~ (exists i, lo <= i <= hi /\ k = str_int i) ->
          dict_get (problems pu') k = None)
    /\ (dict_wf (problems pu) ->
        dict_wf (problems pu')
        /\ Z.of_nat (List.length (problems pu')) = hi - lo + 1).
Proof.
  intros Hs He Hspan lo hi.
  eexists. split; [apply apply_problem_range_accepted; assumption|].
  fold lo hi. cbn [start_problem end_problem done problems].
  split; [reflexivity|]. split; [reflexivity|]. split; [reflexivity|].
  split; [|split; [|split]].
  - intros k. rewrite dict_keys_get, synced_get, <- range_key_iff.
    destruct (set_mem (map str_int (py_range lo (hi + 1))) k);
      split; congruence.
  - intros i Hi. rewrite synced_get.
    assert (set_mem (map str_int (py_range lo (hi + 1))) (str_int i) = true)
      as ->; [|reflexivity].
    apply range_key_iff. exists i. split; [exact Hi|reflexivity].
  - intros k Hk. rewrite synced_get.
    destruct (set_mem (map str_int (py_range lo (hi + 1))) k) eqn:K;
      [|reflexivity].
    apply range_key_iff in K. contradiction.
  - intros Hwf. split.
    + apply (filter_key_wf
               (fun k => set_mem (map str_int (py_range lo (hi + 1))) k)).
      now apply fill_missing_wf.
    + rewrite synced_length by (assumption || apply py_range_NoDup).
      rewrite py_range_length. unfold lo, hi. lia.
Qed.

(** C2. [apply_problem_range] raises its validation error (a
    [ValueError]) exactly when a bound is not positive or the larger bound
    is more than 500 above the smaller one; it raises nothing else; and
    when it raises, the page unit is as it was before the call. *)
Theorem apply_problem_range_rejects (pu : PageUnit) (start_n end_n : Z) :
  (raises_ValueError (fst (apply_problem_range pu start_n end_n))
   <-> (start_n <= 0 \/ end_n <= 0
        \/ Z.max start_n end_n - Z.min start_n end_n > 500))
  /\ (raises (fst (apply_problem_range pu start_n end_n))
      -> raises_ValueError (fst (apply_problem_range pu start_n end_n))
         /\ snd (apply_problem_range pu start_n end_n) = pu).
Proof.
  destruct (Z.leb_spec start_n 0) as [Hs|Hs];
    [|destruct (Z.leb_spec end_n 0) as [He|He];
      [|destruct (Z.ltb_spec 500 (Z.max start_n end_n - Z.min start_n end_n))
          as [Hspan|Hspan]]].
  - assert (apply_problem_range pu start_n end_n
            = (Raise (ValueError "문항 번호는 1 이상이어야 합니다."), pu)) as ->.
    { unfold apply_problem_range. destruct (Z.leb_spec start_n 0); [|lia].
      reflexivity. }
    cbn [fst snd]. split; [split|]; intros _.
    + left; exact Hs.
    + eexists; reflexivity.
    + split; [eexists|]; reflexivity.
  - assert (apply_problem_range pu start_n end_n
            = (Raise (ValueError "문항 번호는 1 이상이어야 합니다."), pu)) as ->.
    { unfold apply_problem_range. destruct (Z.leb_spec end_n 0); [|lia].
      rewrite orb_true_r. reflexivity. }
    cbn [fst snd]. split; [split|]; intros _.
    + right; left; exact He.
    + eexists; reflexivity.
    + split; [eexists|]; reflexivity.
  - assert (apply_problem_range pu start_n end_n
            = (Raise (ValueError "범위가 너무 큽니다(500개 초과)."), pu)) as ->.
    { unfold apply_problem_range.
      destruct (Z.leb_spec start_n 0); [lia|].
      destruct (Z.leb_spec end_n 0); [lia|]. cbn [orb].
      rewrite swap_is_min_max, Z.gtb_ltb.
      destruct (Z.ltb_spec 500 (Z.max start_n end_n - Z.min start_n end_n));
        [reflexivity|lia]. }
    cbn [fst snd]. split; [split|]; intros _.
    + right; right; lia.
    + eexists; reflexivity.
    + split; [eexists|]; reflexivity.
  - rewrite apply_problem_range_accepted by lia. cbn [fst snd].
    split; [split|].
    + intros [msg H]. discriminate.
    + lia.
    + intros [e H]. discriminate.
Qed.

(** C3. The range 1..501 is accepted and leaves 501 entries in
    [problems], one more than the cap of 500 that the rejection message
    announces: the guard compares the difference of the bounds, not the
    number of problems.  The same holds of every accepted call whose
    bounds are 500 apart. *)
Theorem apply_problem_range_501_entries :
  fst (apply_problem_range default_PageUnit 1 501) = Ok tt
  /\ List.length (problems (snd (apply_problem_range default_PageUnit 1 501)))
     = 501%nat
  /\ dict_wf (problems (snd (apply_problem_range default_PageUnit 1 501)))
  /\ (forall (pu : PageUnit) (start_n end_n : Z),
        dict_wf (problems pu) -> 0 < start_n -> 0 < end_n ->
        Z.max start_n end_n - Z.min start_n end_n = 500 ->
        fst (apply_problem_range pu start_n end_n) = Ok tt
        /\ List.length (problems (snd (apply_problem_range pu start_n end_n)))
           = 501%nat).
Proof.
  split; [vm_compute; reflexivity|].
  split; [vm_compute; reflexivity|].
  split; [apply dict_wfb_wf; vm_compute; reflexivity|].
  intros pu start_n end_n Hwf Hs He Hspan.
  rewrite apply_problem_range_accepted by lia. cbn [fst snd problems].
  split; [reflexivity|].
  rewrite synced_length by (assumption || apply py_range_NoDup).
  rewrite py_range_length. lia.
Qed.

(** C6. With both page bounds set, [ensure_pages_initialized] stores them
    in ascending order and leaves a page unit under the key of every page
    number of that range; every page unit that was there before, inside or
    outside the range, is still there and unchanged; a key that was
    missing holds a fresh default page unit if it is the key of a page of
    the range, and stays missing otherwise; a dict stays a dict.  With a
    bound unset, the state is returned as it was. *)
Theorem ensure_pages_initialized_frame (state : AppState) :
  (forall s e, start_page state = Some s -> end_page state = Some e ->
     let lo := Z.min s e in
     let hi := Z.max s e in
     let state' := ensure_pages_initialized state in
     start_page state' = Some lo
     /\ end_page state' = Some hi
     /\ book_name state' = book_name state
     /\ (forall p, lo <= p <= hi ->
           exists unit, dict_get (pages state') (str_int p) = Some unit)
     /\ (forall k unit, dict_get (pages state) k = Some unit ->
           dict_get (pages state') k = Some unit)
     /\ (forall k, dict_get (pages state) k = None ->
           (exists p, lo <= p <= hi /\ k = str_int p) ->
           dict_get (pages state') k = Some default_PageUnit)
     /\ (forall k, dict_get (pages state) k = None ->
           ~ (exists p, lo <= p <= hi /\ k = str_int p) ->
           dict_get (pages state') k = None)
     /\ (dict_wf (pages state) -> dict_wf (pages state')))
  /\ (start_page state = None \/ end_page state = None ->
      ensure_pages_initialized state = state).
Proof.
  split.
  - intros s e Hs He lo hi state'.
    assert (state' =
            mkAppState (book_name state) (Some lo) (Some hi)
              (fold_left (fun pgs p =>
                            if dict_mem pgs (str_int p) then pgs
                            else dict_set pgs (str_int p) default_PageUnit)
                         (py_range lo (hi + 1)) (pages state))) as ->.
    { unfold state', ensure_pages_initialized. rewrite Hs, He.
      rewrite clamp_pages_min_max. reflexivity. }
    cbn [start_page end_page book_name pages].
    split; [reflexivity|]. split; [reflexivity|]. split; [reflexivity|].
    split; [|split; [|split; [|split]]].
    + intros p Hp. rewrite fill_missing_get.
      destruct (dict_get (pages state) (str_int p)) as [u|]; [now exists u|].
      assert (set_mem (map str_int (py_range lo (hi + 1))) (str_int p) = true)
        as ->; [|now eexists].
      apply range_key_iff. exists p. split; [exact Hp|reflexivity].
    + intros k unit Hk. rewrite fill_missing_get, Hk. reflexivity.
    + intros k Hk Hin. rewrite fill_missing_get, Hk.
      apply range_key_iff in Hin. rewrite Hin. reflexivity.
    + intros k Hk Hout. rewrite fill_missing_get, Hk.
      destruct (set_mem (map str_int (py_range lo (hi + 1))) k) eqn:K;
        [|reflexivity].
      apply range_key_iff in K. contradiction.
    + apply fill_missing_wf.
  - intros [H|H]; unfold ensure_pages_initialized; rewrite H.
    + reflexivity.
    + destruct (start_page state); reflexivity.
Qed.

(* ================================================================== *)
(** ** Persistence *)
(* ================================================================== *)

Lemma or_empty_dict_VDict (l : dict pyval) : or_empty_dict (VDict l) = VDict l.
Proof. destruct l; reflexivity. Qed.

Lemma dict_keys_app {V : Type} (d1 d2 : dict V) :
  dict_keys (d1 ++ d2)%list = (dict_keys d1 ++ dict_keys d2)%list.
Proof. apply map_app. Qed.

(** Storing entries with pairwise distinct, new keys appends them. *)
Lemma fold_set_fresh {U X : Type} (f : U -> X) (l : dict U) :
  forall acc : dict X,
    NoDup (dict_keys acc ++ dict_keys l)%list ->
    fold_left (fun acc kv => dict_set acc (fst kv) (f (snd kv))) l acc
    = (acc ++ map (fun kv => (fst kv, f (snd kv))) l)%list.
Proof.
  induction l as [|[k u] l IH]; intros acc Hnd.
  - simpl. now rewrite app_nil_r.
  - cbn [fold_left map fst snd].
    assert (~ In k (dict_keys acc)) as Hk.
    { apply NoDup_remove_2 in Hnd. intros Hin. apply Hnd.
      apply in_or_app. now left. }
    rewrite (dict_set_fresh _ _ _ Hk), IH.
    + now rewrite <- app_assoc.
    + rewrite dict_keys_app, <- app_assoc. exact Hnd.
Qed.

(** The loading loops on entries with pairwise distinct, new keys, each of
    which decodes. *)
Lemma for_each_set_fresh {U X : Type} (enc : U -> pyval)
  (h : pyval -> res X) (f : U -> X) (l : dict U) :
  (forall kv, In kv l -> h (enc (snd kv)) = Ok (f (snd kv))) ->
  forall acc : dict X,
    NoDup (dict_keys acc ++ dict_keys l)%list ->
    for_each (fun acc kv => x <- h (snd kv) ;; Ok (dict_set acc (fst kv) x))
             (map (fun kv => (fst kv, enc (snd kv))) l) acc
    = Ok (acc ++ map (fun kv => (fst kv, f (snd kv))) l)%list.
Proof.
  induction l as [|[k u] l IH]; intros Hdec acc Hnd.
  - simpl. now rewrite app_nil_r.
  - cbn [for_each map fst snd].
    pose proof (Hdec (k, u) (or_introl eq_refl)) as Hu. cbn [snd] in Hu.
    rewrite Hu. cbn [bind].
    assert (~ In k (dict_keys acc)) as Hk.
    { apply NoDup_remove_2 in Hnd. intros Hin. apply Hnd.
      apply in_or_app. now left. }
    rewrite (dict_set_fresh _ _ _ Hk), IH.
    + now rewrite <- app_assoc.
    + intros kv Hin. apply Hdec. now right.
    + rewrite dict_keys_app, <- app_assoc. exact Hnd.
Qed.

Lemma map_pair_id {V : Type} (l : dict V) :
  map (fun kv => (fst kv, snd kv)) l = l.
Proof.
  induction l as [|[k v] l IH]; simpl; [reflexivity|]. now rewrite IH.
Qed.

Lemma load_problem_asdict (pr : Problem) : load_problem (asdict pr) = Ok pr.
Proof. destruct pr. reflexivity. Qed.

Lemma load_page_raw_page (pu : PageUnit) :
  dict_wf (problems pu) -> load_page (raw_page pu) = Ok (loaded_page pu).
Proof.
  intros Hwf. unfold load_page, raw_page.
  rewrite (fold_set_fresh asdict) by exact Hwf.
  cbn [py_get dict_get String.eqb Ascii.eqb Bool.eqb bind app].
  rewrite or_empty_dict_VDict. cbn [py_items bind].
  rewrite (for_each_set_fresh asdict load_problem (fun pr => pr)).
  - cbn [bind app py_bool]. rewrite map_pair_id. reflexivity.
  - intros kv _. apply load_problem_asdict.
  - exact Hwf.
Qed.

Lemma state_wfb_wf (state : AppState) :
  state_wfb state = true -> state_wf state.
Proof.
  unfold state_wfb, state_wf. rewrite andb_true_iff, forallb_forall.
  intros [Hp Hall]. split; [now apply dict_wfb_wf|].
  intros kv Hin. apply dict_wfb_wf. now apply Hall.
Qed.

Lemma loaded_pages_get (pgs : dict (PageUnitOf (option Z))) (pk : string) :
  dict_get (map (fun kv => (fst kv, loaded_page (snd kv))) pgs) pk
  = match dict_get pgs pk with
    | Some unit => Some (loaded_page unit)
    | None => None
    end.
Proof.
  induction pgs as [|[k u] pgs IH]; [reflexivity|].
  cbn [map dict_get fst snd]. destruct (String.eqb k pk); [reflexivity|].
  exact IH.
Qed.

(** C4. Saving a state and loading it back returns a state that is the
    saved one: the same book name; as start and end page the saved int,
    or [None] for [None]; the same page keys in the same order; and under
    each page key a unit with the same done flag, as problem bounds the
    saved ints or [None], and the same problems, key by key, status and
    memo.  The state is any state of the annotated types whose dicts hold
    no key twice. *)
Theorem save_load_roundtrip (state : AppState) (disk : Disk) :
  state_wf state ->
  exists stt : LoadedState,
    load_state (save_state state disk) = Ok (Some stt)
    /\ stt = loaded_of state
    /\ book_name stt = book_name state
    /\ start_page stt
       = match start_page state with Some n => VInt n | None => VNone end
    /\ end_page stt
       = match end_page state with Some n => VInt n | None => VNone end
    /\ dict_keys (pages stt) = dict_keys (pages state)
    /\ (forall pk unit,
          dict_get (pages state) pk = Some unit ->
          exists unit' : LoadedPageUnit,
            dict_get (pages stt) pk = Some unit'
            /\ done unit' = done unit
            /\ start_problem unit'
               = match start_problem unit with
                 | Some n => VInt n
                 | None => VNone
                 end
            /\ end_problem unit'
               = match end_problem unit with
                 | Some n => VInt n
                 | None => VNone
                 end
            /\ problems unit' = problems unit).
Proof.
  intros [Hpages Hprobs]. exists (loaded_of state). split.
  { unfold load_state, save_state. cbn [STATE_FILE].
    unfold load_body, raw_state. cbn [json_load bind].
    rewrite (fold_set_fresh raw_page) by exact Hpages.
    cbn [py_get dict_get String.eqb Ascii.eqb Bool.eqb bind app].
    rewrite or_empty_dict_VDict. cbn [py_items bind].
    rewrite (for_each_set_fresh raw_page load_page loaded_page).
    - reflexivity.
    - intros kv Hin. apply load_page_raw_page. apply Hprobs. exact Hin.
    - exact Hpages. }
  split; [reflexivity|]. split; [reflexivity|].
  split; [cbn; destruct (start_page state); reflexivity|].
  split; [cbn; destruct (end_page state); reflexivity|].
  split.
  - cbn [loaded_of pages]. unfold dict_keys. rewrite map_map. reflexivity.
  - intros pk unit Hget. cbn [loaded_of pages].
    rewrite loaded_pages_get, Hget. eexists. split; [reflexivity|].
    cbn [loaded_page done start_problem end_problem problems].
    split; [reflexivity|].
    split; [destruct (start_problem unit); reflexivity|].
    split; [destruct (end_problem unit); reflexivity | reflexivity].
Qed.

(** A loading loop succeeds exactly when every entry decodes. *)
Lemma for_each_set_is_ok {X : Type} (h : pyval -> res X)
  (each : pyval -> bool) (l : dict pyval) :
  (forall v, is_ok (h v) = each v) ->
  forall acc : dict X,
    is_ok (for_each (fun acc kv => x <- h (snd kv) ;; Ok (dict_set acc (fst kv) x))
                    l acc)
    = forallb (fun kv => each (snd kv)) l.
Proof.
  intros Heach.
  induction l as [|[k v] l IH]; intros acc; [reflexivity|].
  cbn [for_each forallb snd fst]. rewrite <- Heach.
  destruct (h v) as [x|e]; cbn [bind is_ok andb]; [apply IH|reflexivity].
Qed.

(** Every entry a loading loop leaves in the dict was there before or is
    the decoding of an entry of the same key. *)
Lemma for_each_set_origin {X : Type} (h : pyval -> res X) (l : dict pyval) :
  forall (acc out : dict X),
    for_each (fun acc kv => x <- h (snd kv) ;; Ok (dict_set acc (fst kv) x))
             l acc = Ok out ->
    forall k x, dict_get out k = Some x ->
      dict_get acc k = Some x \/ exists v, In (k, v) l /\ h v = Ok x.
Proof.
  induction l as [|[k0 v0] l IH]; intros acc out Hrun k x Hget.
  - simpl in Hrun. injection Hrun as <-. now left.
  - cbn [for_each fst snd] in Hrun.
    destruct (h v0) as [x0|e] eqn:Hv0; cbn [bind] in Hrun; [|discriminate].
    destruct (IH _ _ Hrun _ _ Hget) as [Hacc|[v [Hin Hv]]].
    + rewrite dict_get_set in Hacc.
      destruct (String.eqb k0 k) eqn:E.
      * apply String.eqb_eq in E. subst k0. injection Hacc as <-.
        right. exists v0. split; [now left | exact Hv0].
      * now left.
    + right. exists v. split; [now right | exact Hv].
Qed.

Lemma load_problem_is_ok (v : pyval) : is_ok (load_problem v) = is_dict v.
Proof. destruct v; reflexivity. Qed.

(** The items the loops iterate, when the field can be read as a mapping. *)
Lemma py_items_mapping (each : pyval -> bool) (field : option pyval) (dflt : pyval) :
  dflt = VDict [] ->
  py_items (or_empty_dict match field with Some x => x | None => dflt end)
  = match field with
    | None => Ok []
    | Some v =>
        if py_bool v then
          match v with
          | VDict items => Ok items
          | _ => Raise AttributeError
          end
        else Ok []
    end.
Proof.
  intros ->. destruct field as [v|]; [|reflexivity].
  unfold or_empty_dict. destruct (py_bool v) eqn:B; [|reflexivity].
  destruct v; reflexivity.
Qed.

Lemma py_items_ok_items (field : option pyval) (items : dict pyval) :
  py_items (or_empty_dict match field with Some x => x | None => VDict [] end)
  = Ok items ->
  items = mapping_items field.
Proof.
  rewrite (py_items_mapping is_dict) by reflexivity.
  destruct field as [v|]; [|intros H; injection H as <-; reflexivity].
  destruct (py_bool v) eqn:B.
  - destruct v; try discriminate. intros H; injection H as <-. reflexivity.
  - intros H; injection H as <-. destruct v; try reflexivity.
    destruct kvs; [reflexivity|discriminate].
Qed.

Lemma load_page_is_ok (pu : pyval) :
  is_ok (load_page pu) = page_structure_ok pu.
Proof.
  destruct pu as [| | | | | |d]; try reflexivity.
  unfold load_page, page_structure_ok. cbn [py_get bind].
  rewrite (py_items_mapping is_dict) by reflexivity.
  unfold mapping_ok.
  destruct (dict_get d "problems") as [v|]; [|reflexivity].
  destruct (py_bool v); [|reflexivity].
  destruct v as [| | | | | |items]; try reflexivity.
  cbn [bind].
  rewrite <- (for_each_set_is_ok load_problem is_dict items
                 load_problem_is_ok []).
  match goal with
  | |- is_ok (bind ?c _) = _ => destruct c; reflexivity
  end.
Qed.

Lemma load_body_is_ok (v : pyval) :
  is_ok (load_body (JsonDoc v)) = structure_ok v.
Proof.
  destruct v as [| | | | | |d]; try reflexivity.
  unfold load_body, structure_ok. cbn [json_load py_get bind].
  rewrite (py_items_mapping is_dict) by reflexivity.
  unfold mapping_ok.
  destruct (dict_get d "pages") as [v|]; [|reflexivity].
  destruct (py_bool v); [|reflexivity].
  destruct v as [| | | | | |items]; try reflexivity.
  cbn [bind].
  rewrite <- (for_each_set_is_ok load_page page_structure_ok items
                 load_page_is_ok []).
  match goal with
  | |- is_ok (bind ?c _) = _ => destruct c; reflexivity
  end.
Qed.

Lemma load_problem_defaults (v : pyval) (pr : Problem) :
  load_problem v = Ok pr ->
  exists vd, v = VDict vd /\ problem_defaults vd pr.
Proof.
  destruct v as [| | | | | |vd]; try discriminate.
  unfold load_problem. cbn [py_get bind]. intros H. injection H as <-.
  exists vd. split; [reflexivity|].
  split; intros Hmiss; cbn [status memo]; rewrite Hmiss; reflexivity.
Qed.

Lemma load_page_defaults (pu : pyval) (unit : LoadedPageUnit) :
  load_page pu = Ok unit ->
  exists pd, pu = VDict pd /\ page_defaults pd unit.
Proof.
  destruct pu as [| | | | | |pd]; try discriminate.
  unfold load_page. cbn [py_get bind].
  destruct (py_items _) as [items|e] eqn:Hitems; cbn [bind]; [|discriminate].
  apply py_items_ok_items in Hitems.
  match goal with
  | |- bind ?c _ = _ -> _ => destruct c as [probs|e] eqn:Hloop
  end; cbn [bind]; [|discriminate].
  intros H. injection H as <-.
  exists pd. split; [reflexivity|].
  cbn [done start_problem end_problem problems].
  repeat split.
  - intros Hmiss. rewrite Hmiss. reflexivity.
  - intros Hmiss. rewrite Hmiss. reflexivity.
  - intros Hmiss. rewrite Hmiss. reflexivity.
  - intros Hmiss. rewrite Hmiss in Hitems. cbn in Hitems. subst items.
    cbn in Hloop. now injection Hloop as <-.
  - intros k pr Hget.
    destruct (for_each_set_origin load_problem _ _ _ Hloop _ _ Hget)
      as [Hnil|[v [Hin Hv]]]; [discriminate|].
    apply load_problem_defaults in Hv. destruct Hv as [vd [-> Hdef]].
    exists vd. split; [|exact Hdef]. rewrite <- Hitems. exact Hin.
Qed.

Lemma load_body_defaults (d : dict pyval) (stt : LoadedState) :
  load_body (JsonDoc (VDict d)) = Ok stt -> state_defaults d stt.
Proof.
  unfold load_body. cbn [json_load py_get bind].
  destruct (py_items _) as [items|e] eqn:Hitems; cbn [bind]; [|discriminate].
  apply py_items_ok_items in Hitems.
  match goal with
  | |- bind ?c _ = _ -> _ => destruct c as [pgs|e] eqn:Hloop
  end; cbn [bind]; [|discriminate].
  intros H. injection H as <-.
  cbn [book_name start_page end_page pages].
  repeat split.
  - intros Hmiss. cbn [book_name]. rewrite Hmiss. reflexivity.
  - intros Hmiss. cbn [start_page]. rewrite Hmiss. reflexivity.
  - intros Hmiss. cbn [end_page]. rewrite Hmiss. reflexivity.
  - intros Hmiss. cbn [pages]. rewrite Hmiss in Hitems. cbn in Hitems.
    subst items. cbn in Hloop. now injection Hloop as <-.
  - intros pk unit Hget. cbn [pages] in Hget.
    destruct (for_each_set_origin load_page _ _ _ Hloop _ _ Hget)
      as [Hnil|[v [Hin Hv]]]; [discriminate|].
    apply load_page_defaults in Hv. destruct Hv as [pd [-> Hdef]].
    exists pd. split; [|exact Hdef]. rewrite <- Hitems. exact Hin.
Qed.

Lemma forallb_impl {A : Type} (f g : A -> bool) (l : list A) :
  (forall x, f x = true -> g x = true) ->
  forallb f l = true -> forallb g l = true.
Proof.
  intros Himp H. rewrite forallb_forall in *. auto.
Qed.

(** A field that the format allows as a mapping can be read as one. *)
Lemma format_mapping_ok (each_spec each : pyval -> bool) (d : dict pyval)
  (k : string) :
  (forall v, each_spec v = true -> each v = true) ->
  field_ok (spec_mapping_ok each_spec) d k = true ->
  mapping_ok each (dict_get d k) = true.
Proof.
  intros Himp. unfold field_ok, mapping_ok.
  destruct (dict_get d k) as [v|]; [|reflexivity].
  intros H. destruct (py_bool v); [|reflexivity].
  destruct v; try discriminate. cbn [spec_mapping_ok] in H.
  revert H. apply forallb_impl. intros kv. apply Himp.
Qed.

Lemma format_page_structure (v : pyval) :
  spec_page_ok v = true -> page_structure_ok v = true.
Proof.
  destruct v as [| | | | | |d]; try discriminate.
  cbn [spec_page_ok page_structure_ok]. intros H.
  apply andb_true_iff in H. destruct H as [_ H].
  revert H. apply format_mapping_ok.
  intros x. destruct x; try discriminate. reflexivity.
Qed.

Lemma format_structure (v : pyval) :
  spec_format_ok v = true -> structure_ok v = true.
Proof.
  destruct v as [| | | | | |d]; try discriminate.
  cbn [spec_format_ok structure_ok]. intros H.
  apply andb_true_iff in H. destruct H as [_ H].
  revert H. apply format_mapping_ok. exact format_page_structure.
Qed.

(** C7. [load_state] never raises.  It returns [None] when the state file
    is absent, when its content cannot be decoded or does not parse, and
    when the parsed document has not the structure the decoding needs
    (the document, each page and each problem an object; pages and
    problems an object, or missing or falsy); in every other case it
    returns a state, so a document with falsy pages or problems or with a
    scalar field of another type loads.  Every document of the format
    loads.  In a state that is returned, every field missing from the
    document holds its default: book name empty, page and problem bounds
    [None], done flag false, status the done status, memo empty, no
    pages, no problems. *)
Theorem load_state_swallows_errors (disk : Disk) :
  (exists r, load_state disk = Ok r)
  /\ (load_state disk = Ok None
      <-> (STATE_FILE disk = None
           \/ STATE_FILE disk = Some Undecodable
           \/ (exists text, STATE_FILE disk = Some (Garbled text))
           \/ (exists v, STATE_FILE disk = Some (JsonDoc v)
                         /\ structure_ok v = false)))
  /\ (forall v, STATE_FILE disk = Some (JsonDoc v) ->
        spec_format_ok v = true ->
        exists stt, load_state disk = Ok (Some stt))
  /\ (forall stt, load_state disk = Ok (Some stt) ->
        exists d, STATE_FILE disk = Some (JsonDoc (VDict d))
                  /\ state_defaults d stt).
Proof.
  unfold load_state.
  destruct (STATE_FILE disk) as [[v|text|]|] eqn:Hfile.
  - pose proof (load_body_is_ok v) as Hok.
    destruct (load_body (JsonDoc v)) as [stt|e] eqn:Hbody; cbn [is_ok] in Hok.
    + split; [eexists; reflexivity|]. split; [|split].
      * split; [discriminate|].
        intros [H|[H|[[t H]|[v' [H Hbad]]]]]; try discriminate.
        injection H as <-. congruence.
      * intros v' _ _. now exists stt.
      * intros stt' H. injection H as <-.
        destruct v as [| | | | | |d]; try discriminate.
        exists d. split; [reflexivity|]. now apply load_body_defaults.
    + split; [eexists; reflexivity|]. split; [|split].
      * split; [|reflexivity]. intros _. right; right; right.
        exists v. split; [reflexivity|]. now symmetry.
      * intros v' H Hfmt. injection H as <-.
        apply format_structure in Hfmt. congruence.
      * discriminate.
  - cbn [load_body json_load bind].
    split; [eexists; reflexivity|]. split; [|split].
    + split; [|reflexivity]. intros _. right; right; left. now exists text.
    + discriminate.
    + discriminate.
  - cbn [load_body json_load bind].
    split; [eexists; reflexivity|]. split; [|split].
    + split; [|reflexivity]. intros _. right; left. reflexivity.
    + discriminate.
    + discriminate.
  - split; [eexists; reflexivity|]. split; [|split].
    + split; [|reflexivity]. intros _. now left.
    + discriminate.
    + discriminate.
Qed.

(** C10. [load_state] does not check the status against [STATUSES]: a
    problem entry whose status is any text [s] decodes to a problem of
    status [s], and the saved document whose only problem has a status [s]
    outside the four statuses loads to a state holding a problem with
    exactly that status. *)
Theorem load_state_keeps_unknown_status (s : string) :
  ~ In s STATUSES ->
  (forall vd, dict_get vd "status" = Some (VStr s) ->
     exists pr, load_problem (VDict vd) = Ok pr /\ status pr = s)
  /\ load_state (mkDisk (Some (JsonDoc (doc_with_status s))) None)
     = Ok (Some (mkAppState "" VNone VNone
                   [("1", mkPageUnit false VNone VNone
                            [("1", mkProblem s "")])])).
Proof.
  intros _. split.
  - intros vd Hs. unfold load_problem. cbn [py_get bind]. rewrite Hs.
    eexists. split; reflexivity.
  - reflexivity.
Qed.

(* ------------------------------------------------------------------ *)
(** ** Trimming *)
(* ------------------------------------------------------------------ *)

Lemma blanks_app (a b : list ascii) :
  blanks a -> blanks b -> blanks (a ++ b)%list.
Proof.
  intros Ha Hb. induction Ha; cbn [app]; [assumption| | |].
  - now apply blanks_1.
  - now apply blanks_2.
  - now apply blanks_3.
Qed.

Lemma lstrip_split_upto (n : nat) :
  forall l : list ascii,
    (List.length l <= n)%nat ->
    exists pre,
      l = (pre ++ lstrip l)%list /\ blanks pre
      /\ starts_blank (lstrip l) = false.
Proof.
  induction n as [|n IH]; intros l Hlen.
  - destruct l; [|cbn in Hlen; lia]. exists []. repeat split. constructor.
  - destruct l as [|c1 s1].
    { exists []. repeat split. constructor. }
    cbn [List.length] in Hlen. cbn [lstrip].
    destruct (ws1 c1) eqn:H1.
    { destruct (IH s1) as [pre [E [Hb Hs]]]; [lia|].
      exists (c1 :: pre). cbn [app]. rewrite <- E.
      repeat split; [now apply blanks_1 | exact Hs]. }
    destruct s1 as [|c2 s2].
    { exists []. repeat split; [constructor|]. cbn. now rewrite H1. }
    cbn [List.length] in Hlen.
    destruct (ws2 c1 c2) eqn:H2.
    { destruct (IH s2) as [pre [E [Hb Hs]]]; [lia|].
      exists (c1 :: c2 :: pre). cbn [app]. rewrite <- E.
      repeat split; [now apply blanks_2 | exact Hs]. }
    destruct s2 as [|c3 s3].
    { exists []. repeat split; [constructor|]. cbn. now rewrite H1, H2. }
    cbn [List.length] in Hlen.
    destruct (ws3 c1 c2 c3) eqn:H3.
    { destruct (IH s3) as [pre [E [Hb Hs]]]; [lia|].
      exists (c1 :: c2 :: c3 :: pre). cbn [app]. rewrite <- E.
      repeat split; [now apply blanks_3 | exact Hs]. }
    exists []. repeat split; [constructor|].
    cbn [starts_blank]. now rewrite H1, H2, H3.
Qed.

(** [lstrip] takes a run of whitespace off the front and leaves a text
    that does not begin with whitespace. *)
Lemma lstrip_split (l : list ascii) :
  exists pre,
    l = (pre ++ lstrip l)%list /\ blanks pre
    /\ starts_blank (lstrip l) = false.
Proof. now apply (lstrip_split_upto (List.length l)). Qed.

Lemma lstrip_rev_split_upto (n : nat) :
  forall l : list ascii,
    (List.length l <= n)%nat ->
    exists pre,
      l = (pre ++ lstrip_rev l)%list /\ blanks (rev pre)
      /\ ends_blank (rev (lstrip_rev l)) = false.
Proof.
  unfold ends_blank.
  induction n as [|n IH]; intros l Hlen.
  - destruct l; [|cbn in Hlen; lia]. exists []. repeat split. constructor.
  - destruct l as [|c1 s1].
    { exists []. repeat split. constructor. }
    cbn [List.length] in Hlen. cbn [lstrip_rev].
    destruct (ws1 c1) eqn:H1.
    { destruct (IH s1) as [pre [E [Hb Hs]]]; [lia|].
      exists (c1 :: pre). cbn [app rev]. rewrite <- E.
      repeat split; [|exact Hs].
      apply blanks_app; [exact Hb|]. apply blanks_1; [exact H1|constructor]. }
    destruct s1 as [|c2 s2].
    { exists []. repeat split; [constructor|]. cbn. now rewrite H1. }
    cbn [List.length] in Hlen.
    destruct (ws2 c2 c1) eqn:H2.
    { destruct (IH s2) as [pre [E [Hb Hs]]]; [lia|].
      exists (c1 :: c2 :: pre). cbn [app rev]. rewrite <- E.
      repeat split; [|exact Hs].
      rewrite <- app_assoc. cbn [app].
      apply blanks_app; [exact Hb|]. apply blanks_2; [exact H2|constructor]. }
    destruct s2 as [|c3 s3].
    { exists []. repeat split; [constructor|].
      rewrite rev_involutive. now rewrite H1, H2. }
    cbn [List.length] in Hlen.
    destruct (ws3 c3 c2 c1) eqn:H3.
    { destruct (IH s3) as [pre [E [Hb Hs]]]; [lia|].
      exists (c1 :: c2 :: c3 :: pre). cbn [app rev]. rewrite <- E.
      repeat split; [|exact Hs].
      rewrite <- !app_assoc. cbn [app].
      apply blanks_app; [exact Hb|]. apply blanks_3; [exact H3|constructor]. }
    exists []. repeat split; [constructor|].
    rewrite rev_involutive. now rewrite H1, H2, H3.
Qed.

Lemma lstrip_rev_split (l : list ascii) :
  exists pre,
    l = (pre ++ lstrip_rev l)%list /\ blanks (rev pre)
    /\ ends_blank (rev (lstrip_rev l)) = false.
Proof. now apply (lstrip_rev_split_upto (List.length l)). Qed.

(** A text that begins with whitespace still does when it is extended. *)
Lemma starts_blank_app (t post : list ascii) :
  starts_blank t = true -> starts_blank (t ++ post)%list = true.
Proof.
  destruct t as [|c1 [|c2 [|c3 t]]]; cbn [starts_blank app].
  - discriminate.
  - rewrite !orb_false_r. intros ->. reflexivity.
  - rewrite !orb_false_r. intros H. apply orb_true_iff in H.
    destruct H as [-> | ->]; [reflexivity|].
    destruct post; cbn; now rewrite ?orb_true_r.
  - intros H. exact H.
Qed.

Lemma append_assoc (a b c : string) : (a ++ b) ++ c = a ++ b ++ c.
Proof. induction a as [|x a IH]; [reflexivity|]. cbn. now rewrite IH. Qed.

Lemma string_of_list_ascii_app (a b : list ascii) :
  string_of_list_ascii (a ++ b)%list
  = string_of_list_ascii a ++ string_of_list_ascii b.
Proof.
  induction a as [|c a IH]; [reflexivity|]. cbn. now rewrite IH.
Qed.

(** [strip] takes a run of whitespace off each end, and what it leaves
    neither begins nor ends with whitespace. *)
Lemma strip_blanks (s : string) :
  exists pre post : string,
    s = pre ++ strip s ++ post
    /\ blanks (list_ascii_of_string pre)
    /\ blanks (list_ascii_of_string post)
    /\ starts_blank (list_ascii_of_string (strip s)) = false
    /\ ends_blank (list_ascii_of_string (strip s)) = false.
Proof.
  unfold strip.
  destruct (lstrip_split (list_ascii_of_string s)) as [pre [E1 [Hpre Hst]]].
  destruct (lstrip_rev_split (rev (lstrip (list_ascii_of_string s))))
    as [q [E2 [Hq Hend]]].
  set (m := lstrip (list_ascii_of_string s)) in *.
  set (t := rev (lstrip_rev (rev m))) in *.
  assert (m = (t ++ rev q)%list) as Em.
  { rewrite <- (rev_involutive m), E2 at 1. now rewrite rev_app_distr. }
  exists (string_of_list_ascii pre), (string_of_list_ascii (rev q)).
  rewrite !list_ascii_of_string_of_list_ascii.
  split; [|split; [exact Hpre|split; [exact Hq|split; [|exact Hend]]]].
  - rewrite <- !string_of_list_ascii_app, <- Em, <- E1.
    now rewrite string_of_list_ascii_of_string.
  - destruct (starts_blank t) eqn:Ht; [|reflexivity].
    apply (starts_blank_app t (rev q)) in Ht. rewrite <- Em in Ht. congruence.
Qed.

(** *** Substrings *)

Lemma starts_with_spec (p s : string) :
  starts_with p s = true <-> exists post, s = p ++ post.
Proof.
  revert s. induction p as [|a p IH]; intros s; cbn [starts_with].
  - split; [intros _; now exists s | reflexivity].
  - destruct s as [|b s].
    + split; [discriminate | intros [post E]; discriminate E].
    + rewrite andb_true_iff, IH. split.
      * intros [Hab [post ->]]. apply Ascii.eqb_eq in Hab. subst b.
        now exists post.
      * intros [post E]. cbn in E. injection E as -> ->. split.
        -- apply Ascii.eqb_refl.
        -- now exists post.
Qed.

(** [needle in hay] holds exactly of the texts that have [needle] as a
    substring. *)
Lemma contains_spec (needle hay : string) :
  contains needle hay = true <-> exists pre post, hay = pre ++ needle ++ post.
Proof.
  induction hay as [|c hay IH].
  - cbn [contains]. rewrite orb_false_r, starts_with_spec. split.
    + intros [post E]. now exists "", post.
    + intros [pre [post E]]. destruct pre; [now exists post|discriminate E].
  - cbn [contains]. rewrite orb_true_iff, starts_with_spec, IH. split.
    + intros [[post E] | [pre [post E]]].
      * now exists "", post.
      * exists (String c pre), post. cbn. now rewrite E.
    + intros [pre [post E]]. destruct pre as [|c' pre].
      * left. now exists post.
      * right. cbn in E. injection E as _ E. now exists pre, post.
Qed.

(* ================================================================== *)
(** ** Summary *)
(* ================================================================== *)

(** C8. With the start page or the end page unset, [build_summary]
    returns the range-not-set message, whatever the book name, the pages
    and the date. *)
Theorem build_summary_range_unset (state : AppState) (today : string) :
  start_page state = None \/ end_page state = None ->
  build_summary state today = Ok "숙제 범위가 설정되지 않았습니다.".
Proof.
  unfold build_summary. intros [H|H]; rewrite H.
  - reflexivity.
  - destruct (start_page state); reflexivity.
Qed.

(** *** [sorted]: a permutation, ascending in the key *)

Lemma insert_by_key_perm {A : Type} (x : Z * A) (l : list (Z * A)) :
  Permutation (x :: l) (insert_by_key x l).
Proof.
  induction l as [|y l IH]; simpl; [reflexivity|].
  destruct (fst x <=? fst y); [reflexivity|].
  rewrite perm_swap. now apply perm_skip.
Qed.

Lemma sort_by_key_perm {A : Type} (l : list (Z * A)) :
  Permutation l (sort_by_key l).
Proof.
  induction l as [|x l IH]; simpl; [reflexivity|].
  rewrite <- insert_by_key_perm. now apply perm_skip.
Qed.

Lemma insert_by_key_sorted {A : Type} (x : Z * A) (l : list (Z * A)) :
  StronglySorted fst_le l -> StronglySorted fst_le (insert_by_key x l).
Proof.
  induction l as [|y l IH]; intros Hs; simpl.
  - repeat constructor.
  - inversion Hs as [|? ? Hl Hy]; subst.
    destruct (Z.leb_spec (fst x) (fst y)) as [Hxy|Hxy].
    + constructor; [exact Hs|]. constructor; [exact Hxy|].
      eapply Forall_impl; [|exact Hy]. unfold fst_le. intros; lia.
    + constructor; [now apply IH|].
      eapply Permutation_Forall; [apply insert_by_key_perm|].
      constructor; [unfold fst_le; lia | exact Hy].
Qed.

Lemma sort_by_key_sorted {A : Type} (l : list (Z * A)) :
  StronglySorted fst_le (sort_by_key l).
Proof.
  induction l as [|x l IH]; simpl; [constructor|].
  now apply insert_by_key_sorted.
Qed.

Lemma StronglySorted_map {A B : Type} (R : A -> A -> Prop)
  (R' : B -> B -> Prop) (f : A -> B) (l : list A) :
  (forall x y, In x l -> In y l -> R x y -> R' (f x) (f y)) ->
  StronglySorted R l -> StronglySorted R' (map f l).
Proof.
  induction l as [|x l IH]; intros HR Hs; simpl; [constructor|].
  inversion Hs as [|? ? Hl Hx]; subst. constructor.
  - apply IH; [|exact Hl]. intros a b Ha Hb. apply HR; now right.
  - apply Forall_forall. intros b Hb. apply in_map_iff in Hb.
    destruct Hb as [a [<- Ha]]. apply HR; [now left | now right |].
    rewrite Forall_forall in Hx. now apply Hx.
Qed.

(** What decorating the items with their keys yields. *)
Lemma decorate_ok {V : Type} (d : dict V) (keyed : list (Z * (string * V))) :
  map_res (fun kv => n <- py_int (fst kv) ;; Ok (n, kv)) d = Ok keyed ->
  map snd keyed = d
  /\ Forall (fun x => py_int (fst (snd x)) = Ok (fst x)) keyed.
Proof.
  revert keyed. induction d as [|kv d IH]; intros keyed H.
  - simpl in H. injection H as <-. split; constructor.
  - cbn [map_res] in H.
    destruct (py_int (fst kv)) as [n|e] eqn:Hn; cbn [bind] in H; [|discriminate].
    destruct (map_res _ d) as [keyed'|e] eqn:Hd; cbn [bind] in H; [|discriminate].
    injection H as <-. destruct (IH _ eq_refl) as [Hmap Hall].
    split; [simpl; now rewrite Hmap|]. constructor; [exact Hn | exact Hall].
Qed.

Lemma sorted_items_inv (d : dict Problem) (items : dict Problem) :
  sorted_items d = Ok items ->
  exists keyed,
    map_res (fun kv => n <- py_int (fst kv) ;; Ok (n, kv)) d = Ok keyed
    /\ items = map snd (sort_by_key keyed).
Proof.
  unfold sorted_items.
  destruct (map_res _ d) as [keyed|e]; cbn [bind]; [|discriminate].
  intros H. injection H as <-. now exists keyed.
Qed.

Lemma sorted_items_spec (d items : dict Problem) :
  sorted_items d = Ok items ->
  Permutation d items /\ StronglySorted key_le items.
Proof.
  intros H. apply sorted_items_inv in H. destruct H as [keyed [Hdec ->]].
  apply decorate_ok in Hdec. destruct Hdec as [Hmap Hkeys]. split.
  - rewrite <- Hmap. apply Permutation_map, sort_by_key_perm.
  - apply (StronglySorted_map fst_le); [|apply sort_by_key_sorted].
    intros x y Hx Hy Hxy.
    assert (Forall (fun x => py_int (fst (snd x)) = Ok (fst x))
                   (sort_by_key keyed)) as Hkeys'.
    { eapply Permutation_Forall; [apply sort_by_key_perm | exact Hkeys]. }
    rewrite Forall_forall in Hkeys'.
    exists (fst x), (fst y). repeat split; auto.
Qed.

Lemma map_res_is_ok {A B : Type} (f : A -> res B) (l : list A) :
  (forall x, In x l -> exists y, f x = Ok y) ->
  exists ys, map_res f l = Ok ys.
Proof.
  induction l as [|x l IH]; intros Hall; [now exists []|].
  destruct (Hall x (or_introl eq_refl)) as [y Hy].
  destruct IH as [ys Hys]; [intros; apply Hall; now right|].
  exists (y :: ys). cbn [map_res]. rewrite Hy; cbn [bind].
  rewrite Hys; reflexivity.
Qed.

Lemma sorted_items_returns (d : dict Problem) :
  (forall kv, In kv d -> exists n, py_int (fst kv) = Ok n) ->
  exists items, sorted_items d = Ok items.
Proof.
  intros Hall. unfold sorted_items.
  destruct (map_res_is_ok (fun kv => n <- py_int (fst kv) ;; Ok (n, kv)) d)
    as [keyed Hk].
  - intros kv Hin. destruct (Hall kv Hin) as [n Hn].
    exists (n, kv). now rewrite Hn.
  - rewrite Hk. cbn [bind]. now eexists.
Qed.

(** *** [range]: ascending *)

Lemma seq_sorted (s n : nat) : StronglySorted lt (seq s n).
Proof.
  revert s. induction n as [|n IH]; intros s; simpl; constructor.
  - apply IH.
  - apply Forall_forall. intros x Hx. apply in_seq in Hx. lia.
Qed.

Lemma py_range_sorted (a b : Z) : StronglySorted Z.lt (py_range a b).
Proof.
  unfold py_range. apply (StronglySorted_map lt); [|apply seq_sorted].
  intros x y _ _ Hxy. lia.
Qed.

(** *** The loops as selections *)

Lemma groups_app_nil_r (g : Groups) : groups_app g (groups_of []) = g.
Proof.
  destruct g. unfold groups_app. cbn. now rewrite !app_nil_r.
Qed.

Lemma groups_app_nil_l (g : Groups) : groups_app (mkGroups [] [] []) g = g.
Proof. destruct g. reflexivity. Qed.

Lemma groups_app_assoc (g1 g2 g3 : Groups) :
  groups_app (groups_app g1 g2) g3 = groups_app g1 (groups_app g2 g3).
Proof. unfold groups_app. cbn. now rewrite !app_assoc. Qed.

Lemma groups_of_app (vs1 vs2 : list (Z * (string * Problem))) :
  groups_of (vs1 ++ vs2) = groups_app (groups_of vs1) (groups_of vs2).
Proof.
  unfold groups_of, groups_app. cbn. now rewrite !filter_app, !map_app.
Qed.

Lemma visit_problem_groups (p : Z) (g : Groups) (kv : string * Problem) :
  visit_problem p g kv = groups_app g (groups_of [(p, kv)]).
Proof.
  unfold visit_problem, groups_of, groups_app, has_status, ques_line, tag_line.
  cbn [filter fst snd wrong fixed ques].
  destruct (String.eqb (status (snd kv)) "틀림") eqn:E1.
  { apply String.eqb_eq in E1. rewrite E1. cbn. now rewrite !app_nil_r. }
  destruct (String.eqb (status (snd kv)) "틀렸지만 고침") eqn:E2.
  { apply String.eqb_eq in E2. rewrite E2. cbn. now rewrite !app_nil_r. }
  destruct (String.eqb (status (snd kv)) "질문") eqn:E3.
  { cbn [map]. now rewrite !app_nil_r. }
  destruct g. cbn. now rewrite !app_nil_r.
Qed.

Lemma fold_visit_problem (p : Z) (items : dict Problem) :
  forall g : Groups,
    fold_left (visit_problem p) items g
    = groups_app g (groups_of (map (pair p) items)).
Proof.
  induction items as [|kv items IH]; intros g.
  - simpl. symmetry. apply groups_app_nil_r.
  - cbn [fold_left map]. rewrite IH, visit_problem_groups, groups_app_assoc.
    now rewrite <- groups_of_app.
Qed.

Lemma sorted_items_nil {V : Type} : sorted_items (@nil (string * V)) = Ok [].
Proof. reflexivity. Qed.

Lemma visit_page_groups (state : AppState) (g : Groups) (p : Z) :
  visit_page state g p
  = (items <- sorted_items (problems_at state p) ;;
     Ok (groups_app g (groups_of (map (pair p) items)))).
Proof.
  unfold visit_page, problems_at.
  destruct (dict_get (pages state) (str_int p)) as [unit|].
  - destruct (problems unit) as [|kv d] eqn:Hp.
    + rewrite sorted_items_nil. cbn [bind map]. now rewrite groups_app_nil_r.
    + destruct (sorted_items (kv :: d)); cbn [bind]; [|reflexivity].
      now rewrite fold_visit_problem.
  - rewrite sorted_items_nil. cbn [bind map]. now rewrite groups_app_nil_r.
Qed.

Lemma for_each_visit_page (state : AppState) (l : list Z) :
  forall g : Groups,
    for_each (visit_page state) l g
    = (per_page <- map_res (fun p =>
                              items <- sorted_items (problems_at state p) ;;
                              Ok (map (pair p) items)) l ;;
       Ok (groups_app g (groups_of (List.concat per_page)))).
Proof.
  induction l as [|p l IH]; intros g.
  - cbn. now rewrite groups_app_nil_r.
  - cbn [for_each map_res]. rewrite visit_page_groups.
    destruct (sorted_items (problems_at state p)) as [items|e]; cbn [bind];
      [|reflexivity].
    rewrite IH.
    destruct (map_res _ l) as [per_page|e]; cbn [bind]; [|reflexivity].
    cbn [List.concat]. now rewrite groups_of_app, groups_app_assoc.
Qed.

(** The three lists are the three selections from the problems read. *)
Lemma collect_visits (state : AppState) (sp ep : Z) :
  collect state sp ep = (vs <- visits state sp ep ;; Ok (groups_of vs)).
Proof.
  unfold collect, visits. rewrite for_each_visit_page.
  destruct (map_res _ (py_range sp (ep + 1))) as [per_page|e]; cbn [bind];
    [|reflexivity].
  now rewrite groups_app_nil_l.
Qed.

Lemma build_summary_visits (state : AppState) (today : string) (s e : Z) :
  start_page state = Some s -> end_page state = Some e ->
  build_summary state today
  = (vs <- visits state (Z.min s e) (Z.max s e) ;;
     Ok (render state (Z.min s e) (Z.max s e) today (groups_of vs))).
Proof.
  intros Hs He. unfold build_summary. rewrite Hs, He, clamp_pages_min_max.
  rewrite collect_visits.
  destruct (visits state (Z.min s e) (Z.max s e)); reflexivity.
Qed.

(** *** What is read, and in which order *)

Lemma StronglySorted_app {A : Type} (R : A -> A -> Prop) (l1 l2 : list A) :
  StronglySorted R l1 -> StronglySorted R l2 ->
  (forall x y, In x l1 -> In y l2 -> R x y) ->
  StronglySorted R (l1 ++ l2).
Proof.
  induction l1 as [|a l1 IH]; intros H1 H2 Hcross; [exact H2|].
  inversion H1 as [|? ? Hl Ha]; subst. cbn [app]. constructor.
  - apply IH; [exact Hl | exact H2 |]. intros x y Hx. apply Hcross. now right.
  - apply Forall_app. split; [exact Ha|].
    apply Forall_forall. intros y Hy. apply Hcross; [now left | exact Hy].
Qed.

Lemma in_map_pair {A B : Type} (a a0 : A) (b : B) (l : list B) :
  In (a, b) (map (pair a0) l) <-> a = a0 /\ In b l.
Proof.
  rewrite in_map_iff. split.
  - intros [x [E Hx]]. injection E as <- <-. now split.
  - intros [-> Hb]. now exists b.
Qed.

Lemma visits_pages (state : AppState) (l : list Z) :
  forall per_page,
    map_res (fun p => items <- sorted_items (problems_at state p) ;;
                      Ok (map (pair p) items)) l = Ok per_page ->
    (forall p kv, In (p, kv) (List.concat per_page)
                  <-> In p l /\ In kv (problems_at state p))
    /\ List.length (List.concat per_page)
       = list_sum (map (fun p => List.length (problems_at state p)) l)
    /\ (StronglySorted Z.lt l -> StronglySorted visit_le (List.concat per_page)).
Proof.
  induction l as [|p0 l IH]; intros per_page Hrun.
  - cbn in Hrun. injection Hrun as <-. cbn. repeat split; try tauto.
    constructor.
  - cbn [map_res] in Hrun.
    destruct (sorted_items (problems_at state p0)) as [items|e] eqn:Hitems;
      cbn [bind] in Hrun; [|discriminate].
    destruct (map_res _ l) as [rest|e] eqn:Hrest; cbn [bind] in Hrun;
      [|discriminate].
    injection Hrun as <-.
    destruct (sorted_items_spec _ _ Hitems) as [Hperm Hsorted].
    destruct (IH _ eq_refl) as [Hin [Hlen Hord]].
    cbn [List.concat]. split; [|split].
    + intros p kv. rewrite in_app_iff, in_map_pair, Hin. cbn [In]. split.
      * intros [[-> Hkv]|[Hp Hkv]].
        -- split; [now left|]. eapply Permutation_in; [|exact Hkv].
           now symmetry.
        -- split; [now right | exact Hkv].
      * intros [[->|Hp] Hkv].
        -- left. split; [reflexivity|]. eapply Permutation_in; eassumption.
        -- right. now split.
    + rewrite length_app, length_map, Hlen. cbn [map list_sum].
      now rewrite (Permutation_length Hperm).
    + intros Hl. inversion Hl as [|? ? Hl' Hp0]; subst.
      apply StronglySorted_app.
      * apply (StronglySorted_map key_le); [|exact Hsorted].
        intros x y _ _ Hxy. right. now split.
      * now apply Hord.
      * intros [p1 kv1] [p2 kv2] H1 H2. apply in_map_pair in H1.
        destruct H1 as [-> _]. apply Hin in H2. destruct H2 as [H2 _].
        left. cbn [fst]. rewrite Forall_forall in Hp0. now apply Hp0.
Qed.

Lemma visits_returns (state : AppState) (sp ep : Z) :
  keys_numeric state sp ep -> exists vs, visits state sp ep = Ok vs.
Proof.
  intros Hnum. unfold visits.
  destruct (map_res_is_ok
              (fun p => items <- sorted_items (problems_at state p) ;;
                        Ok (map (pair p) items)) (py_range sp (ep + 1)))
    as [per_page Hpp].
  - intros p Hp. apply py_range_In in Hp.
    destruct (sorted_items_returns (problems_at state p)) as [items Hit].
    + intros kv Hkv. apply (Hnum p kv); [lia | exact Hkv].
    + rewrite Hit. cbn [bind]. now eexists.
  - rewrite Hpp. cbn [bind]. now eexists.
Qed.

Lemma groups_of_reports (vs : list (Z * (string * Problem)))
  (v : Z * (string * Problem)) :
  In v vs ->
  (has_status "틀림" v = true -> In (tag_line v) (wrong (groups_of vs)))
  /\ (has_status "틀렸지만 고침" v = true
      -> In (tag_line v) (fixed (groups_of vs)))
  /\ (has_status "질문" v = true -> In (ques_line v) (ques (groups_of vs))).
Proof.
  intros Hin. unfold groups_of. cbn [wrong fixed ques].
  repeat split; intros Hs; apply in_map; apply filter_In; now split.
Qed.

(** C5. With both page bounds set, [build_summary] reads the problems of
    the pages of the clamped range and reports the three selections from
    them.  The problems read are exactly the problems of the pages of the
    range, each once; they are read page after page in ascending page
    order and, within a page, in ascending order of the numeric value of
    their keys.  A problem read whose status is wrong puts its tag in the
    wrong section, one whose status is fixed-after-wrong puts its tag in
    the fixed section, one whose status is question puts its tag with the
    trimmed memo (or the placeholder, if that is empty) in the question
    section.  The summary is returned whenever every key of the pages of
    the range reads as an int.  The text returned is the four head lines
    and then, each after an empty line and its title, the tags of the
    wrong problems read, the tags of the fixed ones (both separated by a
    comma and a space) and the lines of the questions, in reading order;
    a section without an entry reads "없음".  The trimmed memo is the memo
    without the whitespace at its two ends.  For the example state (pages
    1-2, problem 3 of page 1 wrong, problem 5 of page 2 a question with
    memo "why") the wrong section is "[p.1 3번]" and the question section
    is "[p.2 5번] why"; the texts returned for it, for a state whose memos
    have blanks around them and for a state with keys out of order and a
    page range given backwards are written out. *)
Theorem build_summary_reading_order (state : AppState) (today : string)
  (s e : Z) :
  start_page state = Some s -> end_page state = Some e ->
  let sp := Z.min s e in
  let ep := Z.max s e in
  build_summary state today
  = (vs <- visits state sp ep ;;
     Ok (render state sp ep today (groups_of vs)))
  /\ (keys_numeric state sp ep -> exists vs, visits state sp ep = Ok vs)
  /\ (forall vs, visits state sp ep = Ok vs ->
        StronglySorted visit_le vs
        /\ (forall p kv, In (p, kv) vs
                         <-> sp <= p <= ep /\ In kv (problems_at state p))
        /\ List.length vs
           = list_sum (map (fun p => List.length (problems_at state p))
                           (py_range sp (ep + 1)))
        /\ (forall v, In v vs ->
              (has_status "틀림" v = true
               -> In (tag_line v) (wrong (groups_of vs)))
              /\ (has_status "틀렸지만 고침" v = true
                  -> In (tag_line v) (fixed (groups_of vs)))
              /\ (has_status "질문" v = true
                  -> In (ques_line v) (ques (groups_of vs)))))
  /\ build_summary summary_example today
     = Ok (render summary_example 1 2 today
             (mkGroups ["[p.1 3번]"] [] ["[p.2 5번] why"]))
  /\ (forall vs, visits state sp ep = Ok vs ->
        let with_status := fun (st : string) (v : Z * (string * Problem)) =>
          String.eqb (status (snd (snd v))) st in
        let tag := fun v : Z * (string * Problem) =>
          "[p." ++ str_int (fst v) ++ " " ++ fst (snd v) ++ "번]" in
        let line := fun v : Z * (string * Problem) =>
          if String.eqb (strip (memo (snd (snd v)))) ""
          then tag v ++ " (메모 없음)"
          else tag v ++ " " ++ strip (memo (snd (snd v))) in
        let section := fun (sep : string) (entries : list string) =>
          match entries with [] => "없음" | _ => join sep entries end in
        build_summary state today
        = Ok ("✅ 오늘 숙제 정리" ++ nl
              ++ "- 문제집: "
              ++ (if String.eqb (book_name state) "" then "(미입력)"
                  else book_name state) ++ nl
              ++ "- 범위: p." ++ str_int sp ++ " ~ p." ++ str_int ep ++ nl
              ++ "- 날짜: " ++ today ++ nl
              ++ nl
              ++ "❌ 틀림" ++ nl
              ++ section ", " (map tag (filter (with_status "틀림") vs)) ++ nl
              ++ nl
              ++ "🛠️ 틀렸지만 고침" ++ nl
              ++ section ", "
                   (map tag (filter (with_status "틀렸지만 고침") vs)) ++ nl
              ++ nl
              ++ "❓ 질문 + 메모" ++ nl
              ++ section nl (map line (filter (with_status "질문") vs))))
  /\ (forall memo : string,
        exists pre post : string,
          memo = pre ++ strip memo ++ post
          /\ blanks (list_ascii_of_string pre)
          /\ blanks (list_ascii_of_string post)
          /\ starts_blank (list_ascii_of_string (strip memo)) = false
          /\ ends_blank (list_ascii_of_string (strip memo)) = false)
  /\ build_summary summary_example today
     = Ok ("✅ 오늘 숙제 정리" ++ nl
           ++ "- 문제집: (미입력)" ++ nl
           ++ "- 범위: p.1 ~ p.2" ++ nl
           ++ "- 날짜: " ++ today ++ nl
           ++ nl
           ++ "❌ 틀림" ++ nl
           ++ "[p.1 3번]" ++ nl
           ++ nl
           ++ "🛠️ 틀렸지만 고침" ++ nl
           ++ "없음" ++ nl
           ++ nl
           ++ "❓ 질문 + 메모" ++ nl
           ++ "[p.2 5번] why")
  /\ build_summary padded_memo_state today
     = Ok ("✅ 오늘 숙제 정리" ++ nl
           ++ "- 문제집: RPM" ++ nl
           ++ "- 범위: p.7 ~ p.7" ++ nl
           ++ "- 날짜: " ++ today ++ nl
           ++ nl
           ++ "❌ 틀림" ++ nl
           ++ "없음" ++ nl
           ++ nl
           ++ "🛠️ 틀렸지만 고침" ++ nl
           ++ "없음" ++ nl
           ++ nl
           ++ "❓ 질문 + 메모" ++ nl
           ++ "[p.7 1번] why so" ++ nl
           ++ "[p.7 2번] a  b" ++ nl
           ++ "[p.7 3번] (메모 없음)")
  /\ build_summary unordered_state today
     = Ok ("✅ 오늘 숙제 정리" ++ nl
           ++ "- 문제집: 쎈" ++ nl
           ++ "- 범위: p.2 ~ p.3" ++ nl
           ++ "- 날짜: " ++ today ++ nl
           ++ nl
           ++ "❌ 틀림" ++ nl
           ++ "[p.2 12번], [p.3 9번], [p.3 09번], [p.3 10번]" ++ nl
           ++ nl
           ++ "🛠️ 틀렸지만 고침" ++ nl
           ++ "[p.2 3번], [p.3 2번]" ++ nl
           ++ nl
           ++ "❓ 질문 + 메모" ++ nl
           ++ "[p.3 11번] a").
Proof.
  intros Hs He sp ep. split; [now apply build_summary_visits|].
  split; [apply visits_returns|].
  split; [|split; [reflexivity|]].
  - intros vs Hvs. unfold visits in Hvs.
    destruct (map_res _ (py_range sp (ep + 1))) as [per_page|err] eqn:Hpp;
      cbn [bind] in Hvs; [|discriminate].
    injection Hvs as <-.
    destruct (visits_pages _ _ _ Hpp) as [Hin [Hlen Hord]].
    split; [apply Hord, py_range_sorted|].
    split; [|split; [exact Hlen | apply groups_of_reports]].
    intros p kv. rewrite Hin, py_range_In. split; intros [Hp Hkv]; split;
      try assumption; lia.
  - split; [|split; [intros memo; apply strip_blanks|]].
    + intros vs Hvs. cbv zeta.
      rewrite (build_summary_visits state today s e Hs He).
      fold sp ep. rewrite Hvs. cbn [bind]. f_equal.
      unfold render, groups_of, has_status, tag_line, ques_line, tag_of.
      cbn [join wrong fixed ques]. rewrite !append_assoc. reflexivity.
    + repeat split; reflexivity.
Qed.

(** *** Problems that are not reported *)

Lemma insert_by_key_least {A : Type} (x : Z * A) (l : list (Z * A)) :
  Forall (fst_le x) l -> insert_by_key x l = x :: l.
Proof.
  destruct l as [|y l]; [reflexivity|]. intros H.
  inversion H as [|? ? Hy _]; subst. simpl.
  destruct (Z.leb_spec (fst x) (fst y)); [reflexivity|].
  unfold fst_le in Hy. lia.
Qed.

(** A stable sort commutes with a selection. *)
Lemma filter_insert_by_key {A : Type} (f : Z * A -> bool) (x : Z * A)
  (l : list (Z * A)) :
  StronglySorted fst_le l ->
  filter f (insert_by_key x l)
  = if f x then insert_by_key x (filter f l) else filter f l.
Proof.
  induction l as [|y l IH]; intros Hs.
  - simpl. destruct (f x); reflexivity.
  - inversion Hs as [|? ? Hl Hy]; subst. cbn [insert_by_key].
    destruct (Z.leb_spec (fst x) (fst y)) as [Hxy|Hxy].
    + cbn [filter]. destruct (f x) eqn:Fx; [|reflexivity].
      symmetry. apply insert_by_key_least.
      apply Forall_forall. intros z Hz.
      change (In z (filter f (y :: l))) in Hz.
      apply filter_In in Hz. destruct Hz as [[<-|Hz] _]; [exact Hxy|].
      rewrite Forall_forall in Hy. specialize (Hy z Hz).
      unfold fst_le in *. lia.
    + cbn [filter]. rewrite (IH Hl).
      destruct (f y) eqn:Fy; destruct (f x) eqn:Fx; try reflexivity.
      cbn [insert_by_key].
      destruct (Z.leb_spec (fst x) (fst y)); [lia | reflexivity].
Qed.

Lemma filter_sort_by_key {A : Type} (f : Z * A -> bool) (l : list (Z * A)) :
  filter f (sort_by_key l) = sort_by_key (filter f l).
Proof.
  induction l as [|x l IH]; [reflexivity|].
  cbn [sort_by_key fold_right filter].
  fold (sort_by_key l). rewrite filter_insert_by_key by apply sort_by_key_sorted.
  rewrite IH. destruct (f x); reflexivity.
Qed.

Lemma decorate_filter {V : Type} (f : string * V -> bool) (d : dict V) :
  forall keyed,
    map_res (fun kv => n <- py_int (fst kv) ;; Ok (n, kv)) d = Ok keyed ->
    map_res (fun kv => n <- py_int (fst kv) ;; Ok (n, kv)) (filter f d)
    = Ok (filter (fun x => f (snd x)) keyed).
Proof.
  induction d as [|kv d IH]; intros keyed H.
  - cbn in H. injection H as <-. reflexivity.
  - cbn [map_res] in H.
    destruct (py_int (fst kv)) as [n|e] eqn:Hn; cbn [bind] in H; [|discriminate].
    destruct (map_res _ d) as [keyed'|e] eqn:Hd; cbn [bind] in H; [|discriminate].
    injection H as <-. cbn [filter snd].
    destruct (f kv); [|now apply IH].
    cbn [map_res]. rewrite Hn. cbn [bind]. now rewrite (IH _ eq_refl).
Qed.

Lemma map_snd_filter {A B : Type} (f : B -> bool) (l : list (A * B)) :
  map snd (filter (fun x => f (snd x)) l) = filter f (map snd l).
Proof.
  induction l as [|x l IH]; [reflexivity|]. cbn [filter map].
  destruct (f (snd x)); cbn [map]; now rewrite IH.
Qed.

Lemma sorted_items_filter (f : string * Problem -> bool) (d items : dict Problem) :
  sorted_items d = Ok items ->
  sorted_items (filter f d) = Ok (filter f items).
Proof.
  intros H. apply sorted_items_inv in H. destruct H as [keyed [Hdec ->]].
  unfold sorted_items. rewrite (decorate_filter f d keyed Hdec). cbn [bind].
  now rewrite <- filter_sort_by_key, map_snd_filter.
Qed.

Lemma dict_get_map_values {U W : Type} (h : U -> W) (d : dict U) (k : string) :
  dict_get (map (fun kv => (fst kv, h (snd kv))) d) k
  = option_map h (dict_get d k).
Proof.
  induction d as [|[k0 u] d IH]; [reflexivity|]. cbn [map dict_get fst snd].
  destruct (String.eqb k0 k); [reflexivity | exact IH].
Qed.

Lemma problems_at_prune (state : AppState) (p : Z) :
  problems_at (prune_state state) p
  = filter (fun kv => reportable (snd kv)) (problems_at state p).
Proof.
  unfold problems_at, prune_state. cbn [pages].
  rewrite dict_get_map_values.
  assert (forall o : option PageUnit,
             match option_map prune_page o with
             | Some unit => problems unit
             | None => []
             end
             = filter (fun kv => reportable (snd kv))
                      match o with Some unit => problems unit | None => [] end)
    as Hopt by (intros [unit|]; reflexivity).
  apply Hopt.
Qed.

Lemma filter_map_pair {A B : Type} (f : B -> bool) (a : A) (l : list B) :
  filter (fun v => f (snd v)) (map (pair a) l) = map (pair a) (filter f l).
Proof.
  induction l as [|b l IH]; [reflexivity|]. cbn [map filter snd].
  destruct (f b); cbn [map]; now rewrite IH.
Qed.

Lemma visits_prune (state : AppState) (sp ep : Z)
  (vs : list (Z * (string * Problem))) :
  visits state sp ep = Ok vs ->
  visits (prune_state state) sp ep
  = Ok (filter (fun v => reportable (snd (snd v))) vs).
Proof.
  unfold visits.
  generalize (py_range sp (ep + 1)) as l. intros l. revert vs.
  induction l as [|p l IH]; intros vs H.
  - cbn in H. injection H as <-. reflexivity.
  - cbn [map_res] in *.
    destruct (sorted_items (problems_at state p)) as [items|e] eqn:Hit;
      cbn [bind] in H; [|discriminate].
    destruct (map_res _ l) as [rest|e] eqn:Hrest; cbn [bind] in H;
      [|discriminate].
    injection H as <-.
    rewrite problems_at_prune.
    rewrite (sorted_items_filter (fun kv => reportable (snd kv)) _ _ Hit).
    cbn [bind]. specialize (IH _ eq_refl). revert IH.
    match goal with
    | |- bind ?c _ = _ -> _ => destruct c as [rest'|e]
    end; cbn [bind]; intros IH; [|discriminate].
    injection IH as IH. cbn [List.concat].
    rewrite filter_app, <- IH.
    now rewrite (filter_map_pair (fun kv => reportable (snd kv))).
Qed.

Lemma has_status_reportable (s : string) (v : Z * (string * Problem)) :
  In s ["틀림"; "틀렸지만 고침"; "질문"] ->
  has_status s v = true -> reportable (snd (snd v)) = true.
Proof.
  unfold has_status, reportable. intros Hs E. apply String.eqb_eq in E.
  rewrite E. now apply set_mem_In.
Qed.

Lemma groups_of_reportable (vs : list (Z * (string * Problem))) :
  groups_of (filter (fun v => reportable (snd (snd v))) vs) = groups_of vs.
Proof.
  unfold groups_of. rewrite !filter_twice. f_equal; f_equal;
    apply filter_ext; intros v;
    match goal with
    | |- _ && has_status ?s v = _ =>
        destruct (has_status s v) eqn:E; [|apply andb_false_r];
        rewrite (has_status_reportable s v); [reflexivity | cbn; tauto | exact E]
    end.
Qed.

Lemma visit_problem_skip (p : Z) (g : Groups) (kv : string * Problem) :
  reportable (snd kv) = false -> visit_problem p g kv = g.
Proof.
  unfold reportable, visit_problem. rewrite !set_mem_cons.
  intros H. apply orb_false_iff in H. destruct H as [H1 H].
  apply orb_false_iff in H. destruct H as [H2 H].
  apply orb_false_iff in H. destruct H as [H3 _].
  now rewrite H1, H2, H3.
Qed.

(** C9. A problem whose status is not wrong, fixed-after-wrong or
    question (the done status among them) leaves the three lists as they
    are when it is read; and the summary of a state is the summary of the
    state without all such problems: only the three statuses are
    reported. *)
Theorem build_summary_skips_other_statuses (state : AppState)
  (today : string) :
  (forall pr, reportable pr = true
              <-> status pr = "틀림" \/ status pr = "틀렸지만 고침"
                  \/ status pr = "질문")
  /\ (forall m, reportable (mkProblem "완료" m) = false)
  /\ (forall p g kv, reportable (snd kv) = false -> visit_problem p g kv = g)
  /\ (forall text, build_summary state today = Ok text ->
        build_summary (prune_state state) today = Ok text).
Proof.
  split; [|split; [reflexivity | split; [apply visit_problem_skip|]]].
  - intros pr. unfold reportable. rewrite set_mem_In. cbn [In].
    intuition congruence.
  - intros text H.
    destruct (start_page state) as [s|] eqn:Hs;
      [destruct (end_page state) as [e|] eqn:He|].
    + rewrite (build_summary_visits state today s e Hs He) in H.
      rewrite (build_summary_visits (prune_state state) today s e Hs He).
      destruct (visits state (Z.min s e) (Z.max s e)) as [vs|err] eqn:Hvs;
        cbn [bind] in H; [|discriminate].
      rewrite (visits_prune _ _ _ _ Hvs). cbn [bind].
      rewrite groups_of_reportable. exact H.
    + unfold build_summary in *. cbn [prune_state start_page end_page].
      rewrite Hs, He in *. exact H.
    + unfold build_summary in *. cbn [prune_state start_page].
      rewrite Hs in *. exact H.
Qed.

(* ================================================================== *)
(** ** Further properties: range logic *)
(* ================================================================== *)

(** [clamp_pages] returns its two arguments in ascending order; the order
    in which they are given does not matter, and clamping what is clamped
    changes nothing. *)
Theorem clamp_pages_ordered (sp ep : Z) :
  fst (clamp_pages sp ep) <= snd (clamp_pages sp ep)
  /\ (clamp_pages sp ep = (sp, ep) \/ clamp_pages sp ep = (ep, sp))
  /\ clamp_pages ep sp = clamp_pages sp ep
  /\ clamp_pages (fst (clamp_pages sp ep)) (snd (clamp_pages sp ep))
     = clamp_pages sp ep.
Proof.
  forget_builtins.
  rewrite (clamp_pages_min_max ep sp), !(clamp_pages_min_max sp ep).
  cbn [fst snd]. rewrite clamp_pages_min_max.
  repeat split.
  - lia.
  - destruct (Z.le_gt_cases sp ep);
      [left | right]; f_equal; lia.
  - f_equal; lia.
  - f_equal; lia.
Qed.

(** The filling loop does nothing when every key of the range is there. *)
Lemma fill_missing_noop {V : Type} (dflt : V) (l : list Z) (d : dict V) :
  (forall i, In i l -> dict_mem d (str_int i) = true) ->
  fold_left (fun d i =>
               if dict_mem d (str_int i) then d
               else dict_set d (str_int i) dflt) l d = d.
Proof.
  forget_builtins.
  induction l as [|i l IH]; intros Hall; [reflexivity|].
  cbn [fold_left]. rewrite (Hall i (or_introl eq_refl)).
  apply IH. intros j Hj. apply Hall. now right.
Qed.

Lemma filter_idem {A : Type} (f : A -> bool) (l : list A) :
  filter f (filter f l) = filter f l.
Proof.
  forget_builtins.
  rewrite filter_twice. apply filter_ext. intros x. now destruct (f x).
Qed.

(** What both loops leave is left as it is by both loops. *)
Lemma synced_stable {V : Type} (dflt : V) (l : list Z) (d : dict V) :
  let synced :=
    filter (fun kv => set_mem (map str_int l) (fst kv))
      (fold_left (fun d i =>
                    if dict_mem d (str_int i) then d
                    else dict_set d (str_int i) dflt) l d) in
  filter (fun kv => set_mem (map str_int l) (fst kv))
    (fold_left (fun d i =>
                  if dict_mem d (str_int i) then d
                  else dict_set d (str_int i) dflt) l synced)
  = synced.
Proof.
  forget_builtins.
  intros synced. rewrite fill_missing_noop.
  - apply filter_idem.
  - intros i Hi. apply dict_mem_keys, dict_keys_get.
    unfold synced. rewrite synced_get.
    assert (set_mem (map str_int l) (str_int i) = true) as ->; [|discriminate].
    apply set_mem_In. now apply in_map.
Qed.

(** A call that returns was accepted. *)
Lemma apply_problem_range_ok_inv (pu pu' : PageUnit) (start_n end_n : Z) :
  apply_problem_range pu start_n end_n = (Ok tt, pu') ->
  0 < start_n /\ 0 < end_n
  /\ Z.max start_n end_n - Z.min start_n end_n <= 500.
Proof.
  forget_builtins.
  unfold apply_problem_range.
  destruct (Z.leb_spec start_n 0); [discriminate|].
  destruct (Z.leb_spec end_n 0); [discriminate|]. cbn [orb].
  rewrite swap_is_min_max, Z.gtb_ltb.
  destruct (Z.ltb_spec 500 (Z.max start_n end_n - Z.min start_n end_n));
    [discriminate|].
  intros _. lia.
Qed.

(** [apply_problem_range] does not depend on the order of the two
    bounds: the outcome and the page unit are the same. *)
Theorem apply_problem_range_symmetric (pu : PageUnit) (start_n end_n : Z) :
  apply_problem_range pu end_n start_n = apply_problem_range pu start_n end_n.
Proof.
  forget_builtins.
  unfold apply_problem_range.
  rewrite (orb_comm (end_n <=? 0)).
  destruct ((start_n <=? 0) || (end_n <=? 0)); [reflexivity|].
  rewrite (swap_is_min_max end_n), (swap_is_min_max start_n).
  rewrite (Z.min_comm end_n), (Z.max_comm end_n). reflexivity.
Qed.

(** Applying to a page unit the range that was just applied to it
    succeeds and leaves the unit exactly as it is: bounds, entries and
    their order. *)
Theorem apply_problem_range_idempotent (pu pu' : PageUnit)
  (start_n end_n : Z) :
  apply_problem_range pu start_n end_n = (Ok tt, pu') ->
  apply_problem_range pu' start_n end_n = (Ok tt, pu').
Proof.
  forget_builtins.
  intros Hrun.
  destruct (apply_problem_range_ok_inv _ _ _ _ Hrun) as [Hs [He Hspan]].
  rewrite apply_problem_range_accepted in Hrun by assumption.
  injection Hrun as <-.
  rewrite apply_problem_range_accepted by assumption.
  cbn [done problems]. f_equal. f_equal.
  apply (synced_stable (mkProblem "완료" "")).
Qed.

(** Running [ensure_pages_initialized] a second time changes nothing. *)
Theorem ensure_pages_initialized_idempotent (state : AppState) :
  ensure_pages_initialized (ensure_pages_initialized state)
  = ensure_pages_initialized state.
Proof.
  forget_builtins.
  destruct (start_page state) as [s|] eqn:Hs;
    [destruct (end_page state) as [e|] eqn:He|].
  - assert (ensure_pages_initialized state =
            mkAppState (book_name state) (Some (Z.min s e)) (Some (Z.max s e))
              (fold_left (fun pgs p =>
                            if dict_mem pgs (str_int p) then pgs
                            else dict_set pgs (str_int p) default_PageUnit)
                         (py_range (Z.min s e) (Z.max s e + 1))
                         (pages state))) as ->.
    { unfold ensure_pages_initialized. rewrite Hs, He, clamp_pages_min_max.
      reflexivity. }
    unfold ensure_pages_initialized. cbn [start_page end_page pages book_name].
    rewrite clamp_pages_min_max.
    rewrite Z.min_l, Z.max_r by lia.
    f_equal. apply fill_missing_noop.
    intros p Hp. apply dict_mem_keys, dict_keys_get.
    rewrite fill_missing_get.
    match goal with
    | |- match ?x with _ => _ end <> _ => destruct x
    end; [discriminate|].
    assert (set_mem (map str_int
                       (py_range (Z.min s e) (Z.max s e + 1))) (str_int p)
            = true) as ->; [|discriminate].
    apply set_mem_In. now apply in_map.
  - assert (ensure_pages_initialized state = state) as Hid.
    { unfold ensure_pages_initialized. now rewrite Hs, He. }
    now rewrite !Hid.
  - assert (ensure_pages_initialized state = state) as Hid.
    { unfold ensure_pages_initialized. now rewrite Hs. }
    now rewrite !Hid.
Qed.

(* ================================================================== *)
(** ** Further properties: summary *)
(* ================================================================== *)

Lemma map_res_ext_in {A B : Type} (f g : A -> res B) (l : list A) :
  (forall x, In x l -> f x = g x) -> map_res f l = map_res g l.
Proof.
  forget_builtins.
  induction l as [|x l IH]; intros Hext; [reflexivity|].
  cbn [map_res]. rewrite (Hext x (or_introl eq_refl)).
  rewrite IH; [reflexivity|]. intros y Hy. apply Hext. now right.
Qed.

Lemma map_res_ok_all {A B : Type} (f : A -> res B) (l : list A) (ys : list B) :
  map_res f l = Ok ys -> forall x, In x l -> exists y, f x = Ok y.
Proof.
  forget_builtins.
  revert ys. induction l as [|a l IH]; intros ys H x Hx; [destruct Hx|].
  cbn [map_res] in H.
  destruct (f a) as [b|e] eqn:Ha; cbn [bind] in H; [|discriminate].
  destruct (map_res f l) as [bs|e] eqn:Hl; cbn [bind] in H; [|discriminate].
  destruct Hx as [<-|Hx]; [now exists b | now apply (IH bs)].
Qed.

Lemma map_res_raise {A B : Type} (f : A -> res B) (l : list A) (e : exn) :
  map_res f l = Raise e -> exists x, In x l /\ f x = Raise e.
Proof.
  forget_builtins.
  induction l as [|a l IH]; intros H; [discriminate|].
  cbn [map_res] in H.
  destruct (f a) as [b|e'] eqn:Ha; cbn [bind] in H.
  - destruct (map_res f l) as [bs|e'] eqn:Hl; cbn [bind] in H; [discriminate|].
    injection H as ->. destruct (IH eq_refl) as [x [Hx Hfx]].
    exists x. split; [now right | exact Hfx].
  - injection H as ->. exists a. split; [now left | exact Ha].
Qed.

(** The problems read depend on the state through the problems of the
    pages of the range only. *)
Lemma visits_ext (state1 state2 : AppState) (sp ep : Z) :
  (forall p, sp <= p <= ep -> problems_at state1 p = problems_at state2 p) ->
  visits state1 sp ep = visits state2 sp ep.
Proof.
  intros Hsame. unfold visits.
  rewrite (map_res_ext_in
             (fun p => items <- sorted_items (problems_at state1 p) ;;
                       Ok (map (pair p) items))
             (fun p => items <- sorted_items (problems_at state2 p) ;;
                       Ok (map (pair p) items))); [reflexivity|].
  intros p Hp. apply py_range_In in Hp. rewrite Hsame by lia. reflexivity.
Qed.

Lemma render_ext (state1 state2 : AppState) (sp ep : Z) (today : string)
  (g : Groups) :
  book_name state1 = book_name state2 ->
  render state1 sp ep today g = render state2 sp ep today g.
Proof. forget_builtins. intros H. unfold render. now rewrite H. Qed.

(** The summary depends on the state through the book name, the two page
    bounds up to their order, and the problems of the pages of the range:
    done flags, problem bounds and pages outside the range do not show. *)
Theorem build_summary_frame (state1 state2 : AppState) (today : string)
  (s1 e1 s2 e2 : Z) :
  start_page state1 = Some s1 -> end_page state1 = Some e1 ->
  start_page state2 = Some s2 -> end_page state2 = Some e2 ->
  clamp_pages s1 e1 = clamp_pages s2 e2 ->
  book_name state1 = book_name state2 ->
  (forall p, Z.min s1 e1 <= p <= Z.max s1 e1 ->
     problems_at state1 p = problems_at state2 p) ->
  build_summary state1 today = build_summary state2 today.
Proof.
  intros Hs1 He1 Hs2 He2 Hclamp Hbook Hprobs.
  rewrite (build_summary_visits state1 today s1 e1 Hs1 He1).
  rewrite (build_summary_visits state2 today s2 e2 Hs2 He2).
  rewrite !clamp_pages_min_max in Hclamp. injection Hclamp as <- <-.
  rewrite (visits_ext state1 state2 _ _ Hprobs).
  destruct (visits state2 (Z.min s1 e1) (Z.max s1 e1)); cbn [bind];
    [|reflexivity].
  now rewrite (render_ext state1 state2).
Qed.

Lemma problems_at_ensure (state : AppState) (p : Z) :
  problems_at (ensure_pages_initialized state) p = problems_at state p.
Proof.
  forget_builtins.
  unfold problems_at, ensure_pages_initialized.
  destruct (start_page state) as [s|]; [|reflexivity].
  destruct (end_page state) as [e|]; [|reflexivity].
  destruct (clamp_pages s e) as [sp ep]. cbn [pages].
  rewrite fill_missing_get.
  match goal with
  | |- match match ?x with _ => _ end with _ => _ end = _ => destruct x
  end; [reflexivity|].
  destruct (set_mem _ _); reflexivity.
Qed.

(** Initializing the pages does not change the summary: the units it
    adds have no problems, and the order of the bounds does not matter. *)
Theorem build_summary_after_ensure (state : AppState) (today : string) :
  build_summary (ensure_pages_initialized state) today
  = build_summary state today.
Proof.
  destruct (start_page state) as [s|] eqn:Hs;
    [destruct (end_page state) as [e|] eqn:He|].
  - assert (ensure_pages_initialized state =
            mkAppState (book_name state) (Some (Z.min s e)) (Some (Z.max s e))
              (pages (ensure_pages_initialized state))) as Hens.
    { unfold ensure_pages_initialized. rewrite Hs, He, clamp_pages_min_max.
      reflexivity. }
    rewrite (build_summary_visits state today s e Hs He).
    rewrite (build_summary_visits (ensure_pages_initialized state) today
               (Z.min s e) (Z.max s e))
      by (rewrite Hens; reflexivity).
    rewrite Z.min_l, Z.max_r by lia.
    rewrite (visits_ext (ensure_pages_initialized state) state)
      by (intros p _; apply problems_at_ensure).
    destruct (visits state (Z.min s e) (Z.max s e)); cbn [bind];
      [|reflexivity].
    rewrite (render_ext (ensure_pages_initialized state) state);
      [reflexivity|]. rewrite Hens. reflexivity.
  - assert (ensure_pages_initialized state = state) as ->; [|reflexivity].
    unfold ensure_pages_initialized. now rewrite Hs, He.
  - assert (ensure_pages_initialized state = state) as ->; [|reflexivity].
    unfold ensure_pages_initialized. now rewrite Hs.
Qed.

Lemma sorted_items_ok_keys (d items : dict Problem) :
  sorted_items d = Ok items ->
  forall kv, In kv d -> exists n, py_int (fst kv) = Ok n.
Proof.
  intros H kv Hkv. apply sorted_items_inv in H. destruct H as [keyed [Hdec _]].
  destruct (map_res_ok_all _ _ _ Hdec kv Hkv) as [y Hy].
  destruct (py_int (fst kv)) as [n|e]; [now exists n | discriminate].
Qed.

Lemma sorted_items_raise (d : dict Problem) (e : exn) :
  sorted_items d = Raise e ->
  exists kv, In kv d /\ py_int (fst kv) = Raise e.
Proof.
  unfold sorted_items. intros H.
  destruct (map_res _ d) as [keyed|e'] eqn:Hdec; cbn [bind] in H;
    [discriminate|].
  injection H as ->. apply map_res_raise in Hdec.
  destruct Hdec as [kv [Hkv Hf]]. exists kv. split; [exact Hkv|].
  destruct (py_int (fst kv)); cbn [bind] in Hf; [discriminate|].
  now injection Hf as ->.
Qed.

(** With both bounds set, the summary is returned exactly when every
    problem key of the pages of the range reads as an int; otherwise the
    call raises what [int] raises on such a key, and it raises nothing
    else. *)
Theorem build_summary_raises_on_bad_key (state : AppState) (today : string)
  (s e : Z) :
  start_page state = Some s -> end_page state = Some e ->
  ((exists text, build_summary state today = Ok text)
   <-> keys_numeric state (Z.min s e) (Z.max s e))
  /\ (forall err, build_summary state today = Raise err ->
        exists p kv, Z.min s e <= p <= Z.max s e
                     /\ In kv (problems_at state p)
                     /\ py_int (fst kv) = Raise err)
  /\ (forall p kv err, Z.min s e <= p <= Z.max s e ->
        In kv (problems_at state p) -> py_int (fst kv) = Raise err ->
        raises (build_summary state today)).
Proof.
  intros Hs He. rewrite (build_summary_visits state today s e Hs He).
  assert ((exists vs, visits state (Z.min s e) (Z.max s e) = Ok vs)
          -> keys_numeric state (Z.min s e) (Z.max s e)) as Hnum.
  { intros [vs Hvs] p kv Hp Hkv. unfold visits in Hvs.
    destruct (map_res _ (py_range (Z.min s e) (Z.max s e + 1)))
      as [per_page|err] eqn:Hpp; cbn [bind] in Hvs; [|discriminate].
    destruct (map_res_ok_all _ _ _ Hpp p) as [y Hy];
      [apply py_range_In; lia|].
    destruct (sorted_items (problems_at state p)) as [items|err] eqn:Hit;
      cbn [bind] in Hy; [|discriminate].
    exact (sorted_items_ok_keys _ _ Hit kv Hkv). }
  split; [split|split].
  - intros [text Htext]. apply Hnum.
    destruct (visits state (Z.min s e) (Z.max s e)) as [vs|err];
      [now exists vs | discriminate].
  - intros Hk. destruct (visits_returns _ _ _ Hk) as [vs ->].
    cbn [bind]. now eexists.
  - intros err Herr. unfold visits in Herr.
    destruct (map_res _ (py_range (Z.min s e) (Z.max s e + 1)))
      as [per_page|err'] eqn:Hpp; cbn [bind] in Herr; [discriminate|].
    injection Herr as ->. apply map_res_raise in Hpp.
    destruct Hpp as [p [Hp Hf]]. apply py_range_In in Hp.
    destruct (sorted_items (problems_at state p)) as [items|err'] eqn:Hit;
      cbn [bind] in Hf; [discriminate|].
    injection Hf as ->. apply sorted_items_raise in Hit.
    destruct Hit as [kv [Hkv Hint]].
    exists p, kv. split; [lia|]. split; assumption.
  - intros p kv err Hp Hkv Hint.
    destruct (visits state (Z.min s e) (Z.max s e)) as [vs|err'] eqn:Hvs;
      cbn [bind]; [|now exists err'].
    destruct (Hnum (ex_intro _ vs eq_refl) p kv Hp Hkv) as [n Hn].
    congruence.
Qed.



(* ================================================================== *)
(** ** Further properties: keys read back as numbers *)
(* ================================================================== *)

Lemma digits_cons_digit (c : ascii) (k : Z) (prev_us : bool) (acc : Z)
  (l : list ascii) :
  digit_val c = Some k -> is_underscore c = false ->
  digits prev_us acc (c :: l) = digits false (10 * acc + k) l.
Proof.
  forget_builtins. intros Hd Hu. cbn [digits]. now rewrite Hu, Hd.
Qed.

Lemma digits_of_uint_acc (d : Decimal.uint) :
  forall p : positive,
    digits false (Z.pos p) (list_ascii_of_string (NilEmpty.string_of_uint d))
    = Some (Z.pos (Pos.of_uint_acc d p)).
Proof.
  forget_builtins.
  induction d as [|d IH|d IH|d IH|d IH|d IH|d IH|d IH|d IH|d IH|d IH];
    intros p;
    cbn [NilEmpty.string_of_uint list_ascii_of_string Pos.of_uint_acc];
    [reflexivity|..];
    (erewrite digits_cons_digit by (vm_compute; reflexivity));
    rewrite <- IH; f_equal; lia.
Qed.

Lemma digits_of_uint (d : Decimal.uint) :
  digits false 0 (list_ascii_of_string (NilEmpty.string_of_uint d))
  = Some (Z.of_N (Pos.of_uint d)).
Proof.
  forget_builtins.
  induction d as [|d IH|d IH|d IH|d IH|d IH|d IH|d IH|d IH|d IH|d IH];
    cbn [NilEmpty.string_of_uint list_ascii_of_string Pos.of_uint];
    [reflexivity|..];
    (erewrite digits_cons_digit by (vm_compute; reflexivity));
    [exact IH|..]; apply digits_of_uint_acc.
Qed.

(** What the parser needs to know of a decimal digit. *)
Lemma digit_char_facts (c : ascii) (k : Z) :
  digit_val c = Some k ->
  (byte c <? 128)%nat = true /\ int_ws c = false /\ is_underscore c = false
  /\ (byte c =? 45)%nat = false /\ (byte c =? 43)%nat = false.
Proof.
  forget_builtins.
  unfold digit_val, int_ws, is_underscore. generalize (byte c) as n. intros n.
  destruct (Nat.leb_spec 48 n); destruct (Nat.leb_spec n 57);
    cbn [andb]; try discriminate. intros _.
  repeat split.
  - apply Nat.ltb_lt. lia.
  - destruct (Nat.leb_spec 9 n); destruct (Nat.leb_spec n 13);
      destruct (Nat.eqb_spec n 32); cbn; try reflexivity; lia.
  - apply Nat.eqb_neq. lia.
  - apply Nat.eqb_neq. lia.
  - apply Nat.eqb_neq. lia.
Qed.

Lemma uint_chars_digits (d : Decimal.uint) :
  Forall (fun c => exists k, digit_val c = Some k)
         (list_ascii_of_string (NilEmpty.string_of_uint d)).
Proof.
  forget_builtins.
  induction d; cbn [NilEmpty.string_of_uint list_ascii_of_string];
    constructor; try exact IHd; eexists; vm_compute; reflexivity.
Qed.

Lemma skip_ws_head (l : list ascii) :
  match l with c :: _ => int_ws c = false | [] => True end -> skip_ws l = l.
Proof.
  forget_builtins. destruct l as [|c l]; [reflexivity|]. cbn [skip_ws].
  now intros ->.
Qed.

Lemma skip_ws_both_ends (l : list ascii) :
  Forall (fun c => int_ws c = false) l -> rev (skip_ws (rev (skip_ws l))) = l.
Proof.
  forget_builtins. intros Hall.
  rewrite (skip_ws_head l) by (destruct Hall; auto).
  rewrite (skip_ws_head (rev l)).
  - apply rev_involutive.
  - apply Forall_rev in Hall. destruct Hall; auto.
Qed.

(** [int] of digits, and of a minus sign and digits. *)
Lemma int_ascii_digits (s : string) (c : ascii) (l : list ascii) :
  list_ascii_of_string s = c :: l ->
  Forall (fun c => exists k, digit_val c = Some k) (c :: l) ->
  is_ascii s = true /\ int_ascii s = digits false 0 (c :: l).
Proof.
  forget_builtins. intros Hs Hall. unfold is_ascii, int_ascii. rewrite Hs.
  split.
  - apply forallb_forall. intros x Hx. rewrite Forall_forall in Hall.
    destruct (Hall x Hx) as [k Hk]. now apply (digit_char_facts x k).
  - rewrite skip_ws_both_ends.
    + inversion Hall as [|? ? [k Hk] _]; subst.
      destruct (digit_char_facts c k Hk) as [_ [_ [Hu [Hm Hp]]]].
      rewrite Hm, Hp. unfold digit_string. now rewrite Hu.
    + eapply Forall_impl; [|exact Hall]. intros x [k Hk].
      now apply (digit_char_facts x k).
Qed.

Lemma int_ascii_minus_digits (s : string) (c : ascii) (l : list ascii) :
  list_ascii_of_string s = "-"%char :: c :: l ->
  Forall (fun c => exists k, digit_val c = Some k) (c :: l) ->
  is_ascii s = true
  /\ int_ascii s = option_map Z.opp (digits false 0 (c :: l)).
Proof.
  forget_builtins. intros Hs Hall. unfold is_ascii, int_ascii. rewrite Hs.
  assert (Forall (fun c => int_ws c = false) ("-"%char :: c :: l)) as Hws.
  { constructor; [reflexivity|].
    eapply Forall_impl; [|exact Hall]. intros x [k Hk].
    now apply (digit_char_facts x k). }
  split.
  - apply forallb_forall. intros x [<-|Hx]; [reflexivity|].
    rewrite Forall_forall in Hall.
    destruct (Hall x Hx) as [k Hk]. now apply (digit_char_facts x k).
  - rewrite (skip_ws_both_ends _ Hws).
    change ((byte "-" =? 45)%nat) with true. cbn iota.
    inversion Hall as [|? ? [k Hk] _]; subst.
    destruct (digit_char_facts c k Hk) as [_ [_ [Hu _]]].
    unfold digit_string. now rewrite Hu.
Qed.

Lemma uint_chars_nonnil (d : Decimal.uint) :
  d <> Decimal.Nil ->
  exists c l, list_ascii_of_string (NilEmpty.string_of_uint d) = c :: l.
Proof.
  forget_builtins.
  destruct d; intros H; try (now destruct H);
    cbn [NilEmpty.string_of_uint list_ascii_of_string]; eexists; eexists;
    reflexivity.
Qed.

Lemma NilZero_string_nonnil (d : Decimal.uint) :
  d <> Decimal.Nil -> NilZero.string_of_uint d = NilEmpty.string_of_uint d.
Proof. forget_builtins. destruct d; intros H; [now destruct H|..]; reflexivity. Qed.

(** [int(str(n))] is [n]. *)
Lemma py_int_str_int (n : Z) : py_int (str_int n) = Ok n.
Proof.
  unfold py_int, str_int. destruct n as [|p|p]; [reflexivity|..];
    cbn [Z.to_int NilZero.string_of_int];
    rewrite NilZero_string_nonnil by apply Unsigned.to_uint_nonnil;
    destruct (uint_chars_nonnil (Pos.to_uint p) (Unsigned.to_uint_nonnil p))
      as [c [l Hcl]];
    pose proof (uint_chars_digits (Pos.to_uint p)) as Hdig;
    pose proof (digits_of_uint (Pos.to_uint p)) as Hval;
    rewrite Unsigned.of_to in Hval; rewrite Hcl in Hdig, Hval.
  - destruct (int_ascii_digits _ c l Hcl Hdig) as [-> ->].
    now rewrite Hval.
  - destruct (int_ascii_minus_digits
                (String "-" (NilEmpty.string_of_uint (Pos.to_uint p))) c l)
      as [-> ->]; [cbn [list_ascii_of_string]; now rewrite Hcl | exact Hdig |].
    now rewrite Hval.
Qed.

(** The keys the application creates read back as the numbers they were
    made from: [int(str(n))] is [n]; every problem key that
    [apply_problem_range] leaves is the numeral of an int; and after
    [ensure_pages_initialized] every page of the range is found under a
    key that reads back as its number. *)
Theorem created_keys_read_back (state : AppState) :
  (forall n, py_int (str_int n) = Ok n)
  /\ (forall pu pu' a b k,
        apply_problem_range pu a b = (Ok tt, pu') ->
        In k (dict_keys (problems pu')) ->
        exists i, k = str_int i /\ py_int k = Ok i)
  /\ (forall s e p,
        start_page state = Some s -> end_page state = Some e ->
        Z.min s e <= p <= Z.max s e ->
        exists unit,
          dict_get (pages (ensure_pages_initialized state)) (str_int p)
          = Some unit
          /\ py_int (str_int p) = Ok p).
Proof.
  split; [exact py_int_str_int|]. split.
  - intros pu pu' a b k Hrun Hk.
    destruct (apply_problem_range_ok_inv _ _ _ _ Hrun) as [Ha [Hb Hspan]].
    rewrite apply_problem_range_accepted in Hrun by assumption.
    injection Hrun as <-. cbn [problems] in Hk.
    apply dict_keys_get in Hk. rewrite synced_get in Hk.
    destruct (set_mem _ k) eqn:K; [|congruence].
    apply range_key_iff in K. destruct K as [i [_ ->]].
    exists i. split; [reflexivity | apply py_int_str_int].
  - intros s e p Hs He Hp.
    assert (ensure_pages_initialized state =
            mkAppState (book_name state) (Some (Z.min s e)) (Some (Z.max s e))
              (fold_left (fun pgs p =>
                            if dict_mem pgs (str_int p) then pgs
                            else dict_set pgs (str_int p) default_PageUnit)
                         (py_range (Z.min s e) (Z.max s e + 1))
                         (pages state))) as ->.
    { unfold ensure_pages_initialized. rewrite Hs, He, clamp_pages_min_max.
      reflexivity. }
    cbn [pages]. rewrite fill_missing_get.
    match goal with
    | |- exists _, match ?x with _ => _ end = _ /\ _ =>
        destruct x as [unit0|]
    end.
    + exists unit0. split; [reflexivity | apply py_int_str_int].
    + assert (set_mem (map str_int
                         (py_range (Z.min s e) (Z.max s e + 1))) (str_int p)
              = true) as ->.
      { apply set_mem_In, in_map, py_range_In. lia. }
      eexists. split; [reflexivity | apply py_int_str_int].
Qed.

(** On a state whose problem keys, in the pages of the range, are
    numerals of ints (as [apply_problem_range] makes them), the summary is
    returned: [build_summary] does not raise. *)
Theorem build_summary_returns_on_numerals (state : AppState)
  (today : string) (s e : Z) :
  start_page state = Some s -> end_page state = Some e ->
  (forall p kv, Z.min s e <= p <= Z.max s e ->
     In kv (problems_at state p) -> exists i, fst kv = str_int i) ->
  exists text, build_summary state today = Ok text.
Proof.
  intros Hs He Hkeys.
  rewrite (build_summary_visits state today s e Hs He).
  destruct (visits_returns state (Z.min s e) (Z.max s e)) as [vs ->].
  - intros p kv Hp Hkv. destruct (Hkeys p kv Hp Hkv) as [i ->].
    exists i. apply py_int_str_int.
  - cbn [bind]. now eexists.
Qed.

(* ================================================================== *)
(** ** Further properties: persistence *)
(* ================================================================== *)

Lemma load_body_raw_state (state : AppState) :
  state_wf state -> load_body (JsonDoc (raw_state state)) = Ok (loaded_of state).
Proof.
  intros [Hpages Hprobs].
  unfold load_body, raw_state. cbn [json_load bind].
  rewrite (fold_set_fresh raw_page) by exact Hpages.
  cbn [py_get dict_get String.eqb Ascii.eqb Bool.eqb bind app].
  rewrite or_empty_dict_VDict. cbn [py_items bind].
  rewrite (for_each_set_fresh raw_page load_page loaded_page).
  - reflexivity.
  - intros kv Hin. apply load_page_raw_page. apply Hprobs. exact Hin.
  - exact Hpages.
Qed.

(** [save_state] keeps one generation back: the text of the state file
    becomes the backup; a state file that is missing, or that cannot be
    decoded, leaves the backup alone.  So after two saves the state file
    loads to the second state and the backup, put in its place, loads to
    the first. *)
Theorem save_state_backup (state1 state2 : AppState) (disk : Disk) :
  state_wf state1 -> state_wf state2 ->
  (forall old, STATE_FILE disk = Some old -> old <> Undecodable ->
     BAK_FILE (save_state state1 disk) = Some old)
  /\ (STATE_FILE disk = Some Undecodable \/ STATE_FILE disk = None ->
      BAK_FILE (save_state state1 disk) = BAK_FILE disk)
  /\ load_state (save_state state2 (save_state state1 disk))
     = Ok (Some (loaded_of state2))
  /\ load_state
       (mkDisk (BAK_FILE (save_state state2 (save_state state1 disk))) None)
     = Ok (Some (loaded_of state1)).
Proof.
  intros Hwf1 Hwf2. unfold save_state. cbn [STATE_FILE BAK_FILE].
  split; [intros old -> Hold; destruct old; congruence|].
  split; [intros [-> | ->]; reflexivity|].
  unfold load_state. cbn [STATE_FILE].
  rewrite (load_body_raw_state _ Hwf1), (load_body_raw_state _ Hwf2).
  split; reflexivity.
Qed.

(** After [reset_disk] both files are gone and [load_state] returns
    [None]; a save that follows finds nothing to back up, so the data
    from before the reset is on neither file. *)
Theorem reset_disk_forgets (state : AppState) (disk : Disk) :
  state_wf state ->
  load_state (reset_disk disk) = Ok None
  /\ STATE_FILE (reset_disk disk) = None
  /\ BAK_FILE (reset_disk disk) = None
  /\ BAK_FILE (save_state state (reset_disk disk)) = None
  /\ load_state (save_state state (reset_disk disk))
     = Ok (Some (loaded_of state)).
Proof.
  intros Hwf. repeat split.
  unfold load_state, save_state, reset_disk. cbn [STATE_FILE].
  now rewrite (load_body_raw_state _ Hwf).
Qed.

Lemma dict_get_set_other {V : Type} (d : dict V) (k k' : string) (v : V) :
  k <> k' -> dict_get (dict_set d k v) k' = dict_get d k'.
Proof.
  forget_builtins. intros Hne. rewrite dict_get_set.
  destruct (String.eqb_spec k k'); [contradiction | reflexivity].
Qed.

(** The decoding reads the fields it knows and no other: adding a field
    of another name to a problem entry, to a page entry or to the
    document, or changing the value of one, does not change what is
    loaded. *)
Theorem load_ignores_unknown_fields (k : string) (v : pyval) :
  (forall vd, ~ In k ["status"; "memo"] ->
     load_problem (VDict (dict_set vd k v)) = load_problem (VDict vd))
  /\ (forall pd, ~ In k ["done"; "start_problem"; "end_problem"; "problems"] ->
        load_page (VDict (dict_set pd k v)) = load_page (VDict pd))
  /\ (forall d bak, ~ In k ["book_name"; "start_page"; "end_page"; "pages"] ->
        load_state (mkDisk (Some (JsonDoc (VDict (dict_set d k v)))) bak)
        = load_state (mkDisk (Some (JsonDoc (VDict d))) bak)).
Proof.
  split; [|split].
  - intros vd Hk. cbn [In] in Hk. unfold load_problem. cbn [py_get].
    rewrite !dict_get_set_other by (intros E; apply Hk; subst k; auto 6). reflexivity.
  - intros pd Hk. cbn [In] in Hk. unfold load_page. cbn [py_get].
    rewrite !dict_get_set_other by (intros E; apply Hk; subst k; auto 6). reflexivity.
  - intros d bak Hk. cbn [In] in Hk. unfold load_state, load_body.
    cbn [STATE_FILE json_load bind py_get].
    rewrite !dict_get_set_other by (intros E; apply Hk; subst k; auto 6). reflexivity.
Qed.

(* ================================================================== *)
(** ** Further properties: copy button, views, progress *)
(* ================================================================== *)

Lemma escape_js_cons (c : ascii) (s : string) :
  escape_js (String c s)
  = if Ascii.eqb c backslash
    then String backslash (String backslash (escape_js s))
    else if Ascii.eqb c backtick
         then String backslash (String backtick (escape_js s))
         else String c (escape_js s).
Proof.
  forget_builtins. unfold escape_js. cbn [replace_char].
  destruct (Ascii.eqb c backslash) eqn:Eb.
  - reflexivity.
  - cbn [replace_char]. destruct (Ascii.eqb c backtick); reflexivity.
Qed.

(** The text is embedded in the script so that the template literal
    holding it ends where the markup ends it: no backtick of the text
    closes it early and no backslash of the text takes the closing
    backtick.  Dropping the escaping backslashes gives the text back, so
    different texts give different scripts. *)
Theorem escape_js_keeps_literal (text : string) :
  scan_literal false (escape_js text) = Some false
  /\ unescape_js (escape_js text) = text
  /\ (forall text', escape_js text' = escape_js text -> text' = text).
Proof.
  forget_builtins.
  assert (forall t, unescape_js (escape_js t) = t) as Hun.
  { induction t as [|c t IH]; [reflexivity|]. rewrite escape_js_cons.
    destruct (Ascii.eqb c backslash) eqn:Eb.
    - apply Ascii.eqb_eq in Eb. subst c. cbn [unescape_js].
      change (Ascii.eqb backslash backslash) with true. cbn iota.
      now rewrite IH.
    - destruct (Ascii.eqb c backtick) eqn:Eq.
      + apply Ascii.eqb_eq in Eq. subst c. cbn [unescape_js].
        change (Ascii.eqb backslash backslash) with true. cbn iota.
        now rewrite IH.
      + cbn [unescape_js]. rewrite Eb. now rewrite IH. }
  split; [|split; [apply Hun|]].
  - induction text as [|c t IH]; [reflexivity|]. rewrite escape_js_cons.
    destruct (Ascii.eqb c backslash) eqn:Eb.
    + cbn [scan_literal].
      change (Ascii.eqb backslash backslash) with true. cbn iota. exact IH.
    + destruct (Ascii.eqb c backtick) eqn:Eq.
      * cbn [scan_literal].
        change (Ascii.eqb backslash backslash) with true. cbn iota. exact IH.
      * cbn [scan_literal]. now rewrite Eb, Eq.
  - intros text' H. rewrite <- (Hun text'), H. apply Hun.
Qed.

(** A text with no backslash and no backtick is embedded as it is: no
    other character is escaped, a dollar sign and a brace among them. *)
Theorem copy_button_html_verbatim (text : string) :
  (forall c, In c (list_ascii_of_string text) ->
     c <> backslash /\ c <> backtick) ->
  copy_button_html text = html_head ++ text ++ html_tail.
Proof.
  forget_builtins.
  intros Hplain. unfold copy_button_html. f_equal. f_equal.
  induction text as [|c t IH]; [reflexivity|]. rewrite escape_js_cons.
  destruct (Hplain c (or_introl eq_refl)) as [Hb Hq].
  apply Ascii.eqb_neq in Hb, Hq. rewrite Hb, Hq. f_equal.
  apply IH. intros x Hx. apply Hplain. now right.
Qed.

Lemma key_missing_false {V : Type} (k : option string) (d : dict V) :
  key_missing k d = false ->
  exists s v, k = Some s /\ s <> "" /\ dict_get d s = Some v.
Proof.
  forget_builtins.
  destruct k as [s|]; [|discriminate]. cbn [key_missing].
  intros H. apply orb_false_iff in H. destruct H as [Hs Hm].
  apply String.eqb_neq in Hs. apply negb_false_iff in Hm.
  unfold dict_mem in Hm. destruct (dict_get d s) as [v|] eqn:Hg;
    [|discriminate].
  now exists s, v.
Qed.

(** What entering the body of a view tells about the session. *)
Lemma route_entered (state : AppState) (ss : Session) (v : string) :
  route state ss = Entered v ->
  view ss = v
  /\ In v ["home"; "page"; "problem"; "summary"]
  /\ (v = "page" \/ v = "problem" ->
      exists pk unit,
        active_page ss = Some pk /\ dict_get (pages state) pk = Some unit
        /\ (v = "problem" ->
            exists num pr,
              active_problem ss = Some num
              /\ dict_get (problems unit) num = Some pr)).
Proof.
  forget_builtins. unfold route.
  destruct (String.eqb_spec (view ss) "home") as [Hv|_].
  { intros H. injection H as <-. rewrite Hv. cbn [In].
    split; [reflexivity|]. split; [tauto|]. intros [H|H]; discriminate. }
  destruct (String.eqb_spec (view ss) "page") as [Hv|_].
  { destruct (key_missing (active_page ss) (pages state)) eqn:Hk;
      [discriminate|].
    intros H. injection H as <-. rewrite Hv. cbn [In].
    split; [reflexivity|]. split; [tauto|]. intros _.
    destruct (key_missing_false _ _ Hk) as [pk [unit [Hpk [_ Hget]]]].
    exists pk, unit. repeat split; try assumption. discriminate. }
  destruct (String.eqb_spec (view ss) "problem") as [Hv|_].
  { destruct (key_missing (active_page ss) (pages state)) eqn:Hk;
      [discriminate|].
    destruct (key_missing_false _ _ Hk) as [pk [unit [Hpk [_ Hget]]]].
    rewrite Hpk, Hget.
    destruct (key_missing (active_problem ss) (problems unit)) eqn:Hn;
      [discriminate|].
    intros H. injection H as <-. rewrite Hv. cbn [In].
    split; [reflexivity|]. split; [tauto|]. intros _.
    destruct (key_missing_false _ _ Hn) as [num [pr [Hnum [_ Hpr]]]].
    exists pk, unit. repeat split; try assumption.
    intros _. now exists num, pr. }
  destruct (String.eqb_spec (view ss) "summary") as [Hv|_]; [|discriminate].
  intros H. injection H as <-. rewrite Hv. cbn [In].
  split; [reflexivity|]. split; [tauto|]. intros [H|H]; discriminate.
Qed.

(** A rerun changes the view only, and the view it asks for is entered. *)
Lemma route_rerun (state : AppState) (ss ss' : Session) :
  route state ss = Rerun ss' ->
  active_page ss' = active_page ss
  /\ active_problem ss' = active_problem ss
  /\ exists v, route state ss' = Entered v.
Proof.
  forget_builtins.
  assert (forall s0, route state (goto "home" None None s0) = Entered "home")
    as Hhome by reflexivity.
  unfold route at 1.
  destruct (String.eqb (view ss) "home"); [discriminate|].
  destruct (String.eqb (view ss) "page").
  { destruct (key_missing (active_page ss) (pages state)); [|discriminate].
    intros H. injection H as <-. repeat split. now exists "home". }
  destruct (String.eqb (view ss) "problem").
  { destruct (key_missing (active_page ss) (pages state)) eqn:Hk.
    - intros H. injection H as <-. repeat split. now exists "home".
    - destruct (key_missing_false _ _ Hk) as [pk [unit [Hpk [_ Hget]]]].
      rewrite Hpk, Hget.
      destruct (key_missing (active_problem ss) (problems unit));
        [|discriminate].
      intros H. injection H as <-. cbn [goto active_page active_problem].
      split; [reflexivity|]. split; [reflexivity|].
      exists "page". unfold route. cbn [goto view active_page].
      change (String.eqb "page" "home") with false.
      change (String.eqb "page" "page") with true. cbn iota.
      rewrite <- Hpk, Hk. reflexivity. }
  destruct (String.eqb (view ss) "summary"); [discriminate|].
  intros H. injection H as <-. repeat split. now exists "home".
Qed.

(** From any session, the body of a view is entered after at most one
    rerun.  The reruns change the view only, not the active page or
    problem.  When the page view is entered, the active page is a key of
    [pages]; when the problem view is entered, the active page is a key
    of [pages] and the active problem a key of the problems of that page:
    the lookups the two views start with find their entries. *)
Theorem views_settle (state : AppState) (ss : Session) :
  exists v ss',
    settle 2 state ss = Some (v, ss')
    /\ view ss' = v
    /\ In v ["home"; "page"; "problem"; "summary"]
    /\ active_page ss' = active_page ss
    /\ active_problem ss' = active_problem ss
    /\ (v = "page" \/ v = "problem" ->
        exists pk unit,
          active_page ss' = Some pk /\ dict_get (pages state) pk = Some unit
          /\ (v = "problem" ->
              exists num pr,
                active_problem ss' = Some num
                /\ dict_get (problems unit) num = Some pr)).
Proof.
  forget_builtins. cbn [settle].
  destruct (route state ss) as [v|ss1] eqn:Hr.
  - exists v, ss. destruct (route_entered _ _ _ Hr) as [Hv [Hin Hkeys]].
    repeat split; assumption.
  - destruct (route_rerun _ _ _ Hr) as [Hp [Hn [v Hv]]]. rewrite Hv.
    exists v, ss1. destruct (route_entered _ _ _ Hv) as [Hview [Hin Hkeys]].
    repeat split; assumption.
Qed.

Lemma filter_length_all {A : Type} (f : A -> bool) (l : list A) :
  List.length (filter f l) = List.length l <-> forall x, In x l -> f x = true.
Proof.
  forget_builtins.
  induction l as [|x l IH]; cbn [filter List.length In]; [tauto|].
  pose proof (filter_length_le f l) as Hle.
  destruct (f x) eqn:Fx; cbn [List.length].
  - split.
    + intros H y [<-|Hy]; [exact Fx|]. apply IH; [lia | exact Hy].
    + intros H. f_equal. apply IH. intros y Hy. apply H. now right.
  - split; [lia|]. intros H. specialize (H x (or_introl eq_refl)). congruence.
Qed.

(** The progress caption of the home view counts between zero and all of
    the pages of the range, the range never being empty; it counts all
    of them exactly when every page of the range has a unit marked done. *)
Theorem home_progress_bounds (state : AppState) (s e : Z) :
  start_page state = Some s -> end_page state = Some e ->
  exists done_cnt total,
    home_progress state = Some (done_cnt, total)
    /\ total = Z.max s e - Z.min s e + 1
    /\ 0 <= done_cnt <= total
    /\ 1 <= total
    /\ (done_cnt = total
        <-> forall p, Z.min s e <= p <= Z.max s e ->
              exists unit, dict_get (pages state) (str_int p) = Some unit
                           /\ done unit = true).
Proof.
  forget_builtins.
  intros Hs He. unfold home_progress. rewrite Hs, He, clamp_pages_min_max.
  eexists. eexists. split; [reflexivity|]. split; [reflexivity|].
  set (f := fun p : Z =>
              done match dict_get (pages state) (str_int p) with
                   | Some unit => unit
                   | None => default_PageUnit
                   end).
  pose proof (filter_length_le f (py_range (Z.min s e) (Z.max s e + 1))) as Hle.
  pose proof (filter_length_all f (py_range (Z.min s e) (Z.max s e + 1))) as Hall.
  rewrite py_range_length in Hle, Hall.
  split; [lia|]. split; [lia|]. split.
  - intros Hcnt p Hp.
    assert (f p = true) as Hf.
    { apply Hall; [lia | apply py_range_In; lia]. }
    unfold f in Hf. destruct (dict_get (pages state) (str_int p)) as [unit|];
      [now exists unit | discriminate].
  - intros Hdone.
    assert (List.length (filter f (py_range (Z.min s e) (Z.max s e + 1)))
            = Z.to_nat (Z.max s e + 1 - Z.min s e)) as ->; [|lia].
    apply Hall. intros p Hp. apply py_range_In in Hp.
    destruct (Hdone p ltac:(lia)) as [unit [Hu Hd]]. unfold f. now rewrite Hu.
Qed.

Lemma sorted_keys_perm {V : Type} (d : dict V) (nums : list string) :
  sorted_keys d = Ok nums -> Permutation (dict_keys d) nums.
Proof.
  unfold sorted_keys.
  destruct (map_res _ (dict_keys d)) as [keyed|e] eqn:Hdec; cbn [bind];
    [|discriminate].
  intros H. injection H as <-.
  assert (map snd keyed = dict_keys d) as <-.
  { revert keyed Hdec. generalize (dict_keys d) as ks.
    induction ks as [|k ks IH]; intros keyed H.
    - cbn in H. now injection H as <-.
    - cbn [map_res] in H.
      destruct (py_int k) as [n|e]; cbn [bind] in H; [|discriminate].
      destruct (map_res _ ks) as [keyed'|e] eqn:Hks; cbn [bind] in H;
        [|discriminate].
      injection H as <-. cbn [map snd]. now rewrite (IH _ eq_refl). }
  apply Permutation_map, sort_by_key_perm.
Qed.

Lemma sorted_keys_sorted {V : Type} (d : dict V) (nums : list string) :
  sorted_keys d = Ok nums ->
  StronglySorted
    (fun a b => exists m n, py_int a = Ok m /\ py_int b = Ok n /\ m <= n) nums.
Proof.
  unfold sorted_keys.
  destruct (map_res _ (dict_keys d)) as [keyed|e] eqn:Hdec; cbn [bind];
    [|discriminate].
  intros H. injection H as <-.
  assert (Forall (fun x => py_int (snd x) = Ok (fst x)) keyed) as Hkeys.
  { revert keyed Hdec. generalize (dict_keys d) as ks.
    induction ks as [|k ks IH]; intros keyed H.
    - cbn in H. injection H as <-. constructor.
    - cbn [map_res] in H.
      destruct (py_int k) as [n|e] eqn:Hk; cbn [bind] in H; [|discriminate].
      destruct (map_res _ ks) as [keyed'|e] eqn:Hks; cbn [bind] in H;
        [|discriminate].
      injection H as <-. constructor; [exact Hk|]. now apply IH. }
  apply (StronglySorted_map fst_le); [|apply sort_by_key_sorted].
  intros x y Hx Hy Hxy. rewrite Forall_forall in Hkeys.
  exists (fst x), (fst y). repeat split.
  - apply Hkeys. eapply Permutation_in; [symmetry; apply sort_by_key_perm|].
    exact Hx.
  - apply Hkeys. eapply Permutation_in; [symmetry; apply sort_by_key_perm|].
    exact Hy.
  - exact Hxy.
Qed.

Lemma StronglySorted_flat_map {A B : Type} (R : A -> A -> Prop)
  (R' : B -> B -> Prop) (f : A -> list B) (l : list A) :
  (forall x, f x = [] \/ exists y, f x = [y]) ->
  (forall x y b1 b2, R x y -> In b1 (f x) -> In b2 (f y) -> R' b1 b2) ->
  StronglySorted R l -> StronglySorted R' (flat_map f l).
Proof.
  intros Hone HR. induction l as [|x l IH]; intros Hs; cbn [flat_map].
  - constructor.
  - inversion Hs as [|? ? Hl Hx]; subst.
    destruct (Hone x) as [E|[y E]]; rewrite E; cbn [app]; [now apply IH|].
    constructor; [now apply IH|].
    apply Forall_forall. intros b Hb. apply in_flat_map in Hb.
    destruct Hb as [x' [Hx' Hb]]. rewrite Forall_forall in Hx.
    apply (HR x x'); [now apply Hx | rewrite E; now left | exact Hb].
Qed.

(** The rows of the page view, drawn whenever every key of the page
    reads as an int, are the problems of the page whose status is the one
    chosen in the filter (every problem, when the filter is on all) and,
    when the search text is not blank, whose status is question and whose
    memo has the trimmed search text as a substring; they are drawn in
    ascending order of the numeric value of their keys.  The trimmed
    search text is the search text without the whitespace at its two
    ends.  With a search text that is not blank and a status filter other
    than all or question no row is shown. *)
Theorem page_rows_filter (unit : PageUnit) (show_only search : string) :
  ((forall k, In k (dict_keys (problems unit)) -> exists n, py_int k = Ok n)
   -> exists rows, page_rows unit show_only search = Ok rows)
  /\ (exists pre post : string,
        search = pre ++ strip search ++ post
        /\ blanks (list_ascii_of_string pre)
        /\ blanks (list_ascii_of_string post)
        /\ starts_blank (list_ascii_of_string (strip search)) = false
        /\ ends_blank (list_ascii_of_string (strip search)) = false)
  /\ forall rows, page_rows unit show_only search = Ok rows ->
       (forall num pr,
          In (num, pr) rows
          <-> dict_get (problems unit) num = Some pr
              /\ (show_only = "전체" \/ status pr = show_only)
              /\ (strip search = ""
                  \/ (status pr = "질문"
                      /\ exists pre post,
                           memo pr = pre ++ strip search ++ post)))
       /\ StronglySorted
            (fun r1 r2 => exists m n, py_int (fst r1) = Ok m
                                      /\ py_int (fst r2) = Ok n /\ m <= n)
            rows
       /\ (strip search <> "" -> show_only <> "전체" -> show_only <> "질문" ->
           rows = []).
Proof.
  forget_builtins.
  assert (forall pr,
            row_shown show_only search pr = true
            <-> (show_only = "전체" \/ status pr = show_only)
                /\ (strip search = ""
                    \/ (status pr = "질문"
                        /\ exists pre post,
                             memo pr = pre ++ strip search ++ post)))
    as Hshown.
  { intros pr. unfold row_shown. rewrite <- contains_spec.
    destruct (String.eqb_spec show_only "전체") as [Hall|Hall];
      destruct (String.eqb_spec (status pr) show_only) as [Hst|Hst];
      destruct (String.eqb_spec (strip search) "") as [Hs|Hs];
      destruct (String.eqb_spec (status pr) "질문") as [Hq|Hq];
      cbn [negb andb];
      (split;
       [ intros H; try discriminate H; split; auto
       | intros [[H1|H1] [H2|[H2 H3]]];
         try reflexivity; try assumption; try contradiction;
         try congruence ]). }
  split; [|split; [apply strip_blanks|]].
  - intros Hnum. unfold page_rows, sorted_keys.
    destruct (map_res_is_ok (fun k => n <- py_int k ;; Ok (n, k))
                            (dict_keys (problems unit))) as [keyed ->].
    + intros k Hk. destruct (Hnum k Hk) as [n ->]. now eexists.
    + cbn [bind]. now eexists.
  - intros rows Hrun. unfold page_rows in Hrun.
    destruct (sorted_keys (problems unit)) as [nums|e] eqn:Hnums;
      cbn [bind] in Hrun; [|discriminate].
    injection Hrun as <-.
    pose proof (sorted_keys_sorted _ _ Hnums) as Hsorted.
    apply sorted_keys_perm in Hnums.
    set (row := fun num : string =>
                  match dict_get (problems unit) num with
                  | Some pr =>
                      if row_shown show_only search pr then [(num, pr)]
                      else []
                  | None => []
                  end).
    assert (forall num r, In r (row num) -> fst r = num) as Hfst.
    { intros num r. unfold row.
      destruct (dict_get (problems unit) num) as [pr|]; [|intros []].
      destruct (row_shown show_only search pr); [|intros []].
      intros [<-|[]]. reflexivity. }
    assert (forall num pr,
              In (num, pr) (flat_map row nums)
              <-> dict_get (problems unit) num = Some pr
                  /\ row_shown show_only search pr = true) as Hmem.
    { intros num pr. rewrite in_flat_map. split.
      - intros [k [_ Hin]]. pose proof (Hfst _ _ Hin) as Hk. cbn in Hk.
        subst k. unfold row in Hin.
        destruct (dict_get (problems unit) num) as [pr'|]; [|destruct Hin].
        destruct (row_shown show_only search pr') eqn:Hshow; [|destruct Hin].
        destruct Hin as [E|[]]. injection E as <-. now split.
      - intros [Hget Hshow]. exists num. split.
        + eapply Permutation_in; [exact Hnums|].
          apply dict_keys_get. congruence.
        + unfold row. rewrite Hget, Hshow. now left. }
    split; [|split].
    + intros num pr. rewrite Hmem, Hshown. reflexivity.
    + apply (StronglySorted_flat_map
               (fun a b => exists m n, py_int a = Ok m /\ py_int b = Ok n
                                       /\ m <= n));
        [| |exact Hsorted].
      * intros num. unfold row.
        destruct (dict_get (problems unit) num) as [pr|]; [|now left].
        destruct (row_shown show_only search pr); [right; now eexists|now left].
      * intros x y b1 b2 Hxy Hb1 Hb2.
        now rewrite (Hfst _ _ Hb1), (Hfst _ _ Hb2).
    + intros Hs Hall Hq.
      destruct (flat_map row nums) as [|[num pr] rest] eqn:El; [reflexivity|].
      exfalso.
      destruct (proj1 (Hmem num pr) (or_introl eq_refl)) as [_ Hshow].
      apply Hshown in Hshow.
      destruct Hshow as [[H1|H1] [H2|[H2 _]]]; congruence.
Qed.

End App.

(* ================================================================== *)
(** ** The properties on examples *)
(* ================================================================== *)

Lemma apply_problem_range_sync_example :
  exists pu' : PageUnit,
    apply_problem_range sample_unit 5 2 = (Ok tt, pu')
    /\ start_problem pu' = Some 2
    /\ end_problem pu' = Some 5
    /\ dict_get (problems pu') "3" = Some (mkProblem "틀림" "x")
    /\ dict_get (problems pu') "4" = Some (mkProblem "완료" "")
    /\ dict_get (problems pu') "9" = None.
Proof.
  destruct (apply_problem_range_sync sample_unit 5 2)
    as [pu' [Hrun [Hs [He [_ [_ [Hin [Hout _]]]]]]]]; try lia.
  exists pu'. split; [exact Hrun|]. split; [exact Hs|]. split; [exact He|].
  split; [exact (Hin 3 ltac:(lia))|]. split; [exact (Hin 4 ltac:(lia))|].
  apply Hout. intros [i [Hi E]].
  assert (i = 2 \/ i = 3 \/ i = 4 \/ i = 5) as Hcases by lia.
  destruct Hcases as [-> | [-> | [-> | ->]]]; discriminate.
Defined.

Lemma apply_problem_range_rejects_example :
  raises_ValueError (fst (apply_problem_range sample_unit 1 502))
  /\ snd (apply_problem_range sample_unit 1 502) = sample_unit.
Proof.
  destruct (apply_problem_range_rejects sample_unit 1 502) as [[_ Hif] Hframe].
  apply Hframe. destruct Hif as [msg Hmsg]; [right; right; reflexivity|].
  exists (ValueError msg). exact Hmsg.
Defined.

Lemma save_load_roundtrip_example :
  exists stt : LoadedState,
    load_state repr_placeholder
      (save_state summary_example_variant (mkDisk None None)) = Ok (Some stt)
    /\ book_name stt = ""
    /\ start_page stt = VInt 2
    /\ end_page stt = VInt 1
    /\ dict_keys (pages stt) = ["9"; "2"; "1"]
    /\ (exists unit' : LoadedPageUnit,
          dict_get (pages stt) "9" = Some unit'
          /\ done unit' = true
          /\ start_problem unit' = VInt 3
          /\ end_problem unit' = VInt 9
          /\ problems unit' = problems sample_unit)
    /\ (exists unit' : LoadedPageUnit,
          dict_get (pages stt) "2" = Some unit'
          /\ start_problem unit' = VNone
          /\ end_problem unit' = VNone
          /\ problems unit' = [("5", mkProblem "질문" "why")]).
Proof.
  destruct (save_load_roundtrip repr_placeholder summary_example_variant
              (mkDisk None None))
    as [stt [Hload [_ [Hbook [Hsp [Hep [Hkeys Hpages]]]]]]].
  { apply state_wfb_wf. reflexivity. }
  exists stt. split; [exact Hload|]. split; [exact Hbook|].
  split; [exact Hsp|]. split; [exact Hep|]. split; [exact Hkeys|]. split.
  - destruct (Hpages "9" sample_unit eq_refl)
      as [unit' [Hget [Hdone [Hs [He Hprobs]]]]].
    exists unit'. repeat split; assumption.
  - destruct (Hpages "2" (mkPageUnit true None None
                            [("5", mkProblem "질문" "why")]) eq_refl)
      as [unit' [Hget [_ [Hs [He Hprobs]]]]].
    exists unit'. repeat split; assumption.
Defined.

Lemma build_summary_reading_order_example :
  exists vs,
    visits int_ascii_only unordered_state 2 3 = Ok vs
    /\ map (fun v => (fst v, fst (snd v))) vs
       = [ (2, "1"); (2, "3"); (2, "12");
           (3, "2"); (3, "9"); (3, "09"); (3, "10"); (3, "11") ]
    /\ StronglySorted (visit_le int_ascii_only) vs
    /\ In "[p.3 09번]" (wrong (groups_of vs))
    /\ In "[p.3 11번] a" (ques (groups_of vs))
    /\ build_summary int_ascii_only unordered_state "2024-05-01"
       = Ok ("✅ 오늘 숙제 정리" ++ nl
             ++ "- 문제집: 쎈" ++ nl
             ++ "- 범위: p.2 ~ p.3" ++ nl
             ++ "- 날짜: 2024-05-01" ++ nl
             ++ nl
             ++ "❌ 틀림" ++ nl
             ++ "[p.2 12번], [p.3 9번], [p.3 09번], [p.3 10번]" ++ nl
             ++ nl
             ++ "🛠️ 틀렸지만 고침" ++ nl
             ++ "[p.2 3번], [p.3 2번]" ++ nl
             ++ nl
             ++ "❓ 질문 + 메모" ++ nl
             ++ "[p.3 11번] a")
    /\ option_map dict_keys
         match sorted_items int_ascii_only (problems sample_unit) with
         | Ok items => Some items
         | Raise _ => None
         end
       = Some ["3"; "03"; "9"; "10"].
Proof.
  pose proof (build_summary_reading_order int_ascii_only unordered_state
                "2024-05-01" 3 2 eq_refl eq_refl) as Hthm.
  cbv zeta in Hthm.
  change (Z.min 3 2) with 2 in Hthm. change (Z.max 3 2) with 3 in Hthm.
  destruct Hthm as [_ [Hret [Hread [_ [Htext _]]]]].
  destruct Hret as [vs Hvs].
  { intros p kv Hp Hkv.
    assert (p = 2 \/ p = 3) as [-> | ->] by (cbn in Hp; lia);
      cbn in Hkv;
      repeat (destruct Hkv as [<-|Hkv]; [eexists; reflexivity|]);
      destruct Hkv. }
  destruct (Hread vs Hvs) as [Hord [Hin [_ Hrep]]].
  pose proof (Htext vs Hvs) as Hsum.
  exists vs. split; [exact Hvs|].
  split; [|split; [exact Hord|split; [|split; [|split; [|reflexivity]]]]].
  - vm_compute in Hvs. injection Hvs as <-. reflexivity.
  - apply (Hrep (3, ("09", mkProblem "틀림" ""))); [|reflexivity].
    apply Hin. split; [cbn; lia | cbn; auto 6].
  - apply (Hrep (3, ("11", mkProblem "질문" " a "))); [|reflexivity].
    apply Hin. split; [cbn; lia | cbn; auto 6].
  - vm_compute in Hvs. injection Hvs as <-. exact Hsum.
Defined.

Lemma ensure_pages_initialized_frame_example :
  start_page (ensure_pages_initialized sample_state) = Some 1
  /\ end_page (ensure_pages_initialized sample_state) = Some 3
  /\ dict_get (pages (ensure_pages_initialized sample_state)) "7"
     = Some sample_unit
  /\ dict_get (pages (ensure_pages_initialized sample_state)) "3"
     = Some default_PageUnit
  /\ ensure_pages_initialized default_AppState = default_AppState.
Proof.
  destruct (ensure_pages_initialized_frame sample_state) as [Hset _].
  destruct (Hset 3 1 eq_refl eq_refl) as [Hs [He [_ [_ [Hkeep [Hnew _]]]]]].
  split; [exact Hs|]. split; [exact He|].
  split; [apply Hkeep; reflexivity|].
  split.
  - apply Hnew; [reflexivity|]. exists 3. split; [cbn; lia | reflexivity].
  - destruct (ensure_pages_initialized_frame default_AppState) as [_ Hunset].
    apply Hunset. now left.
Defined.

Lemma load_state_swallows_errors_example :
  load_state repr_placeholder (mkDisk (Some (JsonDoc (VList []))) None) = Ok None
  /\ load_state repr_placeholder (mkDisk (Some Undecodable) None) = Ok None
  /\ exists stt unit,
       load_state repr_placeholder (mkDisk (Some (JsonDoc sample_doc)) None)
       = Ok (Some stt)
       /\ book_name stt = "" /\ end_page stt = VNone
       /\ dict_get (pages stt) "4" = Some unit
       /\ start_problem unit = VNone.
Proof.
  split; [|split].
  - destruct (load_state_swallows_errors repr_placeholder
                (mkDisk (Some (JsonDoc (VList []))) None))
      as [_ [[_ Hnone] _]].
    apply Hnone. right; right; right. exists (VList []). split; reflexivity.
  - destruct (load_state_swallows_errors repr_placeholder
                (mkDisk (Some Undecodable) None))
      as [_ [[_ Hnone] _]].
    apply Hnone. right; left. reflexivity.
  - destruct (load_state_swallows_errors repr_placeholder
                (mkDisk (Some (JsonDoc sample_doc)) None))
      as [_ [_ [_ Hdef]]].
    remember (load_state repr_placeholder
                (mkDisk (Some (JsonDoc sample_doc)) None)) as r eqn:Hr.
    cbn in Hr. subst r.
    match goal with
    | Hdef : forall stt, Ok (Some ?s) = _ -> _ |- _ =>
        destruct (Hdef s eq_refl) as [d [Hd [Hbn [_ [Hep [_ Hpg]]]]]]
    end.
    injection Hd as <-.
    eexists. eexists. split; [reflexivity|].
    split; [apply Hbn; reflexivity|]. split; [apply Hep; reflexivity|].
    split; reflexivity.
Defined.

Lemma load_state_loads_wrong_structure :
  spec_format_ok (VDict [("pages", VList [])]) = false
  /\ load_state repr_placeholder
       (mkDisk (Some (JsonDoc (VDict [("pages", VList [])]))) None)
     = Ok (Some (mkAppState "" VNone VNone []))
  /\ spec_format_ok (VDict [("pages", VInt 0)]) = false
  /\ load_state repr_placeholder
       (mkDisk (Some (JsonDoc (VDict [("pages", VInt 0)]))) None)
     = Ok (Some (mkAppState "" VNone VNone []))
  /\ spec_format_ok (VDict [("start_page", VStr "abc")]) = false
  /\ load_state repr_placeholder
       (mkDisk (Some (JsonDoc (VDict [("start_page", VStr "abc")]))) None)
     = Ok (Some (mkAppState "" (VStr "abc") VNone []))
  /\ ~ (forall v bak,
          spec_format_ok v = false ->
          load_state repr_placeholder (mkDisk (Some (JsonDoc v)) bak)
          = Ok None).
Proof.
  repeat (split; [reflexivity|]).
  intros H. specialize (H (VDict [("pages", VList [])]) None eq_refl).
  discriminate.
Qed.

Lemma build_summary_range_unset_example :
  build_summary int_ascii_only
    (mkAppState "RPM" (Some 1) None [("1", sample_unit)]) "2024-05-01"
  = Ok "숙제 범위가 설정되지 않았습니다.".
Proof.
  apply build_summary_range_unset. right. reflexivity.
Defined.

Lemma build_summary_skips_other_statuses_example :
  let text :=
    "✅ 오늘 숙제 정리" ++ nl
    ++ "- 문제집: RPM" ++ nl
    ++ "- 범위: p.1 ~ p.1" ++ nl
    ++ "- 날짜: 2024-05-01" ++ nl
    ++ nl
    ++ "❌ 틀림" ++ nl
    ++ "[p.1 3번]" ++ nl
    ++ nl
    ++ "🛠️ 틀렸지만 고침" ++ nl
    ++ "없음" ++ nl
    ++ nl
    ++ "❓ 질문 + 메모" ++ nl
    ++ "없음" in
  build_summary int_ascii_only mixed_status_state "2024-05-01" = Ok text
  /\ build_summary int_ascii_only (prune_state mixed_status_state)
       "2024-05-01"
     = Ok text
  /\ dict_keys (problems_at mixed_status_state 1) = ["1"; "2"; "3"; "4"]
  /\ dict_keys (problems_at (prune_state mixed_status_state) 1) = ["3"]
  /\ visit_problem 1 (mkGroups ["w"] ["f"] ["q"]) ("2", mkProblem "보류" "later")
     = mkGroups ["w"] ["f"] ["q"].
Proof.
  destruct (build_summary_skips_other_statuses int_ascii_only
              mixed_status_state "2024-05-01")
    as [_ [_ [Hskip Hsame]]].
  cbv zeta. split; [reflexivity|]. split; [apply Hsame; reflexivity|].
  split; [reflexivity|]. split; [reflexivity|].
  apply Hskip. reflexivity.
Defined.

Lemma load_state_keeps_unknown_status_example :
  load_state repr_placeholder
    (mkDisk (Some (JsonDoc (doc_with_status "보류"))) None)
  = Ok (Some (mkAppState "" VNone VNone
                [("1", mkPageUnit false VNone VNone
                         [("1", mkProblem "보류" "")])])).
Proof.
  apply (load_state_keeps_unknown_status repr_placeholder "보류").
  cbn. intros [H|[H|[H|[H|[]]]]]; discriminate.
Defined.

Lemma apply_problem_range_idempotent_example :
  apply_problem_range (snd (apply_problem_range sample_unit 5 2)) 5 2
  = (Ok tt, snd (apply_problem_range sample_unit 5 2)).
Proof.
  apply (apply_problem_range_idempotent sample_unit). reflexivity.
Defined.

Lemma build_summary_frame_example :
  build_summary int_ascii_only summary_example "2024-05-01"
  = build_summary int_ascii_only summary_example_variant "2024-05-01".
Proof.
  apply (build_summary_frame int_ascii_only summary_example
           summary_example_variant "2024-05-01" 1 2 2 1);
    try reflexivity.
  intros p Hp. assert (p = 1 \/ p = 2) as [-> | ->] by (cbn in Hp; lia);
    reflexivity.
Defined.

Lemma build_summary_raises_on_bad_key_example :
  raises (build_summary int_ascii_only bad_key_state "2024-05-01").
Proof.
  apply (build_summary_raises_on_bad_key int_ascii_only bad_key_state
           "2024-05-01" 1 1 eq_refl eq_refl)
    with (p := 1) (kv := ("abc", mkProblem "틀림" "")) (err := int_err "abc").
  - cbn. lia.
  - cbn. now left.
  - reflexivity.
Defined.


Lemma build_summary_returns_on_numerals_example :
  exists text,
    build_summary int_ascii_only summary_example "2024-05-01" = Ok text.
Proof.
  apply (build_summary_returns_on_numerals int_ascii_only summary_example
           "2024-05-01" 1 2 eq_refl eq_refl).
  intros p kv Hp Hkv.
  assert (p = 1 \/ p = 2) as [-> | ->] by (cbn in Hp; lia); cbn in Hkv;
    destruct Hkv as [<-|[]].
  - now exists 3.
  - now exists 5.
Defined.

Lemma save_state_backup_example :
  load_state repr_placeholder
    (mkDisk (BAK_FILE (save_state summary_example
                         (save_state sample_state (mkDisk None None)))) None)
  = Ok (Some (loaded_of sample_state))
  /\ BAK_FILE (save_state sample_state (mkDisk (Some (Garbled "{")) None))
     = Some (Garbled "{")
  /\ BAK_FILE (save_state sample_state
                 (mkDisk (Some Undecodable) (Some (JsonDoc (VInt 1)))))
     = Some (JsonDoc (VInt 1)).
Proof.
  assert (state_wf sample_state) as Hwf1 by (apply state_wfb_wf; reflexivity).
  assert (state_wf summary_example) as Hwf2
    by (apply state_wfb_wf; reflexivity).
  split; [|split].
  - apply (save_state_backup repr_placeholder sample_state summary_example
             (mkDisk None None) Hwf1 Hwf2).
  - destruct (save_state_backup repr_placeholder sample_state summary_example
                (mkDisk (Some (Garbled "{")) None) Hwf1 Hwf2) as [Hold _].
    apply Hold; [reflexivity|discriminate].
  - destruct (save_state_backup repr_placeholder sample_state summary_example
                (mkDisk (Some Undecodable) (Some (JsonDoc (VInt 1))))
                Hwf1 Hwf2) as [_ [Hkeep _]].
    apply Hkeep. left. reflexivity.
Defined.

Lemma reset_disk_forgets_example :
  load_state repr_placeholder
    (reset_disk (save_state sample_state (mkDisk None None))) = Ok None
  /\ BAK_FILE (save_state sample_state
                 (reset_disk (save_state sample_state (mkDisk None None))))
     = None.
Proof.
  destruct (reset_disk_forgets repr_placeholder sample_state
              (save_state sample_state (mkDisk None None)))
    as [Hload [_ [_ [Hbak _]]]].
  - apply state_wfb_wf. reflexivity.
  - split; [exact Hload | exact Hbak].
Defined.

Lemma copy_button_html_verbatim_example :
  copy_button_html "${1+1}" = html_head ++ "${1+1}" ++ html_tail.
Proof.
  apply copy_button_html_verbatim.
  intros c Hc. cbn in Hc.
  repeat (destruct Hc as [<-|Hc]; [split; discriminate|]). destruct Hc.
Defined.

Lemma home_progress_bounds_example :
  exists done_cnt total,
    home_progress sample_state = Some (done_cnt, total)
    /\ total = 3 /\ 0 <= done_cnt <= total.
Proof.
  destruct (home_progress_bounds sample_state 3 1 eq_refl eq_refl)
    as [done_cnt [total [Hrun [Htotal [Hbounds _]]]]].
  exists done_cnt, total. split; [exact Hrun|]. split; [|exact Hbounds].
  rewrite Htotal. reflexivity.
Defined.
